(** * Asynchronous job lifecycle of the fraud-detection web client

    A shallow embedding of [services/web/js/api.js] ([fetchAPI],
    [PredictionAPI.analyzeTransaction], [PredictionAPI.getPrediction]) and of
    the polling method [App.checkPredictionStatus] of the page controller,
    followed by the properties of the specification that concern them; then
    of the rest of the client that can be told without the document: the
    other calls of api.js, the [Auth] class of [services/web/js/auth.js], and
    the handlers of [App] for a submission, for the balance and for the size
    of an image, with the properties that the code itself shows.

    JavaScript values are a small tree type; the effects of the code (network
    requests, timers, balance refreshes, the two retry counters kept on the
    [App] instance and the content of the result pane) are threaded through an
    explicit state, and a thrown [Error] is an outcome of its own. *)

From Stdlib Require Import String Ascii List Bool Arith ZArith QArith Qminmax Qround Qpower Qabs Lia Lqa DecimalString.
Import ListNotations.
Local Open Scope string_scope.
Set Warnings "-register-all".

(** ** Strings

    A string is the text of a JavaScript string, written in UTF-8 as the
    source file writes its literals; the Cyrillic literals of the source are
    kept as they are written there.  Between well-formed texts [includes]
    agrees with [String.prototype.includes].  The engine counts a string in
    UTF-16 units: [jsLength] and [substring0] count so, one unit for a
    character written in up to three bytes and two for one written in
    four. *)

Fixpoint includes (s needle : string) : bool :=
  if String.prefix needle s then true
  else match s with
       | EmptyString => false
       | String _ rest => includes rest needle
       end.

(** The UTF-16 units that begin at a byte: none at a byte that continues a
    character. *)
Definition unitsOfByte (c : ascii) : nat :=
  let b := nat_of_ascii c in
  if (b <? 128)%nat then 1
  else if (b <? 192)%nat then 0
  else if (b <? 240)%nat then 1
  else 2.

(** [s.length] *)
Fixpoint jsLength (s : string) : nat :=
  match s with
  | EmptyString => 0
  | String c rest => (unitsOfByte c + jsLength rest)%nat
  end.

(** The first of the two units of a character written in four bytes, of
    which [lead] is the first and [rest] begins with the others: a cut
    between the two units leaves it alone, written here in three bytes as
    any other unit of its size. *)
Definition highSurrogate (lead : ascii) (rest : string) : string :=
  let bits :=
    match rest with
    | String c1 (String c2 _) =>
        ((nat_of_ascii lead mod 8) * 256 + (nat_of_ascii c1 mod 64) * 4
         + (nat_of_ascii c2 mod 64) / 16 - 64)%nat
    | _ => 0%nat
    end in
  String (ascii_of_nat 237)
    (String (ascii_of_nat (160 + (bits / 64) mod 16))
       (String (ascii_of_nat (128 + bits mod 64)) EmptyString)).

(** [s.substring(0, n)] *)
Fixpoint substring0 (n : nat) (s : string) : string :=
  match s with
  | EmptyString => EmptyString
  | String c rest =>
      if (unitsOfByte c <=? n)%nat then String c (substring0 (n - unitsOfByte c) rest)
      else if (n =? 1)%nat then highSurrogate c rest
      else EmptyString
  end.

Fixpoint join (sep : string) (l : list string) : string :=
  match l with
  | [] => ""
  | [x] => x
  | x :: rest => x ++ sep ++ join sep rest
  end.

(** ** JavaScript values *)

Inductive JValue : Type :=
| JUndefined
| JNull
| JBool (b : bool)
| JNum (q : Q)
| JStr (s : string)
| JArr (items : list JValue)
| JObj (members : list (string * JValue)).

(** An [Error] object: its [name] and its [message]. *)
Record JsError : Type := mkError { name : string; message : string }.

Definition Error (msg : string) : JsError := mkError "Error" msg.

(** What the engine puts in the message of a [TypeError] it raises itself
    differs from one engine to the next, and so does the printing of a
    number; both are left to the host. *)
Inductive TypeErrorSite : Type :=
| ReadOfNullish (prop : string)
| NotAFunction (expr : string)
| NotPrimitive.

Record Host : Type := mkHost {
  typeErrorMessage : TypeErrorSite -> string;
  numberToString : Q -> string
}.

(** The places where this code can make the engine raise a [TypeError]. *)
Definition typeErrorSites : list TypeErrorSite :=
  [ReadOfNullish "detail"; ReadOfNullish "status";
   NotAFunction "result.processing_time.toFixed";
   NotAFunction "prediction.result.prediction.includes";
   NotAFunction "prediction.result.includes";
   NotPrimitive].

Definition Qzerob (q : Q) : bool := Qeq_bool q 0.

(** ToBoolean *)
Definition truthy (v : JValue) : bool :=
  match v with
  | JUndefined | JNull => false
  | JBool b => b
  | JNum q => negb (Qzerob q)
  | JStr s => negb (String.eqb s "")
  | JArr _ | JObj _ => true
  end.

(** the [typeof] operator *)
Definition typeOf (v : JValue) : string :=
  match v with
  | JUndefined => "undefined"
  | JNull => "object"
  | JBool _ => "boolean"
  | JNum _ => "number"
  | JStr _ => "string"
  | JArr _ | JObj _ => "object"
  end.

(** Members of an object as [JSON.parse] and an object literal build them:
    of two members with one key the later one stays. *)
Fixpoint lookup (members : list (string * JValue)) (key : string) : option JValue :=
  match members with
  | [] => None
  | (k, v) :: rest =>
      match lookup rest key with
      | Some v' => Some v'
      | None => if String.eqb k key then Some v else None
      end
  end.

(** [v.key] on a value that is neither [null] nor [undefined], for the member
    names the client reads ([status], [result], [detail], ...): none of them
    is a built-in property of strings, numbers, booleans or arrays. *)
Definition getProp (v : JValue) (key : string) : JValue :=
  match v with
  | JObj members => match lookup members key with Some x => x | None => JUndefined end
  | _ => JUndefined
  end.

(** [key in v] on a value whose [typeof] is ["object"] and that is not
    [null], for the same kind of names. *)
Definition hasProperty (key : string) (v : JValue) : bool :=
  match v with
  | JObj members => match lookup members key with Some _ => true | None => false end
  | _ => false
  end.

(** The engine can turn [v] into a string or a number, as a template
    literal and [*] ask of it.  An object from JSON has no method of its own:
    a member called [toString] hides the inherited one and makes the
    conversion fail with a [TypeError]; an array is converted through its
    elements, [null] and [undefined] among them counting for nothing. *)
Fixpoint convertible (v : JValue) : bool :=
  match v with
  | JArr items => forallb convertible items
  | JObj members =>
      match lookup members "toString" with Some _ => false | None => true end
  | _ => true
  end.

(** [v || fallback] *)
Definition orElse (v : JValue) (fallback : string) : JValue :=
  if truthy v then v else JStr fallback.

(** [v === s] for a string [s] *)
Definition strictEqStr (v : JValue) (s : string) : bool :=
  match v with
  | JStr t => String.eqb t s
  | _ => false
  end.

Section WithHost.

Variable host : Host.

(** ToString *)
Fixpoint toString (v : JValue) : string :=
  match v with
  | JUndefined => "undefined"
  | JNull => "null"
  | JBool true => "true"
  | JBool false => "false"
  | JNum q => numberToString host q
  | JStr s => s
  | JArr items =>
      join "," (map (fun x => match x with
                              | JUndefined | JNull => ""
                              | _ => toString x
                              end) items)
  | JObj _ => "[object Object]"
  end.

Definition TypeError (site : TypeErrorSite) : JsError :=
  mkError "TypeError" (typeErrorMessage host site).

End WithHost.

(** ** The world around the code *)

(** What the client reads of a [Response]; [json] and [text] are the results
    of awaiting [response.json()] and [response.text()], which may reject. *)
Record Response : Type := mkResponse {
  ok : bool;
  status : Z;
  statusText : string;
  contentType : option string;
  json : JsError + JValue;
  text : JsError + string
}.

Inductive FetchOutcome : Type :=
| Rejected (e : JsError)
| Resolved (r : Response).

Record Request : Type := mkRequest {
  url : string;
  method : string;
  authorization : option string;
  body : option JValue
}.

(** What a timer runs when it fires. *)
Inductive Task : Type :=
| TCheckPredictionStatus (predictionId : JValue)
| TLoadBalance
| TBindHistoryButton.

(** The content of the result pane, [this.resultContent.innerHTML]. *)
Inductive View : Type :=
| VBlank
| VInvalidId
| VPrediction (prediction : JValue)
| VNoPrediction
| VPending
| VNotFound
| VRetrying
| VTechnicalProblems
| VOtherError (msg : string).

(** The leading paragraph of each view, as the source writes it. *)
Definition viewText (v : View) : string :=
  match v with
  | VBlank => ""
  | VInvalidId => "Ошибка: некорректный идентификатор предсказания"
  | VPrediction _ => "ID: "
  | VNoPrediction => "Ошибка: Не удалось получить информацию об анализе транзакции"
  | VPending => "Предсказание в процессе обработки... Ожидайте результата."
  | VNotFound => "Предсказание не найдено. Возможно, оно было удалено или произошла ошибка."
  | VRetrying => "Предсказание в процессе обработки. Возникли временные трудности, пытаемся получить результат..."
  | VTechnicalProblems => "Не удалось получить результат предсказания из-за технических проблем."
  | VOtherError msg => "Ошибка при проверке статуса предсказания: " ++ msg
  end.

Inductive Event : Type :=
| EFetch (r : Request)
| EWait (ms : Q)
| ELoadBalance
| ESetTimeout (delay : Q) (task : Task)
| EShow (v : View).

(** The credential in [localStorage] and the answers of the network: the
    [n]-th [fetch] of a run gets [network n]. *)
Record Env : Type := mkEnv {
  token : option string;
  network : nat -> FetchOutcome
}.

(** The fields of the [App] instance the poller uses, with the record of what
    the code did: [trace] in the order of the calls, [timers] the timers set
    and not yet fired, in the order of the [setTimeout] calls, each with its
    delay in milliseconds.  A counter that was never assigned is [None]
    ([undefined]). *)
Record State : Type := mkState {
  trace : list Event;
  timers : list (Q * Task);
  predictionRetryCount : option nat;
  predictionErrorRetryCount : option nat;
  resultContent : View
}.

Definition freshApp : State := mkState [] [] None None VBlank.

Inductive Outcome (A : Type) : Type :=
| Return (a : A)
| Throw (e : JsError).
Arguments Return {A} a.
Arguments Throw {A} e.

(** ** A monad for code that reads the environment, changes the state and may throw *)

Definition M (A : Type) : Type := Env -> State -> Outcome A * State.

Definition ret {A} (a : A) : M A := fun _ st => (Return a, st).

Definition throw {A} (e : JsError) : M A := fun _ st => (Throw e, st).

Definition bind {A B} (m : M A) (k : A -> M B) : M B :=
  fun env st =>
    match m env st with
    | (Return a, st') => k a env st'
    | (Throw e, st') => (Throw e, st')
    end.

(** [try { m } catch (error) { handler }]: the state changes of [m] before
    the throw stay. *)
Definition tryCatch {A} (m : M A) (handler : JsError -> M A) : M A :=
  fun env st =>
    match m env st with
    | (Return a, st') => (Return a, st')
    | (Throw e, st') => handler e env st'
    end.

Notation "x <- m ;; k" := (bind m (fun x => k))
  (at level 61, m at next level, right associativity).
Notation "m ;;; k" := (bind m (fun _ => k))
  (at level 61, right associativity).

Definition getToken : M (option string) := fun env st => (Return (token env), st).

Definition emit (e : Event) : M unit :=
  fun _ st => (Return tt, mkState (trace st ++ [e]) (timers st)
                            (predictionRetryCount st) (predictionErrorRetryCount st)
                            (resultContent st)).

Definition isFetch (e : Event) : bool :=
  match e with EFetch _ => true | _ => false end.

Definition fetchCount (st : State) : nat := length (filter isFetch (trace st)).

(** [await fetch(url, options)] *)
Definition fetch (r : Request) : M Response :=
  fun env st =>
    match network env (fetchCount st) with
    | Rejected e => emit (EFetch r) ;;; throw e
    | Resolved resp => emit (EFetch r) ;;; ret resp
    end env st.

(** [setTimeout(task, delay)] *)
Definition setTimeout (task : Task) (delay : Q) : M unit :=
  fun _ st => (Return tt, mkState (trace st ++ [ESetTimeout delay task])
                            (timers st ++ [(delay, task)])
                            (predictionRetryCount st) (predictionErrorRetryCount st)
                            (resultContent st)).

(** [await new Promise(resolve => setTimeout(resolve, ms))] *)
Definition wait (ms : Q) : M unit := emit (EWait ms).

(** [this.loadBalance()], not awaited: the balance refresh of the page. *)
Definition loadBalance : M unit := emit ELoadBalance.

(** [this.resultContent.innerHTML = ...] *)
Definition setResultContent (v : View) : M unit :=
  fun _ st => (Return tt, mkState (trace st ++ [EShow v]) (timers st)
                            (predictionRetryCount st) (predictionErrorRetryCount st) v).

Definition getRetryCount : M (option nat) :=
  fun _ st => (Return (predictionRetryCount st), st).

Definition setRetryCount (n : nat) : M unit :=
  fun _ st => (Return tt, mkState (trace st) (timers st) (Some n)
                            (predictionErrorRetryCount st) (resultContent st)).

Definition getErrorRetryCount : M (option nat) :=
  fun _ st => (Return (predictionErrorRetryCount st), st).

Definition setErrorRetryCount (n : nat) : M unit :=
  fun _ st => (Return tt, mkState (trace st) (timers st) (predictionRetryCount st)
                            (Some n) (resultContent st)).

(** [x || 0] on a counter *)
Definition orZero (x : option nat) : nat :=
  match x with Some n => n | None => 0 end.

(** ** services/web/js/api.js *)

Section Client.

Variable host : Host.

Definition API_URL : string := "http://localhost:8000".

(** [v.key], a [TypeError] on [null] and [undefined] *)
Definition readProp (v : JValue) (key : string) : M JValue :=
  match v with
  | JUndefined | JNull => throw (TypeError host (ReadOfNullish key))
  | _ => ret (getProp v key)
  end.

Definition awaitBody {A} (b : JsError + A) : M A :=
  match b with
  | inl e => throw e
  | inr a => ret a
  end.

(** [!contentType] *)
Definition noContentType (contentType : option string) : bool :=
  match contentType with
  | None => true
  | Some ct => String.eqb ct ""
  end.

Definition isJson (contentType : option string) : bool :=
  match contentType with
  | None => false
  | Some ct => negb (String.eqb ct "") && includes ct "application/json"
  end.

(** The message of the [Error] thrown on a response that is not [ok]
    (lines 60-78 of api.js). *)
Definition errorMessageOf (response : Response) : M string :=
  let errorMessage := "Произошла ошибка при выполнении запроса" in
  tryCatch
    (if isJson (contentType response) then
       errorData <- awaitBody (json response) ;;
       detail <- readProp errorData "detail" ;;
       ret (if truthy detail then toString host detail else errorMessage)
     else
       t <- awaitBody (text response) ;;
       let errorMessage := if String.eqb t "" then errorMessage else t in
       ret (if (100 <? jsLength errorMessage)%nat
            then substring0 100 errorMessage ++ "..."
            else errorMessage))
    (fun _ =>
       ret ("Ошибка " ++ numberToString host (inject_Z (status response))
              ++ ": " ++ statusText response)).

(** [fetchAPI(endpoint, method = 'GET', data = null, auth = true)].
    [JSON.stringify] throws on cyclic structures and on BigInt only, which
    [JValue] has not: the request carries [data] itself as its body. *)
Definition fetchAPI (endpoint method : string) (data : JValue) (auth : bool) : M JValue :=
  let url := API_URL ++ endpoint in
  authorization <-
    (if auth then
       token <- getToken ;;
       match token with
       | None => throw (Error "Требуется авторизация")
       | Some t =>
           if String.eqb t "" then throw (Error "Требуется авторизация")
           else ret (Some ("Bearer " ++ t))
       end
     else ret None) ;;
  let body :=
    if truthy data && existsb (String.eqb method) ["POST"; "PUT"; "PATCH"]
    then Some data else None in
  tryCatch
    (response <- fetch (mkRequest url method authorization body) ;;
     if negb (ok response) then
       errorMessage <- errorMessageOf response ;;
       throw (Error errorMessage)
     else if noContentType (contentType response) then
       ret JNull
     else if isJson (contentType response) then
       tryCatch (awaitBody (json response))
                (fun _ => throw (Error "Получен некорректный JSON от сервера"))
     else
       textResponse <- awaitBody (text response) ;;
       ret (JStr textResponse))
    (fun error =>
       if String.eqb (name error) "AbortError" then
         throw (Error "Превышено время ожидания ответа от сервера")
       else if String.eqb (name error) "TypeError"
               && includes (message error) "Failed to fetch" then
         throw (Error "Не удалось подключиться к серверу. Проверьте подключение к интернету.")
       else throw error).

(** *** PredictionAPI.analyzeTransaction *)

Definition requiredFields : list string :=
  ["id"; "amount"; "origin_account"; "dest_account";
   "old_balance_orig"; "new_balance_orig";
   "old_balance_dest"; "new_balance_dest";
   "hour"; "day"; "month"].

(** [for (const field of fields) if (!(field in transactionData)) throw ...] *)
Fixpoint checkFields (fields : list string) (transactionData : JValue) : M unit :=
  match fields with
  | [] => ret tt
  | field :: rest =>
      if negb (hasProperty field transactionData) then
        throw (Error ("Отсутствует обязательное поле: " ++ field))
      else checkFields rest transactionData
  end.

Definition analyzeTransaction (transactionData : JValue) : M JValue :=
  if negb (truthy transactionData)
     || negb (String.eqb (typeOf transactionData) "object") then
    throw (Error "Не предоставлены данные транзакции для анализа")
  else
    checkFields requiredFields transactionData ;;;
    let data := JObj [("data", JObj [("transaction", transactionData)])] in
    tryCatch (fetchAPI "/api/predictions/predict" "POST" data true)
             (fun error => throw error).

(** *** PredictionAPI.getPrediction *)

Definition maxRetries : nat := 3.
Definition retryDelay : Q := 1000.

(** The [while (retries < maxRetries)] loop, by the number [left] of
    iterations that remain: [retries = maxRetries - left]. *)
Fixpoint getPrediction_while (left : nat) (id : JValue) : M JValue :=
  match left with
  | O => ret JUndefined
  | S left' =>
      let retries := (maxRetries - left)%nat in
      tryCatch
        (fetchAPI ("/api/predictions/" ++ toString host id) "GET" JNull true)
        (fun error =>
           let retries := S retries in
           if (maxRetries <=? retries)%nat
              || (negb (String.eqb (message error) "")
                  && negb (includes (message error) "сервер")) then
             throw error
           else
             wait retryDelay ;;;
             getPrediction_while left' id)
  end.

Definition getPrediction (id : JValue) : M JValue :=
  if negb (truthy id) then
    throw (Error "Не указан идентификатор предсказания")
  else getPrediction_while maxRetries id.

(** ** The page controller: App.displayPredictionResult and App.checkPredictionStatus *)

Definition isNumber (v : JValue) : bool :=
  match v with JNum _ => true | _ => false end.

(** [`${v}`] and [v * 100], for what they can throw. *)
Definition convert (v : JValue) : M unit :=
  if convertible v then ret tt else throw (TypeError host NotPrimitive).

(** Of the rendering only what can stop it is kept, in the order of the
    source: the values put into the text are converted to strings and those
    multiplied to numbers, and [toFixed] is called on
    [result.processing_time] when that is truthy, which only a number has. *)
Definition displayPredictionResult (prediction : JValue) : M unit :=
  if negb (truthy prediction) then setResultContent VNoPrediction
  else
    convert (orElse (getProp prediction "prediction_id") "N/A") ;;;
    convert (orElse (getProp prediction "cost") "1.0") ;;;
    (if strictEqStr (getProp prediction "status") "completed"
        && truthy (getProp prediction "result") then
       let result := getProp prediction "result" in
       convert (getProp result "fraud_probability") ;;;
       convert (getProp result "confidence") ;;;
       (if truthy (getProp result "processing_time")
           && negb (isNumber (getProp result "processing_time")) then
          throw (TypeError host (NotAFunction "result.processing_time.toFixed"))
        else ret tt) ;;;
       convert (orElse (getProp result "transaction_id") "N/A") ;;;
       convert (orElse (getProp result "worker_id") "N/A")
     else if strictEqStr (getProp prediction "status") "pending" then ret tt
     else if strictEqStr (getProp prediction "status") "failed" then
       let result := getProp prediction "result" in
       convert (if truthy result && truthy (getProp result "error")
                then getProp result "error"
                else JStr "Не удалось выполнить анализ транзакции")
     else ret tt) ;;;
    setResultContent (VPrediction prediction).

Definition marker : string := "Лица не обнаружены".

(** [x.includes(needle)] on a truthy [x]: strings and arrays have the method. *)
Definition callIncludes (x : JValue) (expr needle : string) : M bool :=
  match x with
  | JStr s => ret (includes s needle)
  | JArr items => ret (existsb (fun y => strictEqStr y needle) items)
  | _ => throw (TypeError host (NotAFunction expr))
  end.

(** The condition of lines 395-398, on a [prediction] whose [status] could be
    read. *)
Definition refundExpected (prediction : JValue) : M bool :=
  if strictEqStr (getProp prediction "status") "failed" then ret true
  else
    let result := getProp prediction "result" in
    if negb (truthy result) then ret false
    else
      inObject <-
        (if String.eqb (typeOf result) "object"
            && truthy (getProp result "prediction") then
           callIncludes (getProp result "prediction")
                        "prediction.result.prediction.includes" marker
         else ret false) ;;
      if inObject then ret true
      else if String.eqb (typeOf result) "string" then
        callIncludes result "prediction.result.includes" marker
      else ret false.

Definition baseDelay : Q := 2000.
Definition maxDelay : Q := 10000.

(** [Math.min(baseDelay * Math.pow(1.5, retryCount), maxDelay)], over the
    rationals: up to [retryCount = 3] the doubles of the source are exact
    (2000, 3000, 4500, 6750) and from 4 on the product is above [maxDelay]
    however the power is rounded. *)
Definition pendingDelay (retryCount : nat) : Q :=
  Qmin (baseDelay * Qpower (3 # 2) (Z.of_nat retryCount)) maxDelay.

Definition maxErrorRetries : nat := 3.
Definition errorRetryDelay : Q := 5000.

(** The body of the [try] of [checkPredictionStatus] once the status query
    has returned [prediction] (lines 385-426). *)
Definition onStatus (predictionId prediction : JValue) : M unit :=
  status <- readProp prediction "status" ;;
  if negb (strictEqStr status "pending") then
    displayPredictionResult prediction ;;;
    loadBalance ;;;
    refund <- refundExpected prediction ;;
    if refund then setTimeout TLoadBalance 1000 else ret tt
  else
    setResultContent VPending ;;;
    count <- getRetryCount ;;
    let retryCount := orZero count in
    setRetryCount (retryCount + 1) ;;;
    let delay := pendingDelay retryCount in
    setTimeout (TCheckPredictionStatus predictionId) delay.

(** The [catch] of [checkPredictionStatus] (lines 427-486). *)
Definition onStatusError (predictionId : JValue) (error : JsError) : M unit :=
  if negb (String.eqb (message error) "")
     && includes (message error) "not found" then
    setResultContent VNotFound
  else if negb (String.eqb (message error) "")
          && includes (message error) "Internal Server Error" then
    setResultContent VRetrying ;;;
    count <- getErrorRetryCount ;;
    let errorRetryCount := orZero count in
    setErrorRetryCount (errorRetryCount + 1) ;;;
    if (errorRetryCount + 1 <=? maxErrorRetries)%nat then
      setTimeout (TCheckPredictionStatus predictionId) errorRetryDelay
    else
      setResultContent VTechnicalProblems ;;;
      setTimeout TBindHistoryButton 100
  else
    setResultContent (VOtherError (message error)).

Definition checkPredictionStatus (predictionId : JValue) : M unit :=
  if negb (truthy predictionId) then
    setResultContent VInvalidId
  else
    tryCatch
      (prediction <- getPrediction predictionId ;;
       onStatus predictionId prediction)
      (onStatusError predictionId).

(** ** Timers firing *)

Definition runTask (t : Task) : M unit :=
  match t with
  | TCheckPredictionStatus predictionId => checkPredictionStatus predictionId
  | TLoadBalance => loadBalance
  | TBindHistoryButton => ret tt
  end.

Fixpoint takeTimer (i : nat) (l : list (Q * Task)) : option (Task * list (Q * Task)) :=
  match l, i with
  | [], _ => None
  | (_, t) :: rest, O => Some (t, rest)
  | x :: rest, S j =>
      match takeTimer j rest with
      | Some (t, rest') => Some (t, x :: rest')
      | None => None
      end
  end.

Definition setTimers (l : list (Q * Task)) : M unit :=
  fun _ st => (Return tt, mkState (trace st) l (predictionRetryCount st)
                            (predictionErrorRetryCount st) (resultContent st)).

(** The timers fire one at a time and each callback runs to its end before
    the next: [picks] says which of the waiting timers fires next, so that
    every order in which the timers of several jobs can come due is a
    schedule.  A pick beyond the waiting timers ends the run. *)
Fixpoint runSchedule (picks : list nat) : M unit :=
  match picks with
  | [] => ret tt
  | i :: rest =>
      fun env st =>
        match takeTimer i (timers st) with
        | None => (Return tt, st)
        | Some (task, waiting) =>
            (setTimers waiting ;;; runTask task ;;; runSchedule rest) env st
        end
  end.

End Client.

(** * The rest of the client *)

(** ** The rest of services/web/js/api.js *)

Section RestOfApi.

Variable host : Host.

(** *** AuthAPI *)

(** The message of the [Error] that [login] throws on a response that is
    not [ok] (lines 143-160 of api.js): here the [catch] only logs, so the
    message stays the one set before the failure. *)
Definition loginErrorMessage (response : Response) : M string :=
  let errorMessage := "Ошибка при авторизации" in
  tryCatch
    (if isJson (contentType response) then
       errorData <- awaitBody (json response) ;;
       detail <- readProp host errorData "detail" ;;
       ret (if truthy detail then toString host detail else errorMessage)
     else
       t <- awaitBody (text response) ;;
       let errorMessage := if String.eqb t "" then errorMessage else t in
       ret (if (100 <? jsLength errorMessage)%nat
            then substring0 100 errorMessage ++ "..."
            else errorMessage))
    (fun _ => ret errorMessage).

(** [AuthAPI.login(username, password)]: its own [fetch], without the
    timeout, the credential and the error wording of [fetchAPI].  The form
    body ([URLSearchParams]) is given by its two fields. *)
Definition login (username password : string) : M JValue :=
  let formData := JObj [("username", JStr username); ("password", JStr password)] in
  tryCatch
    (response <- fetch (mkRequest (API_URL ++ "/api/token") "POST" None (Some formData)) ;;
     if negb (ok response) then
       errorMessage <- loginErrorMessage response ;;
       throw (Error errorMessage)
     else if isJson (contentType response) then
       awaitBody (json response)
     else
       throw (Error "Неверный формат ответа от сервера"))
    (fun error => throw error).

(** [AuthAPI.register(username, password, email = null)] *)
Definition register (username password email : JValue) : M JValue :=
  let data :=
    JObj ([("username", username); ("password", password)]
          ++ (if truthy email then [("email", email)] else []))%list in
  tryCatch (fetchAPI host "/api/register" "POST" data false)
           (fun _ => fetchAPI host "/api/users" "POST" data false).

Definition getCurrentUser : M JValue := fetchAPI host "/api/users/me" "GET" JNull true.

(** *** PredictionAPI.getPredictionHistory *)

(** The loop of [getPredictionHistory], as that of [getPrediction]: the same
    two constants are declared anew in it. *)
Fixpoint getPredictionHistory_while (left : nat) : M JValue :=
  match left with
  | O => ret JUndefined
  | S left' =>
      let retries := (maxRetries - left)%nat in
      tryCatch
        (fetchAPI host "/api/predictions/" "GET" JNull true)
        (fun error =>
           let retries := S retries in
           if (maxRetries <=? retries)%nat
              || (negb (String.eqb (message error) "")
                  && negb (includes (message error) "сервер")) then
             throw error
           else
             wait retryDelay ;;;
             getPredictionHistory_while left')
  end.

Definition getPredictionHistory : M JValue := getPredictionHistory_while maxRetries.

(** *** BalanceAPI *)

Definition getBalance : M JValue := fetchAPI host "/api/balance/" "GET" JNull true.

End RestOfApi.

(** ** App.resizeImage *)

(** [Math.round]: to the nearest integer, a half upwards. *)
Definition Math_round (x : Q) : Z := Qfloor (x + (1 # 2)).

(** The size of the canvas on which [resizeImage(img, maxWidth)] draws the
    image, from the width and the height of [img]: the data URL it returns
    is the encoding of that canvas.  The quotient is taken over the
    rationals, where the source takes the nearest double: the two round to
    the same integer while the product of the height and [maxWidth] is below
    [2^52], and can differ beyond. *)
Definition resizeImage (imgWidth imgHeight maxWidth : Z) : Z * Z :=
  if (maxWidth <? imgWidth)%Z then
    (maxWidth,
     Math_round (inject_Z imgHeight * inject_Z maxWidth / inject_Z imgWidth))
  else (imgWidth, imgHeight).

(** ** The page: Auth (auth.js) and the handlers of App *)

(** The result pane with the views that the submission handlers add to
    those of the poller. *)
Inductive Pane : Type :=
| PaneOf (v : View)
| PaneLoading
| PaneInsufficientFunds
| PaneServerUnavailable
| PaneAnalysisError (msg : string).

(** The content of [this.currentBalance]: an amount (shown with two
    decimals), the waiting text, or an error. *)
Inductive BalanceShown : Type :=
| BalanceBlank
| BalanceAmount (q : Q)
| BalanceLoading
| BalanceError (msg : string).

(** What the timers of the handlers run, those of the poller apart. *)
Inductive PageTask : Type :=
| TBindBalanceButton.

(** The [Auth] instance with what it keeps in [localStorage] and shows.
    [authToken] is [this.token]; [storedUser] is the value whose JSON text is
    stored; [loginError] and [registerError] are the error texts when they
    are shown; [usernameText] is the value assigned to the name on the page;
    [homeClicks] counts the clicks that [updateUI] sends to the home link,
    whose handler only changes the section shown. The fields of the forms are
    arguments of the handlers, and their reset is left out. *)
Record Auth : Type := mkAuth {
  storedToken : option string;
  storedUser : option JValue;
  authToken : JValue;
  user : JValue;
  isAuthenticated : bool;
  loginError : option string;
  registerError : option string;
  loginModal : bool;
  registerModal : bool;
  userShown : bool;
  usernameText : JValue;
  homeClicks : nat
}.

(** The numbers and texts that [handleTransactionAnalysis] reads from the
    form, after [parseFloat] and [parseInt]: [None] is [NaN]. The infinities,
    which [parseFloat] reads from the text Infinity, are left out. *)
Record TransactionForm : Type := mkForm {
  txId : string;
  txAmount : option Q;
  txOrigin : string;
  txDestination : string;
  txOldBalOrig : option Q;
  txNewBalOrig : option Q;
  txOldBalDest : option Q;
  txNewBalDest : option Q;
  txHour : option Q;
  txDay : option Q;
  txMonth : option Q
}.

(** The page: the state of the poller, the [Auth] instance, and what the
    handlers show. *)
Record Page : Type := mkPage {
  app : State;
  auth : Auth;
  pane : Pane;
  resultVisible : bool;
  alerts : list string;
  currentBalance : BalanceShown;
  pageTimers : list (Q * PageTask)
}.

(** Code of the page reads the answers of the network and changes the page;
    the token it finds in [localStorage] is the one [Auth] stored. *)
Definition PM (A : Type) : Type := (nat -> FetchOutcome) -> Page -> Outcome A * Page.

Definition pret {A} (a : A) : PM A := fun _ pg => (Return a, pg).

Definition pthrow {A} (e : JsError) : PM A := fun _ pg => (Throw e, pg).

Definition pbind {A B} (m : PM A) (k : A -> PM B) : PM B :=
  fun net pg =>
    match m net pg with
    | (Return a, pg') => k a net pg'
    | (Throw e, pg') => (Throw e, pg')
    end.

Definition ptryCatch {A} (m : PM A) (handler : JsError -> PM A) : PM A :=
  fun net pg =>
    match m net pg with
    | (Return a, pg') => (Return a, pg')
    | (Throw e, pg') => handler e net pg'
    end.

Notation "x <~ m ;; k" := (pbind m (fun x => k))
  (at level 61, m at next level, right associativity).
Notation "m ~;; k" := (pbind m (fun _ => k))
  (at level 61, right associativity).

Definition withApp (st : State) (pg : Page) : Page :=
  mkPage st (auth pg) (pane pg) (resultVisible pg) (alerts pg) (currentBalance pg)
         (pageTimers pg).

Definition withAuth (a : Auth) (pg : Page) : Page :=
  mkPage (app pg) a (pane pg) (resultVisible pg) (alerts pg) (currentBalance pg)
         (pageTimers pg).

Definition withPane (p : Pane) (pg : Page) : Page :=
  mkPage (app pg) (auth pg) p (resultVisible pg) (alerts pg) (currentBalance pg)
         (pageTimers pg).

Definition withBalance (b : BalanceShown) (pg : Page) : Page :=
  mkPage (app pg) (auth pg) (pane pg) (resultVisible pg) (alerts pg) b (pageTimers pg).

Definition isShow (e : Event) : bool :=
  match e with EShow _ => true | _ => false end.

Definition showCount (st : State) : nat := length (filter isShow (trace st)).

(** What the code of the API finds on the page: the stored token. *)
Definition envOf (net : nat -> FetchOutcome) (pg : Page) : Env :=
  mkEnv (storedToken (auth pg)) net.

(** The code of the poller and of the API, run on the page: when it wrote
    the result pane, the pane of the page is what it wrote. *)
Definition core {A} (m : M A) : PM A :=
  fun net pg =>
    let r := m (envOf net pg) (app pg) in
    (fst r,
     withApp (snd r)
       (if (showCount (app pg) <? showCount (snd r))%nat
        then withPane (PaneOf (resultContent (snd r))) pg else pg)).

Definition getAuth : PM Auth := fun _ pg => (Return (auth pg), pg).

Definition setAuth (a : Auth) : PM unit := fun _ pg => (Return tt, withAuth a pg).

Definition setPane (p : Pane) : PM unit := fun _ pg => (Return tt, withPane p pg).

Definition showResult : PM unit :=
  fun _ pg => (Return tt, mkPage (app pg) (auth pg) (pane pg) true (alerts pg)
                            (currentBalance pg) (pageTimers pg)).

Definition alert (msg : string) : PM unit :=
  fun _ pg => (Return tt, mkPage (app pg) (auth pg) (pane pg) (resultVisible pg)
                            (alerts pg ++ [msg]) (currentBalance pg) (pageTimers pg)).

Definition setCurrentBalance (b : BalanceShown) : PM unit :=
  fun _ pg => (Return tt, withBalance b pg).

Definition setPageTimeout (task : PageTask) (delay : Q) : PM unit :=
  fun _ pg => (Return tt, mkPage (app pg) (auth pg) (pane pg) (resultVisible pg)
                            (alerts pg) (currentBalance pg)
                            (pageTimers pg ++ [(delay, task)])).

Section ThePage.

Variable host : Host.

(** *** auth.js *)

(** [updateUI()] *)
Definition updateUI (a : Auth) : Auth :=
  if isAuthenticated a && truthy (user a) then
    mkAuth (storedToken a) (storedUser a) (authToken a) (user a) (isAuthenticated a)
           (loginError a) (registerError a) (loginModal a) (registerModal a)
           true (getProp (user a) "username") (homeClicks a)
  else
    mkAuth (storedToken a) (storedUser a) (authToken a) (user a) (isAuthenticated a)
           (loginError a) (registerError a) (loginModal a) (registerModal a)
           false (JStr "") (S (homeClicks a)).

(** The constructor, from what [localStorage] holds. *)
Definition newAuth (token : option string) (stored : option JValue) : Auth :=
  updateUI
    (mkAuth token stored
            (match token with Some t => JStr t | None => JNull end)
            (match stored with Some u => if truthy u then u else JNull | None => JNull end)
            (match token with Some t => negb (String.eqb t "") | None => false end)
            None None false false false (JStr "") 0).

Definition closeModals (a : Auth) : Auth :=
  mkAuth (storedToken a) (storedUser a) (authToken a) (user a) (isAuthenticated a)
         (loginError a) (registerError a) false false
         (userShown a) (usernameText a) (homeClicks a).

Definition showLoginModal (a : Auth) : Auth :=
  mkAuth (storedToken a) (storedUser a) (authToken a) (user a) (isAuthenticated a)
         (loginError a) (registerError a) true (registerModal a)
         (userShown a) (usernameText a) (homeClicks a).

(** [this.token = token; localStorage.setItem('token', this.token)]: the
    storage keeps the string of the value. *)
Definition storeToken (token : JValue) (a : Auth) : Auth :=
  mkAuth (Some (toString host token)) (storedUser a) token (user a) (isAuthenticated a)
         (loginError a) (registerError a) (loginModal a) (registerModal a)
         (userShown a) (usernameText a) (homeClicks a).

(** [this.user = user; localStorage.setItem('user', JSON.stringify(user))] *)
Definition storeUser (u : JValue) (a : Auth) : Auth :=
  mkAuth (storedToken a) (Some u) (authToken a) u (isAuthenticated a)
         (loginError a) (registerError a) (loginModal a) (registerModal a)
         (userShown a) (usernameText a) (homeClicks a).

Definition setAuthenticated (b : bool) (a : Auth) : Auth :=
  mkAuth (storedToken a) (storedUser a) (authToken a) (user a) b
         (loginError a) (registerError a) (loginModal a) (registerModal a)
         (userShown a) (usernameText a) (homeClicks a).

Definition setLoginError (msg : option string) (a : Auth) : Auth :=
  mkAuth (storedToken a) (storedUser a) (authToken a) (user a) (isAuthenticated a)
         msg (registerError a) (loginModal a) (registerModal a)
         (userShown a) (usernameText a) (homeClicks a).

Definition setRegisterError (msg : option string) (a : Auth) : Auth :=
  mkAuth (storedToken a) (storedUser a) (authToken a) (user a) (isAuthenticated a)
         (loginError a) msg (loginModal a) (registerModal a)
         (userShown a) (usernameText a) (homeClicks a).

Definition onAuth (f : Auth -> Auth) : PM unit :=
  a <~ getAuth ;; setAuth (f a).

(** [error.message || fallback] *)
Definition messageOr (error : JsError) (fallback : string) : string :=
  if String.eqb (message error) "" then fallback else message error.

(** What [handleLogin] and [handleRegister] do once the token request has
    answered: keep the token, ask for the user, and only then count as
    authenticated. *)
Definition signIn (response : JValue) : PM unit :=
  token <~ core (readProp host response "access_token") ;;
  onAuth (storeToken token) ~;;
  u <~ core (getCurrentUser host) ;;
  onAuth (storeUser u) ~;;
  onAuth (setAuthenticated true) ~;;
  onAuth updateUI ~;;
  onAuth closeModals.

(** [handleLogin(event)], with the two values it reads from the form. *)
Definition handleLogin (username password : string) : PM unit :=
  ptryCatch
    (onAuth (setLoginError None) ~;;
     response <~ core (login host username password) ;;
     signIn response)
    (fun error =>
       onAuth (setLoginError (Some (messageOr error "Ошибка при входе в систему")))).

(** [handleRegister(event)], with the three values it reads from the form. *)
Definition handleRegister (username email password : string) : PM unit :=
  ptryCatch
    (onAuth (setRegisterError None) ~;;
     core (register host (JStr username) (JStr password) (JStr email)) ~;;
     response <~ core (login host username password) ;;
     signIn response)
    (fun error =>
       onAuth (setRegisterError (Some (messageOr error "Ошибка при регистрации")))).

(** [handleLogout(event)] *)
Definition handleLogout (a : Auth) : Auth :=
  updateUI
    (mkAuth None None JNull JNull false
            (loginError a) (registerError a) (loginModal a) (registerModal a)
            (userShown a) (usernameText a) (homeClicks a)).

Definition isLoggedIn (a : Auth) : bool := isAuthenticated a.

(** [checkAuthStatus()] *)
Definition checkAuthStatus : PM unit :=
  a <~ getAuth ;;
  (if truthy (authToken a) then
     ptryCatch
       (u <~ core (getCurrentUser host) ;;
        onAuth (storeUser u) ~;;
        onAuth (setAuthenticated true))
       (fun _ => onAuth handleLogout)
   else pret tt) ~;;
  onAuth updateUI.

Definition checkAuth : PM unit := checkAuthStatus.

(** *** The handlers of App *)

(** [handlePredictionError(error)] *)
Definition handlePredictionError (error : JsError) : PM unit :=
  if negb (String.eqb (message error) "")
     && (includes (message error) "баланс" || includes (message error) "средств") then
    setPane PaneInsufficientFunds ~;;
    setPageTimeout TBindBalanceButton 100
  else if negb (String.eqb (message error) "")
          && includes (message error) "Internal Server Error" then
    setPane PaneServerUnavailable
  else
    setPane (PaneAnalysisError (message error)).

Definition isNaN (x : option Q) : bool :=
  match x with None => true | Some _ => false end.

Definition number (x : option Q) : JValue :=
  match x with Some q => JNum q | None => JUndefined end.

(** The object that [handleTransactionAnalysis] builds once the form has
    passed: no number in it is [NaN]. *)
Definition transactionDataOf (form : TransactionForm) : JValue :=
  JObj [("id", JStr (txId form));
        ("amount", number (txAmount form));
        ("origin_account", JStr (txOrigin form));
        ("dest_account", JStr (txDestination form));
        ("old_balance_orig", number (txOldBalOrig form));
        ("new_balance_orig", number (txNewBalOrig form));
        ("old_balance_dest", number (txOldBalDest form));
        ("new_balance_dest", number (txNewBalDest form));
        ("hour", number (txHour form));
        ("day", number (txDay form));
        ("month", number (txMonth form));
        ("is_flagged", JNum 0)].

(** The test of lines 260-262: true when the form is turned down. *)
Definition formRejected (form : TransactionForm) : bool :=
  String.eqb (txId form) "" || isNaN (txAmount form)
  || String.eqb (txOrigin form) "" || String.eqb (txDestination form) ""
  || isNaN (txOldBalOrig form) || isNaN (txNewBalOrig form)
  || isNaN (txOldBalDest form) || isNaN (txNewBalDest form)
  || isNaN (txHour form) || isNaN (txDay form) || isNaN (txMonth form).

(** The body of the [try] of [handleTransactionAnalysis], once
    [analyzeTransaction] has answered. *)
Definition onAnalysis (prediction : JValue) : PM unit :=
  if negb (truthy prediction) || negb (truthy (getProp prediction "prediction_id")) then
    pthrow (Error "Не получен идентификатор анализа от сервера")
  else if strictEqStr (getProp prediction "status") "pending" then
    core (displayPredictionResult host prediction) ~;;
    core (setTimeout (TCheckPredictionStatus (getProp prediction "prediction_id")) 2000)
  else
    core (displayPredictionResult host prediction) ~;;
    core loadBalance.

(** [handleTransactionAnalysis()], with the form as it reads it. *)
Definition handleTransactionAnalysis (form : TransactionForm) : PM unit :=
  if formRejected form then
    alert "Пожалуйста, заполните все поля корректно"
  else
    let transactionData := transactionDataOf form in
    setPane PaneLoading ~;;
    showResult ~;;
    ptryCatch
      (prediction <~ core (analyzeTransaction host transactionData) ;;
       onAnalysis prediction)
      handlePredictionError.

(** [handlePrediction(event)] *)
Definition handlePrediction (form : TransactionForm) : PM unit :=
  a <~ getAuth ;;
  if negb (isLoggedIn a) then
    onAuth showLoginModal
  else
    ptryCatch (handleTransactionAnalysis form) handlePredictionError.

(** [x.toFixed(2)] on the value of a member: the amount to show, for a
    number. *)
Definition toFixed2 (x : JValue) (expr : string) : PM BalanceShown :=
  match x with
  | JNum q => pret (BalanceAmount q)
  | JUndefined | JNull => pthrow (TypeError host (ReadOfNullish "toFixed"))
  | _ => pthrow (TypeError host (NotAFunction expr))
  end.

Definition isUndefined (v : JValue) : bool :=
  match v with JUndefined => true | _ => false end.

(** The body of the [try] of [loadBalance], once [getBalance] has
    answered. *)
Definition showBalance (balance : JValue) : PM unit :=
  if truthy balance && negb (isUndefined (getProp balance "balance")) then
    shown <~ toFixed2 (getProp balance "balance") "balance.balance.toFixed" ;;
    setCurrentBalance shown
  else if truthy balance && negb (isUndefined (getProp balance "amount")) then
    shown <~ toFixed2 (getProp balance "amount") "balance.amount.toFixed" ;;
    setCurrentBalance shown
  else pthrow (Error "Неверный формат данных баланса").

(** The [catch] of [loadBalance]. *)
Definition onBalanceError (error : JsError) : PM unit :=
  if negb (String.eqb (message error) "")
     && includes (message error) "Internal Server Error" then
    setCurrentBalance BalanceLoading ~;;
    core (setTimeout TLoadBalance 3000)
  else
    setCurrentBalance (BalanceError (message error)).

(** The body of [loadBalance()] (lines 854-880), the call of which the
    poller records as [ELoadBalance]. *)
Definition App_loadBalance : PM unit :=
  a <~ getAuth ;;
  if negb (isLoggedIn a) then pret tt
  else
    ptryCatch
      (balance <~ core (getBalance host) ;;
       showBalance balance)
      onBalanceError.

End ThePage.

(** * The vocabulary of the properties *)

(** ** Hosts *)

(** No engine words its own [TypeError]s with the two phrases the poller
    looks for in server messages. *)
Definition saneHost (host : Host) : bool :=
  forallb (fun site =>
             negb (includes (typeErrorMessage host site) "not found")
             && negb (includes (typeErrorMessage host site) "Internal Server Error"))
          typeErrorSites.

(** A host for the examples: the [TypeError] messages of V8; integers print
    in decimal (the examples print no other number). *)
Definition exampleHost : Host :=
  mkHost
    (fun site =>
       match site with
       | ReadOfNullish prop =>
           "Cannot read properties of null (reading '" ++ prop ++ "')"
       | NotAFunction expr => expr ++ " is not a function"
       | NotPrimitive => "Cannot convert object to primitive value"
       end)
    (fun q => NilEmpty.string_of_int (Z.to_int (Qfloor q))).

(** ** What a call may change, issue and throw *)

(** [Keeps R m]: whatever the environment, the states before and after [m]
    are related by [R]. *)
Definition Keeps (R : State -> State -> Prop) {A} (m : M A) : Prop :=
  forall env st, R st (snd (m env st)).

(** A computation that leaves the state alone. *)
Definition Pure {A} (m : M A) : Prop := Keeps eq m.

(** The requests and the waits between them. *)
Definition isNetwork (e : Event) : bool :=
  match e with
  | EFetch _ | EWait _ => true
  | _ => false
  end.

(** What the page did, the network apart. *)
Definition pageEvents (st : State) : list Event :=
  filter (fun e => negb (isNetwork e)) (trace st).

(** The page is as it was: the waiting timers, the counters, the result pane
    and what the page did. *)
Definition sameApp (st st' : State) : Prop :=
  timers st' = timers st
  /\ predictionRetryCount st' = predictionRetryCount st
  /\ predictionErrorRetryCount st' = predictionErrorRetryCount st
  /\ resultContent st' = resultContent st
  /\ pageEvents st' = pageEvents st.

(** [ThrowsOnly S m]: an error thrown by [m] satisfies [S]. *)
Definition ThrowsOnly (S : JsError -> Prop) {A} (m : M A) : Prop :=
  forall env st e st', m env st = (Throw e, st') -> S e.

(** A [TypeError] of the engine, raised at one of the places of this code. *)
Definition isTypeError (host : Host) (e : JsError) : Prop :=
  exists site, In site typeErrorSites /\ e = TypeError host site.

(** [Fetches n m]: [m] issues at most [n] requests. *)
Definition Fetches (n : nat) {A} (m : M A) : Prop :=
  forall env st, (fetchCount (snd (m env st)) <= fetchCount st + n)%nat.

(** ** Submission *)

(** The payload has every required field. *)
Definition validPayload (transactionData : JValue) : bool :=
  forallb (fun field => hasProperty field transactionData) requiredFields.

(** The body of the submission request. *)
Definition envelope (transactionData : JValue) : JValue :=
  JObj [("data", JObj [("transaction", transactionData)])].

(** ** Outcomes of a status query *)

Definition isPending (prediction : JValue) : bool :=
  strictEqStr (getProp prediction "status") "pending".

Definition isTerminal (prediction : JValue) : bool :=
  strictEqStr (getProp prediction "status") "completed"
  || strictEqStr (getProp prediction "status") "failed".

(** A failure the poller takes for an internal fault of the server: the
    not-found test comes first. *)
Definition serverInternal (e : JsError) : bool :=
  negb (includes (message e) "not found")
  && includes (message e) "Internal Server Error".

(** The state once a timer has fired and [waiting] are left. *)
Definition withTimers (waiting : list (Q * Task)) (st : State) : State :=
  mkState (trace st) waiting (predictionRetryCount st)
          (predictionErrorRetryCount st) (resultContent st).

(** Every status query of the job fails, and the poller takes each failure
    for a server fault. *)
Definition alwaysServerInternal (host : Host) (id : JValue) (env : Env) : Prop :=
  forall st, exists e st1,
    getPrediction host id env st = (Throw e, st1) /\ serverInternal e = true.

(** ** Balance refreshes *)

(** A result that tells of an outcome that is not charged: the marker in the
    result text, or in (or among) the [prediction] of a result object. *)
Definition nonChargeable (result : JValue) : bool :=
  match result with
  | JStr s => includes s marker
  | JObj _ =>
      match getProp result "prediction" with
      | JStr s => includes s marker
      | JArr items => existsb (fun y => strictEqStr y marker) items
      | _ => false
      end
  | _ => false
  end.

(** The timing of a result, when there is one, is a number. *)
Definition timingWellTyped (result : JValue) : bool :=
  negb (truthy (getProp result "processing_time"))
  || isNumber (getProp result "processing_time").

(** The state once the result pane was written. *)
Definition shown (v : View) (st : State) : State :=
  mkState (trace st ++ [EShow v]) (timers st) (predictionRetryCount st)
          (predictionErrorRetryCount st) v.

(** What [displayPredictionResult] converts of a prediction: the identifier
    and the cost at the head of the text; of a completed result the two
    numbers it multiplies and, after the timing, the two identifiers; of a
    failed one the error it shows. *)
Definition headConverts (prediction : JValue) : bool :=
  convertible (orElse (getProp prediction "prediction_id") "N/A")
  && convertible (orElse (getProp prediction "cost") "1.0").

Definition hasResult (prediction : JValue) : bool :=
  strictEqStr (getProp prediction "status") "completed"
  && truthy (getProp prediction "result").

Definition numbersConvert (result : JValue) : bool :=
  convertible (getProp result "fraud_probability")
  && convertible (getProp result "confidence").

Definition tailConverts (result : JValue) : bool :=
  convertible (orElse (getProp result "transaction_id") "N/A")
  && convertible (orElse (getProp result "worker_id") "N/A").

Definition shownError (prediction : JValue) : JValue :=
  if truthy (getProp prediction "result")
     && truthy (getProp (getProp prediction "result") "error")
  then getProp (getProp prediction "result") "error"
  else JStr "Не удалось выполнить анализ транзакции".

(** [displayPredictionResult] throws on this prediction, which is truthy:
    one of the values it converts cannot be converted, or the timing of a
    completed result is truthy and not a number. *)
Definition displayFails (prediction : JValue) : bool :=
  negb (headConverts prediction
        && if hasResult prediction then
             numbersConvert (getProp prediction "result")
             && timingWellTyped (getProp prediction "result")
             && tailConverts (getProp prediction "result")
           else if strictEqStr (getProp prediction "status") "pending" then true
           else if strictEqStr (getProp prediction "status") "failed" then
             convertible (shownError prediction)
           else true).

(** The error it then throws: that of the first step that fails. *)
Definition displayError (host : Host) (prediction : JValue) : JsError :=
  if headConverts prediction && hasResult prediction
     && numbersConvert (getProp prediction "result")
     && negb (timingWellTyped (getProp prediction "result"))
  then TypeError host (NotAFunction "result.processing_time.toFixed")
  else TypeError host NotPrimitive.

Definition isLoadBalance (e : Event) : bool :=
  match e with ELoadBalance => true | _ => false end.

(** The immediate refreshes among some events, and the delays of the
    refreshes set on a timer. *)
Definition balanceCalls (evs : list Event) : nat :=
  length (filter isLoadBalance evs).

Fixpoint delayedRefreshes (evs : list Event) : list Q :=
  match evs with
  | [] => []
  | ESetTimeout d TLoadBalance :: rest => d :: delayedRefreshes rest
  | _ :: rest => delayedRefreshes rest
  end.

(** ** The counters *)

Definition counters (st : State) : option nat * option nat :=
  (predictionRetryCount st, predictionErrorRetryCount st).

Definition sameCounters (st st' : State) : Prop := counters st' = counters st.

(** What the counters become after a status query, by its outcome alone. *)
Definition countersAfter (o : Outcome JValue) (c : option nat * option nat)
  : option nat * option nat :=
  match o with
  | Return p => if isPending p then (Some (orZero (fst c) + 1)%nat, snd c) else c
  | Throw e => if serverInternal e then (fst c, Some (orZero (snd c) + 1)%nat) else c
  end.

(** What [onStatus] does with a status other than "pending". *)
Definition onTerminal (host : Host) (prediction : JValue) : M unit :=
  displayPredictionResult host prediction ;;;
  loadBalance ;;;
  refund <- refundExpected host prediction ;;
  if refund then setTimeout TLoadBalance 1000 else ret tt.

(** ** Servers, jobs and payloads of the examples *)

(** Answers of the server, given decoded. *)
Definition okJson (v : JValue) : FetchOutcome :=
  Resolved (mkResponse true 200 "OK" (Some "application/json") (inr v) (inr "")).

Definition failJson (code : Z) (reason detail : string) : FetchOutcome :=
  Resolved (mkResponse false code reason (Some "application/json")
                       (inr (JObj [("detail", JStr detail)])) (inr "")).

Definition aborted : FetchOutcome :=
  Rejected (mkError "AbortError" "The operation was aborted.").

Definition pendingJob : JValue :=
  JObj [("prediction_id", JStr "J1"); ("status", JStr "pending"); ("cost", JNum 1)].

Definition completedJob : JValue :=
  JObj [("prediction_id", JStr "J1"); ("status", JStr "completed"); ("cost", JNum 1);
        ("result", JObj [("is_fraud", JBool false);
                         ("fraud_probability", JNum (2 # 100));
                         ("confidence", JNum (97 # 100))])].

Definition failedJob : JValue :=
  JObj [("prediction_id", JStr "J1"); ("status", JStr "failed"); ("cost", JNum 1);
        ("result", JObj [("error", JStr "worker crashed")])].

Definition constantly (o : FetchOutcome) : Env := mkEnv (Some "t0k3n") (fun _ => o).

Definition envPending : Env := constantly (okJson pendingJob).
Definition envFailed : Env := constantly (okJson failedJob).
Definition envServerFault : Env :=
  constantly (failJson 500 "Internal Server Error" "Internal Server Error").
Definition envNotFound : Env :=
  constantly (failJson 404 "Not Found" "Prediction not found").
Definition envTimeout : Env := constantly aborted.

Definition envPendingPendingCompleted : Env :=
  mkEnv (Some "t0k3n")
        (fun n => match n with
                  | O | S O => okJson pendingJob
                  | _ => okJson completedJob
                  end).

Definition envFaultThenPending : Env :=
  mkEnv (Some "t0k3n")
        (fun n => match n with
                  | O => failJson 500 "Internal Server Error" "Internal Server Error"
                  | _ => okJson pendingJob
                  end).

(** A server that fails, then answers that the job is pending, then fails
    for good. *)
Definition envFaultPendingFaults : Env :=
  mkEnv (Some "t0k3n")
        (fun n => match n with
                  | 1%nat => okJson pendingJob
                  | _ => failJson 500 "Internal Server Error" "Internal Server Error"
                  end).

(** A completed job whose result gives its timing as a text. *)
Definition textTimingJob : JValue :=
  JObj [("prediction_id", JStr "J1"); ("status", JStr "completed"); ("cost", JNum 1);
        ("result", JObj [("is_fraud", JBool false);
                         ("fraud_probability", JNum (2 # 100));
                         ("confidence", JNum (97 # 100));
                         ("processing_time", JStr "0.42")])].

Definition envTextTiming : Env := constantly (okJson textTimingJob).

Definition J1 : JValue := JStr "J1".

Definition incompletePayload : JValue :=
  JObj [("id", JStr "T1"); ("amount", JNum 100)].

(** The delays of the timers set, and the results shown, among some events. *)
Definition delaysSet (evs : list Event) : list Q :=
  flat_map (fun e => match e with ESetTimeout d _ => [d] | _ => [] end) evs.

Definition resultsShown (evs : list Event) : nat :=
  length (filter (fun e => match e with EShow (VPrediction _) => true | _ => false end) evs).

(** ** The specification's readings that the code does not follow *)

(** The specification's reading of the counters: a status query that returns
    puts the error counter back to zero. *)
Definition success_resets_error_counter (host : Host) : Prop :=
  forall id env st p st1,
    getPrediction host id env st = (Return p, st1) ->
    orZero (predictionErrorRetryCount (snd (checkPredictionStatus host id env st)))
    = 0%nat.

(** The specification's reading of the error retries: they are counted in
    a row, so that a job polled from a fresh page is given up only at the
    fourth failure in a row, after three retries with no answer between
    them. *)
Definition retries_are_counted_in_a_row (host : Host) : Prop :=
  forall id env picks,
    let st' := snd ((checkPredictionStatus host id ;;; runSchedule host picks)
                      env freshApp) in
    resultContent st' = VTechnicalProblems ->
    exists before,
      pageEvents st'
      = (before
         ++ concat (repeat [EShow VRetrying;
                            ESetTimeout 5000 (TCheckPredictionStatus id)] 3)
         ++ [EShow VRetrying; EShow VTechnicalProblems;
             ESetTimeout 100 TBindHistoryButton])%list.

(** The specification's reading of the reconciliation: every answer with a
    terminal status is followed by one immediate refresh of the balance. *)
Definition terminal_always_refreshes (host : Host) : Prop :=
  forall id env st p st1,
    getPrediction host id env st = (Return p, st1) ->
    isTerminal p = true ->
    exists evs,
      trace (snd (checkPredictionStatus host id env st)) = (trace st1 ++ evs)%list
      /\ balanceCalls evs = 1%nat.

(** The specification's reading of the API layer: one call, at most one
    request. *)
Definition api_layer_never_retries (host : Host) : Prop :=
  forall id env st,
    (fetchCount (snd (getPrediction host id env st)) <= fetchCount st + 1)%nat.

(** The delays of the timers that wait for the job [id]. *)
Definition delaysFor (id : string) (st : State) : list Q :=
  flat_map (fun t => match t with
                     | (d, TCheckPredictionStatus (JStr s)) =>
                         if String.eqb s id then [d] else []
                     | _ => []
                     end) (timers st).

(** The specification's reading of concurrent jobs: against a server that
    answers every query alike, the schedule of a job is the same whether or
    not another job was polled before. *)
Definition jobs_poll_independently (host : Host) : Prop :=
  forall tok answer a b st,
    a <> b ->
    let env := mkEnv tok (fun _ => answer) in
    Forall2 Qeq
      (delaysFor b (snd ((checkPredictionStatus host (JStr a) ;;;
                          checkPredictionStatus host (JStr b)) env st)))
      (delaysFor b (snd (checkPredictionStatus host (JStr b) env st))).

(** ** Requests *)

(** The [Authorization] header for the stored token, when there is one. *)
Definition bearer (env : Env) : option string :=
  match token env with
  | Some t => if String.eqb t "" then None else Some ("Bearer " ++ t)
  | None => None
  end.

(** The request that [fetchAPI] issues for its arguments. *)
Definition requestOf (endpoint method : string) (data : JValue) (auth : bool)
    (env : Env) : Request :=
  mkRequest (API_URL ++ endpoint) method
            (if auth then bearer env else None)
            (if truthy data && existsb (String.eqb method) ["POST"; "PUT"; "PATCH"]
             then Some data else None).

(** The state once the request [r] was issued. *)
Definition sent (r : Request) (st : State) : State :=
  mkState (trace st ++ [EFetch r]) (timers st) (predictionRetryCount st)
          (predictionErrorRetryCount st) (resultContent st).

(** The state once the code has waited [ms]. *)
Definition waited (ms : Q) (st : State) : State :=
  mkState (trace st ++ [EWait ms]) (timers st) (predictionRetryCount st)
          (predictionErrorRetryCount st) (resultContent st).

(** The body of a failed response cannot be read. *)
Definition unreadable (r : Response) : bool :=
  if isJson (contentType r)
  then match json r with inl _ => true | inr v =>
         match v with JUndefined | JNull => true | _ => false end end
  else match text r with inl _ => true | inr _ => false end.

Definition statusLine (host : Host) (r : Response) : string :=
  "Ошибка " ++ numberToString host (inject_Z (status r)) ++ ": " ++ statusText r.

(** An error that the retry loops of the API throw on without another
    attempt. *)
Definition notRetried (e : JsError) : bool :=
  negb (String.eqb (message e) "") && negb (includes (message e) "сервер").

(** The loop that [getPrediction] and [getPredictionHistory] both write out,
    over the call they repeat. *)
Fixpoint retryLoop (call : M JValue) (left : nat) : M JValue :=
  match left with
  | O => ret JUndefined
  | S left' =>
      tryCatch call
        (fun error =>
           if (maxRetries <=? S (maxRetries - left))%nat || notRetried error
           then throw error
           else wait retryDelay ;;; retryLoop call left')
  end.

(** What a retry loop adds to the trace: the request, and [n] times a wait
    and the request again. *)
Definition attempts (r : Request) (n : nat) : list Event :=
  (EFetch r :: concat (repeat [EWait 1000; EFetch r] n))%list.

Definition timeoutMessage : string := "Превышено время ожидания ответа от сервера".

(** Every request is rejected with an [AbortError]: what the controller of
    lines 33-35 of api.js gives after 30 s on an engine without
    [AbortSignal.timeout].  Where that exists (line 32) the rejection of a
    request that timed out is named [TimeoutError]. *)
Definition alwaysAborted (env : Env) : Prop :=
  forall n, exists e, network env n = Rejected e /\ name e = "AbortError".

(** A rejection as [AbortSignal.timeout] gives it. *)
Definition timedOut : FetchOutcome :=
  Rejected (mkError "TimeoutError" "The operation timed out.").

(** [x] is the double that the engine takes for the quotient [q]: the one
    nearest to it, so within [2^-53] of [q] in proportion, and [q] itself
    when [q] is an integer or a half of one that a double can hold. *)
Definition nearestDouble (x q : Q) : Prop :=
  Qabs (x - q) <= Qabs q * (1 # 9007199254740992)
  /\ (forall n : Z,
        (Z.abs n < 9007199254740992)%Z -> q == inject_Z n / 2 -> x == q).

(** The address of the status of a job. *)
Definition statusEndpoint (host : Host) (id : JValue) : string :=
  "/api/predictions/" ++ toString host id.

(** The data of a registration: the e-mail address only when one is given. *)
Definition registrationData (username password email : JValue) : JValue :=
  JObj ([("username", username); ("password", password)]
        ++ (if truthy email then [("email", email)] else []))%list.

(** The one request of [login]. *)
Definition loginRequest (username password : string) : Request :=
  mkRequest (API_URL ++ "/api/token") "POST" None
            (Some (JObj [("username", JStr username); ("password", JStr password)])).

(** The timers that [st'] has and [st] had not are all balance refreshes. *)
Definition noQueryTimer (st st' : State) : Prop :=
  exists added,
    timers st' = (timers st ++ added)%list
    /\ Forall (fun t => snd t = TLoadBalance) added.

(** ** The page *)

(** The page as it is loaded, with nothing in [localStorage]. *)
Definition freshPage : Page :=
  mkPage freshApp (newAuth None None) (PaneOf VBlank) false [] BalanceBlank [].

(** The requests of [getCurrentUser] and of [getBalance] under the token [t]. *)
Definition userRequest (t : string) : Request :=
  mkRequest (API_URL ++ "/api/users/me") "GET" (Some ("Bearer " ++ t)) None.

Definition balanceRequest (t : string) : Request :=
  mkRequest (API_URL ++ "/api/balance/") "GET" (Some ("Bearer " ++ t)) None.

(** The request that submits the form, under the token of the page. *)
Definition submissionOf (form : TransactionForm) (net : nat -> FetchOutcome)
    (pg : Page) : Request :=
  requestOf "/api/predictions/predict" "POST" (envelope (transactionDataOf form)) true
            (envOf net pg).

(** The requests among the events of the page. *)
Definition requests (pg : Page) : list Event := filter isFetch (trace (app pg)).

(** The session as [Auth] keeps it. *)
Definition session (a : Auth) : option string * option JValue * JValue * JValue * bool :=
  (storedToken a, storedUser a, authToken a, user a, isAuthenticated a).

(** [null] and [undefined], whose members cannot be read. *)
Definition nullish (v : JValue) : bool :=
  match v with JUndefined | JNull => true | _ => false end.

(** The [Auth] instance once the token of [response] is kept, and once the
    user [u] has been received as well. *)
Definition tokenKept (host : Host) (response : JValue) (a : Auth) : Auth :=
  storeToken host (getProp response "access_token") a.

Definition signedIn (host : Host) (response u : JValue) (a : Auth) : Auth :=
  closeModals (updateUI (setAuthenticated true (storeUser u (tokenKept host response a)))).

(** The token that the client stores for the answer [response] of a login. *)
Definition tokenOf (host : Host) (response : JValue) : string :=
  toString host (getProp response "access_token").

(** The [Auth] instance once [handleLogin], or [handleRegister], has shown
    the error [e]. *)
Definition loginFailed (e : JsError) (a : Auth) : Auth :=
  setLoginError (Some (messageOr e "Ошибка при входе в систему")) a.

Definition registerFailed (e : JsError) (a : Auth) : Auth :=
  setRegisterError (Some (messageOr e "Ошибка при регистрации")) a.

(** The answer [r] is [ok] and its body is the JSON value [v]. *)
Definition answers (r : Response) (v : JValue) : Prop :=
  ok r = true /\ isJson (contentType r) = true /\ json r = inr v.

(** The state once a timer was set. *)
Definition withTimer (delay : Q) (task : Task) (st : State) : State :=
  mkState (trace st ++ [ESetTimeout delay task]) (timers st ++ [(delay, task)])
          (predictionRetryCount st) (predictionErrorRetryCount st) (resultContent st).

(** The page once [loadBalance] has met the error [e]. *)
Definition balanceFailed (e : JsError) (pg : Page) : Page :=
  if negb (String.eqb (message e) "") && includes (message e) "Internal Server Error"
  then withApp (withTimer 3000 TLoadBalance (app pg)) (withBalance BalanceLoading pg)
  else withBalance (BalanceError (message e)) pg.

(** The error speaks of the balance or of funds. *)
Definition aboutFunds (e : JsError) : bool :=
  includes (message e) "баланс" || includes (message e) "средств".

(** The page once the form was accepted: the loading text, in a pane that is
    shown. *)
Definition loading (pg : Page) : Page :=
  mkPage (app pg) (auth pg) PaneLoading true (alerts pg) (currentBalance pg)
         (pageTimers pg).

(** The page once [handlePredictionError] has met the error [e]. *)
Definition analysisFailed (e : JsError) (pg : Page) : Page :=
  if negb (String.eqb (message e) "") && aboutFunds e then
    mkPage (app pg) (auth pg) PaneInsufficientFunds (resultVisible pg) (alerts pg)
           (currentBalance pg) (pageTimers pg ++ [(100, TBindBalanceButton)])
  else if negb (String.eqb (message e) "")
          && includes (message e) "Internal Server Error" then
    withPane PaneServerUnavailable pg
  else withPane (PaneAnalysisError (message e)) pg.

(** The page once the answer [prediction] was written to the result pane. *)
Definition displayed (prediction : JValue) (pg : Page) : Page :=
  withApp (shown (VPrediction prediction) (app pg))
          (withPane (PaneOf (VPrediction prediction)) pg).

(** The answer carries an identifier. *)
Definition identified (prediction : JValue) : bool :=
  truthy prediction && truthy (getProp prediction "prediction_id").

Definition noIdentifier : JsError := Error "Не получен идентификатор анализа от сервера".

(** The state once [loadBalance] was called. *)
Definition refreshed (st : State) : State :=
  mkState (trace st ++ [ELoadBalance]) (timers st) (predictionRetryCount st)
          (predictionErrorRetryCount st) (resultContent st).

(** ** More servers, pages and forms of the examples *)

(** A failed response whose body is not the JSON it declares, and one whose
    body is a page of text. *)
Definition badGatewayResponse : Response :=
  mkResponse false 502 "Bad Gateway" (Some "application/json")
             (inl (mkError "SyntaxError" "Unexpected token < in JSON"))
             (inr "<html>Bad Gateway</html>").

Definition badGateway : FetchOutcome := Resolved badGatewayResponse.

Definition textFailureResponse (body : string) : Response :=
  mkResponse false 500 "Internal Server Error" (Some "text/html")
             (inl (mkError "SyntaxError" "Unexpected token < in JSON"))
             (inr body).

Definition textFailure (body : string) : FetchOutcome :=
  Resolved (textFailureResponse body).

Definition notFoundResponse : Response :=
  mkResponse false 404 "Not Found" (Some "application/json")
             (inr (JObj [("detail", JStr "Prediction not found")])) (inr "").

Definition emptyAnswerResponse : Response :=
  mkResponse true 200 "OK" (Some "application/json") (inr (JObj [])) (inr "").

(** A text of eighty Cyrillic letters. *)
Definition russianText : string :=
  "ошибкаошибкаошибкаошибкаошибкаошибкаошибкаошибкаошибкаошибкаошибкаошибкаошибкаош".

Definition tokenAnswer : JValue :=
  JObj [("access_token", JStr "t0k3n"); ("token_type", JStr "bearer")].

Definition userAnswer : JValue :=
  JObj [("id", JNum 1); ("username", JStr "alice")].

(** A server that answers the login and then the query of the user; one
    whose login answer has no token and that then refuses the query; one that
    refuses everything. *)
Definition netSignIn : nat -> FetchOutcome :=
  fun n => match n with
           | O => okJson tokenAnswer
           | _ => okJson userAnswer
           end.

Definition netNoToken : nat -> FetchOutcome :=
  fun n => match n with
           | O => okJson (JObj [])
           | _ => failJson 401 "Unauthorized" "Could not validate credentials"
           end.

Definition netRefusing : nat -> FetchOutcome :=
  fun _ => failJson 400 "Bad Request" "Username already registered".

(** The page of a user who is logged in. *)
Definition memberPage : Page :=
  mkPage freshApp (newAuth (Some "t0k3n") (Some userAnswer)) (PaneOf VBlank) false []
         BalanceBlank [].

Definition exampleForm : TransactionForm :=
  mkForm "T1" (Some 250) "C100" "M200" (Some 1000) (Some 750) (Some 0) (Some 250)
         (Some 14) (Some 3) (Some 6).

(** An answer of the submission without an identifier. *)
Definition anonymousJob : JValue :=
  JObj [("status", JStr "completed"); ("cost", JNum 1)].

Definition balanceAnswer : JValue :=
  JObj [("balance", JNum 42); ("amount", JNum 7)].

(** * Properties *)

(** ** What a call may change *)

Section Frames.

Variable R : State -> State -> Prop.
Hypothesis R_refl : forall st, R st st.
Hypothesis R_trans : forall a b c, R a b -> R b c -> R a c.

Lemma keeps_ret {A} (a : A) : Keeps R (ret a).
Proof. intros env st. apply R_refl. Qed.

Lemma keeps_throw {A} (e : JsError) : Keeps R (@throw A e).
Proof. intros env st. apply R_refl. Qed.

Lemma keeps_getToken : Keeps R getToken.
Proof. intros env st. apply R_refl. Qed.

Lemma keeps_bind {A B} (m : M A) (k : A -> M B) :
  Keeps R m -> (forall a, Keeps R (k a)) -> Keeps R (bind m k).
Proof.
  intros Hm Hk env st. unfold bind.
  specialize (Hm env st).
  destruct (m env st) as [[a | e] st']; simpl in *.
  - eapply R_trans; [exact Hm | apply Hk].
  - exact Hm.
Qed.

Lemma keeps_tryCatch {A} (m : M A) (handler : JsError -> M A) :
  Keeps R m -> (forall e, Keeps R (handler e)) -> Keeps R (tryCatch m handler).
Proof.
  intros Hm Hh env st. unfold tryCatch.
  specialize (Hm env st).
  destruct (m env st) as [[a | e] st']; simpl in *.
  - exact Hm.
  - eapply R_trans; [exact Hm | apply Hh].
Qed.

End Frames.

Lemma pure_ret {A} (a : A) : Pure (ret a).
Proof. apply keeps_ret; auto. Qed.

Lemma pure_throw {A} (e : JsError) : Pure (@throw A e).
Proof. apply keeps_throw; auto. Qed.

Lemma pure_bind {A B} (m : M A) (k : A -> M B) :
  Pure m -> (forall a, Pure (k a)) -> Pure (bind m k).
Proof. apply keeps_bind; eauto using eq_trans. Qed.

Lemma pure_tryCatch {A} (m : M A) (handler : JsError -> M A) :
  Pure m -> (forall e, Pure (handler e)) -> Pure (tryCatch m handler).
Proof. apply keeps_tryCatch; eauto using eq_trans. Qed.

Create HintDb pure discriminated.
#[export] Hint Resolve pure_ret pure_throw pure_bind pure_tryCatch : pure.

(** Splits the conditionals of the goal and closes the leaves from the
    hints. *)
Ltac pure_cases :=
  repeat first
    [ progress (auto with pure)
    | apply pure_bind; [| intro]
    | apply pure_tryCatch; [| intro]
    | match goal with
      | |- Pure (if ?b then _ else _) => destruct b
      | |- Pure (match ?x with _ => _ end) => destruct x
      end ].

Lemma pure_readProp host v key : Pure (readProp host v key).
Proof. unfold readProp. pure_cases. Qed.

Lemma pure_awaitBody {A} (b : JsError + A) : Pure (awaitBody b).
Proof. unfold awaitBody. pure_cases. Qed.

#[export] Hint Resolve pure_readProp pure_awaitBody : pure.

Lemma pure_errorMessageOf host response : Pure (errorMessageOf host response).
Proof. unfold errorMessageOf. pure_cases. Qed.

Lemma pure_callIncludes host x expr needle : Pure (callIncludes host x expr needle).
Proof. unfold callIncludes. pure_cases. Qed.

#[export] Hint Resolve pure_errorMessageOf pure_callIncludes : pure.

Lemma pure_refundExpected host prediction : Pure (refundExpected host prediction).
Proof. unfold refundExpected. pure_cases. Qed.

(** *** The API layer changes nothing of the page *)

Lemma sameApp_refl st : sameApp st st.
Proof. repeat split. Qed.

Lemma sameApp_trans a b c : sameApp a b -> sameApp b c -> sameApp a c.
Proof.
  intros (H1 & H2 & H3 & H4 & H5) (G1 & G2 & G3 & G4 & G5).
  repeat split; congruence.
Qed.

Lemma sameApp_pure {A} (m : M A) : Pure m -> Keeps sameApp m.
Proof. intros H env st. rewrite <- (H env st). apply sameApp_refl. Qed.

Lemma sameApp_emit e : isNetwork e = true -> Keeps sameApp (emit e).
Proof.
  intros He env st. unfold emit, sameApp, pageEvents; simpl.
  repeat split; auto.
  rewrite filter_app; simpl. rewrite He; simpl. apply app_nil_r.
Qed.

Lemma sameApp_fetch r : Keeps sameApp (fetch r).
Proof.
  intros env st. unfold fetch.
  destruct (network env (fetchCount st));
    (apply keeps_bind;
     [ apply sameApp_trans | apply sameApp_emit; reflexivity
     | intros; apply sameApp_pure; auto with pure ]).
Qed.

Ltac same_app :=
  repeat first
    [ apply sameApp_fetch
    | apply sameApp_pure; solve [pure_cases]
    | apply keeps_bind; [apply sameApp_trans | | intro]
    | apply keeps_tryCatch; [apply sameApp_trans | | intro]
    | match goal with
      | |- Keeps _ (if ?b then _ else _) => destruct b
      | |- Keeps _ (match ?x with _ => _ end) => destruct x
      end ].

Lemma sameApp_fetchAPI host endpoint method data auth :
  Keeps sameApp (fetchAPI host endpoint method data auth).
Proof.
  unfold fetchAPI. same_app.
  all: apply sameApp_pure; unfold getToken; intros env st; reflexivity.
Qed.

Lemma sameApp_getPrediction_while host left id :
  Keeps sameApp (getPrediction_while host left id).
Proof.
  induction left as [| left IH]; simpl.
  - apply sameApp_pure; auto with pure.
  - apply keeps_tryCatch; [apply sameApp_trans | apply sameApp_fetchAPI |].
    intro error.
    match goal with |- Keeps _ (if ?b then _ else _) => destruct b end.
    + apply sameApp_pure; auto with pure.
    + apply keeps_bind; [apply sameApp_trans | | intro; exact IH].
      apply sameApp_emit; reflexivity.
Qed.

Lemma sameApp_getPrediction host id : Keeps sameApp (getPrediction host id).
Proof.
  unfold getPrediction. destruct (negb (truthy id)).
  - apply sameApp_pure; auto with pure.
  - apply sameApp_getPrediction_while.
Qed.

(** *** How many requests a call may issue *)

Lemma fetches_pure {A} (m : M A) n : Pure m -> Fetches n m.
Proof. intros H env st. rewrite <- (H env st). lia. Qed.

Lemma fetches_bind {A B} (m : M A) (k : A -> M B) n1 n2 :
  Fetches n1 m -> (forall a, Fetches n2 (k a)) -> Fetches (n1 + n2) (bind m k).
Proof.
  intros Hm Hk env st. unfold bind.
  specialize (Hm env st).
  destruct (m env st) as [[a | e] st']; simpl in *.
  - specialize (Hk a env st'). lia.
  - lia.
Qed.

Lemma fetches_tryCatch {A} (m : M A) (handler : JsError -> M A) n1 n2 :
  Fetches n1 m -> (forall e, Fetches n2 (handler e)) ->
  Fetches (n1 + n2) (tryCatch m handler).
Proof.
  intros Hm Hh env st. unfold tryCatch.
  specialize (Hm env st).
  destruct (m env st) as [[a | e] st']; simpl in *.
  - lia.
  - specialize (Hh e env st'). lia.
Qed.

Lemma fetchCount_emit e env st :
  fetchCount (snd (emit e env st)) = (fetchCount st + (if isFetch e then 1 else 0))%nat.
Proof.
  unfold emit, fetchCount; simpl. rewrite filter_app, length_app; simpl.
  destruct (isFetch e); reflexivity.
Qed.

Lemma fetches_fetch r : Fetches 1 (fetch r).
Proof.
  intros env st. unfold fetch, bind.
  pose proof (fetchCount_emit (EFetch r) env st) as H.
  destruct (network env (fetchCount st)); simpl in *; lia.
Qed.

Lemma fetches_wait ms : Fetches 0 (wait ms).
Proof.
  intros env st. unfold wait. rewrite fetchCount_emit. simpl. lia.
Qed.

Lemma fetches_fetchAPI host endpoint method data auth :
  Fetches 1 (fetchAPI host endpoint method data auth).
Proof.
  unfold fetchAPI.
  apply (fetches_bind _ _ 0 1).
  - apply fetches_pure. pure_cases. all: intros env st; reflexivity.
  - intro authorization.
    apply (fetches_tryCatch _ _ 1 0).
    + apply (fetches_bind _ _ 1 0); [apply fetches_fetch |].
      intro response. apply fetches_pure. pure_cases.
    + intro error. apply fetches_pure. pure_cases.
Qed.

Lemma fetches_getPrediction_while host left id :
  Fetches left (getPrediction_while host left id).
Proof.
  induction left as [| left IH]; simpl.
  - apply fetches_pure; auto with pure.
  - apply (fetches_tryCatch _ _ 1 left); [apply fetches_fetchAPI |].
    intro error.
    match goal with |- Fetches _ (if ?b then _ else _) => destruct b end.
    + apply fetches_pure; auto with pure.
    + apply (fetches_bind _ _ 0 left); [apply fetches_wait | intro; exact IH].
Qed.

Lemma fetches_getPrediction host id : Fetches maxRetries (getPrediction host id).
Proof.
  unfold getPrediction. destruct (negb (truthy id)).
  - apply fetches_pure; auto with pure.
  - apply fetches_getPrediction_while.
Qed.

(** ** Transport: the credential guard *)

(** C8 — A call of [fetchAPI] that requires authorization while
    [localStorage] holds no token (none, or an empty one) throws
    "Требуется авторизация" at once: the state is the one before the call, so
    no request was issued. *)
Theorem fetchAPI_requires_credential host endpoint method data env st :
  token env = None \/ token env = Some "" ->
  fetchAPI host endpoint method data true env st
  = (Throw (Error "Требуется авторизация"), st)
  /\ fetchCount (snd (fetchAPI host endpoint method data true env st)) = fetchCount st.
Proof.
  intros H.
  assert (E : fetchAPI host endpoint method data true env st
              = (Throw (Error "Требуется авторизация"), st)).
  { unfold fetchAPI, bind, getToken. destruct H as [-> | ->]; reflexivity. }
  rewrite E. split; reflexivity.
Qed.

(** ** Job submitter: validation before the request *)

Lemma checkFields_missing pre field post transactionData env st :
  (forall f, In f pre -> hasProperty f transactionData = true) ->
  hasProperty field transactionData = false ->
  checkFields (pre ++ field :: post)%list transactionData env st
  = (Throw (Error ("Отсутствует обязательное поле: " ++ field)), st).
Proof.
  induction pre as [| f pre IH]; intros Hpre Hfield; simpl.
  - rewrite Hfield. reflexivity.
  - rewrite (Hpre f (or_introl eq_refl)); simpl.
    apply IH; auto. intros g Hg. apply Hpre. right. exact Hg.
Qed.

Lemma checkFields_spec fields transactionData env st :
  if forallb (fun field => hasProperty field transactionData) fields
  then checkFields fields transactionData env st = (Return tt, st)
  else snd (checkFields fields transactionData env st) = st
       /\ exists e, fst (checkFields fields transactionData env st) = Throw e.
Proof.
  induction fields as [| f fields IH]; simpl.
  - reflexivity.
  - destruct (hasProperty f transactionData); simpl.
    + exact IH.
    + split; [reflexivity | eexists; reflexivity].
Qed.

Lemma hasProperty_object key v :
  hasProperty key v = true -> truthy v = true /\ typeOf v = "object".
Proof. destruct v; simpl; try discriminate; auto. Qed.

Lemma tryCatch_rethrow {A} (m : M A) env st :
  tryCatch m (fun error => throw error) env st = m env st.
Proof. unfold tryCatch, throw. destruct (m env st) as [[a | e] st']; reflexivity. Qed.

(** C3 — A payload that is an object and lacks a required field makes
    [analyzeTransaction] throw the error that names the first such field in
    the order of [requiredFields], in the state before the call (no request);
    and for any payload whatever, either it has every required field and the
    call is the one [fetchAPI] POST of the payload in its envelope, or the
    state is left as it was. *)
Theorem analyzeTransaction_validates_first
    host transactionData pre field post env st :
  truthy transactionData = true ->
  typeOf transactionData = "object" ->
  requiredFields = (pre ++ field :: post)%list ->
  (forall f, In f pre -> hasProperty f transactionData = true) ->
  hasProperty field transactionData = false ->
  analyzeTransaction host transactionData env st
  = (Throw (Error ("Отсутствует обязательное поле: " ++ field)), st)
  /\ (forall payload env' st',
        if validPayload payload
        then analyzeTransaction host payload env' st'
             = fetchAPI host "/api/predictions/predict" "POST"
                        (envelope payload) true env' st'
        else snd (analyzeTransaction host payload env' st') = st').
Proof.
  intros Htruthy Htype Hfields Hpre Hfield. split.
  - unfold analyzeTransaction. rewrite Htruthy, Htype, String.eqb_refl.
    cbn [negb orb]. unfold bind. rewrite Hfields.
    rewrite (checkFields_missing pre field post); auto.
  - intros payload env' st'. unfold analyzeTransaction, validPayload.
    pose proof (checkFields_spec requiredFields payload env' st') as Hc.
    destruct (forallb (fun f => hasProperty f payload) requiredFields) eqn:Hall.
    + assert (Hid : hasProperty "id" payload = true).
      { simpl in Hall. apply andb_true_iff in Hall. tauto. }
      destruct (hasProperty_object _ _ Hid) as [Ht Ho].
      rewrite Ht, Ho, String.eqb_refl. cbn [negb orb].
      unfold bind. rewrite Hc. apply tryCatch_rethrow.
    + destruct (negb (truthy payload) || negb (typeOf payload =? "object")).
      * reflexivity.
      * unfold bind. destruct Hc as [Hs [e He]].
        destruct (checkFields requiredFields payload env' st') as [[u | e'] st''];
          simpl in *; [discriminate | exact Hs].
Qed.

(** ** Status query without an identifier *)

(** C10 — With an identifier that is missing or empty ([undefined], [null],
    [""], or any other falsy value) [getPrediction] throws "Не указан
    идентификатор предсказания" in the state before the call, and
    [checkPredictionStatus] shows the invalid-identifier error and returns:
    neither issues a request nor sets a timer. *)
Theorem status_query_needs_identifier host id env st :
  truthy id = false ->
  getPrediction host id env st
  = (Throw (Error "Не указан идентификатор предсказания"), st)
  /\ checkPredictionStatus host id env st
     = (Return tt,
        mkState (trace st ++ [EShow VInvalidId]) (timers st)
                (predictionRetryCount st) (predictionErrorRetryCount st) VInvalidId)
  /\ fetchCount (snd (checkPredictionStatus host id env st)) = fetchCount st
  /\ truthy JUndefined = false /\ truthy JNull = false /\ truthy (JStr "") = false.
Proof.
  intros H. unfold getPrediction, checkPredictionStatus. rewrite H. simpl.
  repeat split.
  unfold fetchCount; simpl. rewrite filter_app; simpl. rewrite app_nil_r. reflexivity.
Qed.

(** ** The poller, one status query at a time *)

Lemma getPrediction_truthy host id env st p st1 :
  getPrediction host id env st = (Return p, st1) -> truthy id = true.
Proof.
  unfold getPrediction. destruct (truthy id); [reflexivity | discriminate].
Qed.

Lemma check_Return host id env st p st1 :
  getPrediction host id env st = (Return p, st1) ->
  checkPredictionStatus host id env st
  = tryCatch (onStatus host id p) (onStatusError id) env st1.
Proof.
  intros H. unfold checkPredictionStatus.
  rewrite (getPrediction_truthy _ _ _ _ _ _ H). cbn [negb].
  unfold tryCatch, bind. rewrite H. reflexivity.
Qed.

Lemma check_Throw host id env st e st1 :
  truthy id = true ->
  getPrediction host id env st = (Throw e, st1) ->
  checkPredictionStatus host id env st = onStatusError id e env st1.
Proof.
  intros Hid H. unfold checkPredictionStatus. rewrite Hid. cbn [negb].
  unfold tryCatch, bind. rewrite H. reflexivity.
Qed.

Lemma includes_nonempty m needle :
  needle <> "" -> includes m needle = true -> (m =? "") = false.
Proof.
  intros Hn H. destruct m; [| reflexivity].
  simpl in H. destruct needle; [congruence | discriminate].
Qed.

(** *** Still pending *)

Lemma readProp_defined host p key env st :
  p <> JUndefined -> p <> JNull ->
  readProp host p key env st = (Return (getProp p key), st).
Proof. intros H1 H2. destruct p; try reflexivity; congruence. Qed.

Lemma onStatus_pending host id p env st :
  isPending p = true ->
  tryCatch (onStatus host id p) (onStatusError id) env st
  = (Return tt,
     mkState (trace st ++ [EShow VPending;
                           ESetTimeout (pendingDelay (orZero (predictionRetryCount st)))
                                       (TCheckPredictionStatus id)])
             (timers st ++ [(pendingDelay (orZero (predictionRetryCount st)),
                             TCheckPredictionStatus id)])
             (Some (orZero (predictionRetryCount st) + 1)%nat)
             (predictionErrorRetryCount st)
             VPending).
Proof.
  intros Hp. unfold isPending in Hp.
  unfold tryCatch, onStatus, bind.
  rewrite readProp_defined by (intros ->; discriminate Hp).
  rewrite Hp. simpl. rewrite <- app_assoc. reflexivity.
Qed.

Lemma power_ge_1 n : 1 <= (3 # 2) ^ Z.of_nat n.
Proof. apply Qpower_1_le; [discriminate | lia]. Qed.

Lemma pendingDelay_bounds n : 2000 <= pendingDelay n /\ pendingDelay n <= 10000.
Proof.
  unfold pendingDelay, baseDelay, maxDelay. split.
  - apply Q.min_glb; [| discriminate].
    rewrite <- (Qmult_1_r 2000) at 1.
    apply Qmult_le_l; [reflexivity | apply power_ge_1].
  - apply Q.le_min_r.
Qed.

Lemma pendingDelay_capped n : (4 <= n)%nat -> pendingDelay n == 10000.
Proof.
  intros Hn. unfold pendingDelay, baseDelay, maxDelay.
  apply Q.min_r.
  apply Qle_trans with (2000 * (3 # 2) ^ 4); [discriminate |].
  apply Qmult_le_l; [reflexivity |].
  apply Qpower_le_compat_l; [lia | discriminate].
Qed.

(** C1 — When the status query returns a prediction whose [status] is
    "pending", [checkPredictionStatus] shows the pending view and sets one
    timer for the next query of the same identifier, after
    [min (2000 * 1.5^n) 10000] ms where [n] is the pending counter before
    the call; the counter becomes [n + 1].  This holds for every [n]: nothing
    caps the number of pending rounds.  The delay always lies between 2000
    and 10000 ms and is 10000 ms from the fifth round on. *)
Theorem pending_keeps_polling host id env st p st1 :
  getPrediction host id env st = (Return p, st1) ->
  isPending p = true ->
  let n := orZero (predictionRetryCount st) in
  let st2 := snd (checkPredictionStatus host id env st) in
  fst (checkPredictionStatus host id env st) = Return tt
  /\ trace st2 = (trace st1 ++ [EShow VPending;
                                ESetTimeout (pendingDelay n) (TCheckPredictionStatus id)])%list
  /\ timers st2 = (timers st ++ [(pendingDelay n, TCheckPredictionStatus id)])%list
  /\ predictionRetryCount st2 = Some (n + 1)%nat
  /\ resultContent st2 = VPending
  /\ pendingDelay n == Qmin (2000 * (3 # 2) ^ Z.of_nat n) 10000
  /\ 2000 <= pendingDelay n <= 10000
  /\ ((4 <= n)%nat -> pendingDelay n == 10000).
Proof.
  intros Hget Hp n st2.
  destruct (sameApp_getPrediction host id env st) as (Ht & Hc & _).
  rewrite Hget in Ht, Hc; simpl in Ht, Hc.
  subst st2. rewrite (check_Return _ _ _ _ _ _ Hget), (onStatus_pending _ _ _ _ _ Hp).
  simpl. rewrite Hc, Ht. fold n.
  repeat split; try reflexivity;
    try apply pendingDelay_bounds; apply pendingDelay_capped.
Qed.

(** *** Failed queries *)

Lemma getPrediction_Throw host id env st e st1 :
  getPrediction host id env st = (Throw e, st1) ->
  truthy id = true \/ e = Error "Не указан идентификатор предсказания".
Proof.
  unfold getPrediction. destruct (truthy id); [left; reflexivity |].
  simpl. unfold throw. intros H. right. congruence.
Qed.

Lemma onStatusError_notFound id e env st :
  includes (message e) "not found" = true ->
  onStatusError id e env st
  = (Return tt,
     mkState (trace st ++ [EShow VNotFound]) (timers st)
             (predictionRetryCount st) (predictionErrorRetryCount st) VNotFound).
Proof.
  intros H. unfold onStatusError.
  rewrite (includes_nonempty _ "not found" ltac:(discriminate) H), H. reflexivity.
Qed.

Lemma onStatusError_other id e env st :
  includes (message e) "not found" = false ->
  includes (message e) "Internal Server Error" = false ->
  onStatusError id e env st
  = (Return tt,
     mkState (trace st ++ [EShow (VOtherError (message e))]) (timers st)
             (predictionRetryCount st) (predictionErrorRetryCount st)
             (VOtherError (message e))).
Proof.
  intros H1 H2. unfold onStatusError. rewrite H1, H2, !andb_false_r. reflexivity.
Qed.

Lemma onStatusError_serverInternal id e env st :
  serverInternal e = true ->
  onStatusError id e env st
  = (Return tt,
     let c := orZero (predictionErrorRetryCount st) in
     if (c + 1 <=? maxErrorRetries)%nat then
       mkState (trace st ++ [EShow VRetrying;
                             ESetTimeout errorRetryDelay (TCheckPredictionStatus id)])
               (timers st ++ [(errorRetryDelay, TCheckPredictionStatus id)])
               (predictionRetryCount st) (Some (c + 1)%nat) VRetrying
     else
       mkState (trace st ++ [EShow VRetrying; EShow VTechnicalProblems;
                             ESetTimeout 100 TBindHistoryButton])
               (timers st ++ [(100, TBindHistoryButton)])
               (predictionRetryCount st) (Some (c + 1)%nat) VTechnicalProblems).
Proof.
  unfold serverInternal. intros H. apply andb_true_iff in H. destruct H as [H1 H2].
  apply negb_true_iff in H1.
  unfold onStatusError.
  rewrite H1, H2, (includes_nonempty _ "Internal Server Error" ltac:(discriminate) H2),
    andb_false_r.
  cbn [negb andb]. unfold bind. simpl.
  destruct (orZero (predictionErrorRetryCount st) + 1 <=? maxErrorRetries)%nat;
    unfold setTimeout, setResultContent; simpl; rewrite <- ?app_assoc; reflexivity.
Qed.

(** C7 — When the status query throws an error whose message contains
    "not found", [checkPredictionStatus] shows the not-found view and
    returns: it sets no timer, so no further query of the job follows, and
    issues no request after the failed one. *)
Theorem not_found_abandons host id env st e st1 :
  getPrediction host id env st = (Throw e, st1) ->
  includes (message e) "not found" = true ->
  let st2 := snd (checkPredictionStatus host id env st) in
  fst (checkPredictionStatus host id env st) = Return tt
  /\ trace st2 = (trace st1 ++ [EShow VNotFound])%list
  /\ resultContent st2 = VNotFound
  /\ timers st2 = timers st
  /\ fetchCount st2 = fetchCount st1.
Proof.
  intros Hget Hnf st2.
  assert (Hid : truthy id = true).
  { destruct (getPrediction_Throw _ _ _ _ _ _ Hget) as [H | ->]; [exact H |].
    vm_compute in Hnf. discriminate. }
  destruct (sameApp_getPrediction host id env st) as (Ht & _).
  rewrite Hget in Ht; simpl in Ht.
  subst st2.
  rewrite (check_Throw _ _ _ _ _ _ Hid Hget), (onStatusError_notFound _ _ _ _ Hnf).
  simpl. repeat split; auto.
  unfold fetchCount; simpl. rewrite filter_app; simpl. rewrite app_nil_r. reflexivity.
Qed.

(** C6 (as amended) — [fetchAPI] issues at most one request per call and
    [getPrediction] at most three; once [getPrediction] has thrown an error
    that the poller takes neither for not-found nor for a server fault, the
    error is shown and no timer is set: the polling of the job stops, with
    both counters as they were. *)
Theorem other_errors_stop_polling host id env st e st1 :
  truthy id = true ->
  getPrediction host id env st = (Throw e, st1) ->
  includes (message e) "not found" = false ->
  includes (message e) "Internal Server Error" = false ->
  let st2 := snd (checkPredictionStatus host id env st) in
  fst (checkPredictionStatus host id env st) = Return tt
  /\ trace st2 = (trace st1 ++ [EShow (VOtherError (message e))])%list
  /\ resultContent st2 = VOtherError (message e)
  /\ timers st2 = timers st
  /\ predictionRetryCount st2 = predictionRetryCount st
  /\ predictionErrorRetryCount st2 = predictionErrorRetryCount st
  /\ (fetchCount st1 <= fetchCount st + 3)%nat
  /\ (forall endpoint method data auth env' st',
        (fetchCount (snd (fetchAPI host endpoint method data auth env' st'))
         <= fetchCount st' + 1)%nat).
Proof.
  intros Hid Hget H1 H2 st2.
  destruct (sameApp_getPrediction host id env st) as (Ht & Hp & He & _).
  pose proof (fetches_getPrediction host id env st) as Hf.
  rewrite Hget in Ht, Hp, He, Hf; simpl in Ht, Hp, He, Hf.
  subst st2.
  rewrite (check_Throw _ _ _ _ _ _ Hid Hget), (onStatusError_other _ _ _ _ H1 H2).
  simpl. repeat split; auto.
  intros. apply fetches_fetchAPI.
Qed.

(** *** Rounds of the poller *)

Lemma onStatusError_returns id e env st :
  fst (onStatusError id e env st) = Return tt.
Proof.
  unfold onStatusError.
  destruct (negb (message e =? "") && includes (message e) "not found");
    [reflexivity |].
  destruct (negb (message e =? "") && includes (message e) "Internal Server Error");
    [| reflexivity].
  unfold bind; simpl.
  destruct (orZero (predictionErrorRetryCount st) + 1 <=? maxErrorRetries)%nat;
    reflexivity.
Qed.

Lemma check_returns host id env st :
  fst (checkPredictionStatus host id env st) = Return tt.
Proof.
  unfold checkPredictionStatus. destruct (negb (truthy id)); [reflexivity |].
  unfold tryCatch.
  destruct (bind (getPrediction host id) (onStatus host id) env st) as [[[] | e] s].
  - reflexivity.
  - apply onStatusError_returns.
Qed.

Lemma check_then {A} host id (k : M A) env st :
  (checkPredictionStatus host id ;;; k) env st
  = k env (snd (checkPredictionStatus host id env st)).
Proof.
  unfold bind.
  pose proof (check_returns host id env st) as Hr.
  destruct (checkPredictionStatus host id env st) as [[[] | e] s];
    simpl in *; [reflexivity | discriminate].
Qed.

Lemma takeTimer_last ts d t :
  takeTimer (length ts) (ts ++ [(d, t)]) = Some (t, ts).
Proof.
  induction ts as [| [d' t'] ts IH]; simpl.
  - reflexivity.
  - rewrite IH. reflexivity.
Qed.

Lemma runSchedule_fire host k rest env st id waiting :
  takeTimer k (timers st) = Some (TCheckPredictionStatus id, waiting) ->
  runSchedule host (k :: rest) env st
  = runSchedule host rest env
      (snd (checkPredictionStatus host id env (withTimers waiting st))).
Proof.
  intros H. simpl. rewrite H. unfold bind, setTimers. simpl.
  fold (withTimers waiting st).
  pose proof (check_returns host id env (withTimers waiting st)) as Hr.
  destruct (checkPredictionStatus host id env (withTimers waiting st)) as [[[] | e] s];
    simpl in *; [reflexivity | discriminate].
Qed.

Lemma serverInternal_truthy host id env st e st1 :
  getPrediction host id env st = (Throw e, st1) ->
  serverInternal e = true -> truthy id = true.
Proof.
  intros Hget Hsi.
  destruct (getPrediction_Throw _ _ _ _ _ _ Hget) as [H | ->]; [exact H |].
  vm_compute in Hsi. discriminate.
Qed.

Lemma filter_page_app l1 l2 :
  filter (fun e => negb (isNetwork e)) (l1 ++ l2)
  = (filter (fun e => negb (isNetwork e)) l1
     ++ filter (fun e => negb (isNetwork e)) l2)%list.
Proof. apply filter_app. Qed.

(** One round against a failing server: a retry while the counter allows,
    the abandonment after. *)
Lemma server_fault_round host id env st c :
  alwaysServerInternal host id env ->
  orZero (predictionErrorRetryCount st) = c ->
  let st' := snd (checkPredictionStatus host id env st) in
  predictionErrorRetryCount st' = Some (c + 1)%nat
  /\ predictionRetryCount st' = predictionRetryCount st
  /\ if (c + 1 <=? maxErrorRetries)%nat then
       timers st' = (timers st ++ [(5000, TCheckPredictionStatus id)])%list
       /\ pageEvents st'
          = (pageEvents st
             ++ [EShow VRetrying; ESetTimeout 5000 (TCheckPredictionStatus id)])%list
       /\ resultContent st' = VRetrying
     else
       timers st' = (timers st ++ [(100, TBindHistoryButton)])%list
       /\ pageEvents st'
          = (pageEvents st
             ++ [EShow VRetrying; EShow VTechnicalProblems;
                 ESetTimeout 100 TBindHistoryButton])%list
       /\ resultContent st' = VTechnicalProblems.
Proof.
  intros Hall <- st'.
  destruct (Hall st) as (e & st1 & Hget & Hsi).
  destruct (sameApp_getPrediction host id env st) as (Ht & Hp & He & Hv & Hev).
  rewrite Hget in Ht, Hp, He, Hv, Hev; simpl in Ht, Hp, He, Hv, Hev.
  subst st'.
  rewrite (check_Throw _ _ _ _ _ _ (serverInternal_truthy _ _ _ _ _ _ Hget Hsi) Hget),
    (onStatusError_serverInternal _ _ _ _ Hsi).
  cbn [snd]. rewrite He.
  destruct (orZero (predictionErrorRetryCount st) + 1 <=? maxErrorRetries)%nat;
    unfold pageEvents; cbn [trace timers predictionRetryCount
                            predictionErrorRetryCount resultContent];
    rewrite filter_page_app; fold (pageEvents st1); rewrite Hev, Ht, Hp;
    repeat split; reflexivity.
Qed.

(** What a retry after a server fault, and what the abandonment, leave in
    the record of the page. *)
Lemma server_fault_rounds host id env :
  alwaysServerInternal host id env ->
  forall retries st,
    (maxErrorRetries - orZero (predictionErrorRetryCount st))%nat = retries ->
    let k := length (timers st) in
    let st' := snd ((checkPredictionStatus host id ;;;
                     runSchedule host (repeat k retries)) env st) in
    pageEvents st'
    = (pageEvents st
       ++ concat (repeat [EShow VRetrying;
                          ESetTimeout 5000 (TCheckPredictionStatus id)] retries)
       ++ [EShow VRetrying; EShow VTechnicalProblems;
           ESetTimeout 100 TBindHistoryButton])%list
    /\ timers st' = (timers st ++ [(100, TBindHistoryButton)])%list
    /\ predictionErrorRetryCount st'
       = Some (orZero (predictionErrorRetryCount st) + retries + 1)%nat
    /\ predictionRetryCount st' = predictionRetryCount st
    /\ resultContent st' = VTechnicalProblems.
Proof.
  intros Hall retries.
  induction retries as [| j IH]; intros st Hj k st'; subst st'; rewrite check_then.
  - (* the counter is used up: this failure is the last *)
    pose proof (server_fault_round host id env st _ Hall eq_refl) as R.
    cbv zeta in R. unfold maxErrorRetries in *.
    replace (orZero (predictionErrorRetryCount st) + 1 <=? 3)%nat
      with false in R by (symmetry; apply Nat.leb_gt; lia).
    destruct R as (E & P & T & V & C).
    cbn [repeat runSchedule ret snd concat app].
    rewrite Nat.add_0_r. repeat split; assumption.
  - (* one more retry, then the rest from the state in which its timer fired *)
    pose proof (server_fault_round host id env st _ Hall eq_refl) as R.
    cbv zeta in R. unfold maxErrorRetries in *.
    replace (orZero (predictionErrorRetryCount st) + 1 <=? 3)%nat
      with true in R by (symmetry; apply Nat.leb_le; lia).
    destruct R as (E & P & T & V & C).
    set (s1 := snd (checkPredictionStatus host id env st)) in *.
    cbn [repeat].
    rewrite (runSchedule_fire host k (repeat k j) env s1 id (timers st))
      by (rewrite T; apply takeTimer_last).
    set (w1 := withTimers (timers st) s1).
    rewrite <- check_then.
    assert (Hw : (3 - orZero (predictionErrorRetryCount w1))%nat = j)
      by (unfold w1; cbn [withTimers predictionErrorRetryCount]; rewrite E;
          cbn [orZero]; lia).
    specialize (IH w1 Hw). cbv zeta in IH.
    change (length (timers w1)) with k in IH.
    destruct IH as (V' & T' & E' & P' & C').
    subst w1. unfold pageEvents in V' at 2.
    cbn [withTimers trace timers predictionRetryCount predictionErrorRetryCount] in *.
    fold (pageEvents s1) in V'.
    repeat split.
    + rewrite V', V. cbn [concat]. rewrite <- !app_assoc. reflexivity.
    + exact T'.
    + rewrite E', E. cbn [orZero]. f_equal. lia.
    + congruence.
    + exact C'.
Qed.


(** ** Reconciliation: balance refreshes on a terminal status *)

Lemma status_is_object p s :
  strictEqStr (getProp p "status") s = true ->
  p <> JUndefined /\ p <> JNull /\ truthy p = true.
Proof. destruct p; simpl; try discriminate; repeat split; discriminate. Qed.

Lemma strictEqStr_eq v s : strictEqStr v s = true -> v = JStr s.
Proof.
  destruct v; simpl; try discriminate.
  intros H. apply String.eqb_eq in H. congruence.
Qed.

Lemma refundExpected_spec host p env st :
  let wanted := strictEqStr (getProp p "status") "failed"
                || nonChargeable (getProp p "result") in
  refundExpected host p env st = (Return wanted, st)
  \/ (wanted = false /\ exists e, refundExpected host p env st = (Throw e, st)).
Proof.
  unfold refundExpected.
  destruct (strictEqStr (getProp p "status") "failed"); [left; reflexivity |].
  cbn [orb].
  destruct (getProp p "result") as [| | b | q | s | items | members] eqn:Hr;
    try (left; reflexivity).
  - destruct b; left; reflexivity.
  - cbn [truthy]. destruct (negb (Qzerob q)); left; reflexivity.
  - cbn [truthy typeOf nonChargeable]. unfold bind.
    destruct (negb (s =? "")) eqn:Hs; cbn [negb].
    + left. reflexivity.
    + apply negb_false_iff, String.eqb_eq in Hs. subst s. left. reflexivity.
  - cbn [truthy typeOf nonChargeable getProp negb]. unfold bind.
    simpl. destruct (lookup members "prediction") as [[| | b | q | s | l | m] |];
      simpl; try (left; reflexivity).
    + destruct b; simpl; [right | left]; eauto.
    + destruct (negb (Qzerob q)); simpl; [right | left]; eauto.
    + destruct (negb (s =? "")) eqn:Hs; simpl.
      * destruct (includes s marker); left; reflexivity.
      * apply negb_false_iff, String.eqb_eq in Hs. subst s. left. reflexivity.
    + destruct (existsb (fun y => strictEqStr y marker) l); left; reflexivity.
    + right. eauto.
Qed.

Lemma onStatusError_quiet id e env st :
  exists evs,
    trace (snd (onStatusError id e env st)) = (trace st ++ evs)%list
    /\ balanceCalls evs = 0%nat /\ delayedRefreshes evs = [].
Proof.
  destruct (includes (message e) "not found") eqn:H1.
  - rewrite (onStatusError_notFound _ _ _ _ H1). eexists; repeat split.
  - destruct (includes (message e) "Internal Server Error") eqn:H2.
    + rewrite onStatusError_serverInternal
        by (unfold serverInternal; rewrite H1, H2; reflexivity).
      cbn [snd].
      destruct (orZero (predictionErrorRetryCount st) + 1 <=? maxErrorRetries)%nat;
        eexists; repeat split.
    + rewrite (onStatusError_other _ _ _ _ H1 H2). eexists; repeat split.
Qed.

(** What the display does with a prediction that is truthy. *)
Lemma display_spec host p env st :
  truthy p = true ->
  displayPredictionResult host p env st
  = if displayFails p then (Throw (displayError host p), st)
    else (Return tt, shown (VPrediction p) st).
Proof.
  intros Hp.
  unfold displayPredictionResult, displayFails, displayError, headConverts, hasResult,
    numbersConvert, tailConverts, shownError, timingWellTyped, convert.
  rewrite Hp. cbn [negb]. unfold bind.
  destruct (convertible (orElse (getProp p "prediction_id") "N/A")); [| reflexivity].
  destruct (convertible (orElse (getProp p "cost") "1.0")); [| reflexivity].
  cbn [ret andb].
  destruct (strictEqStr (getProp p "status") "completed"
            && truthy (getProp p "result")).
  - destruct (convertible (getProp (getProp p "result") "fraud_probability"));
      [| reflexivity].
    destruct (convertible (getProp (getProp p "result") "confidence"));
      [| reflexivity].
    cbn [ret andb].
    destruct (truthy (getProp (getProp p "result") "processing_time"));
      destruct (isNumber (getProp (getProp p "result") "processing_time"));
      cbn [negb andb orb ret throw]; try reflexivity;
      (destruct (convertible (orElse (getProp (getProp p "result") "transaction_id")
                                     "N/A")); [| reflexivity];
       destruct (convertible (orElse (getProp (getProp p "result") "worker_id")
                                     "N/A")); reflexivity).
  - destruct (strictEqStr (getProp p "status") "pending"); [reflexivity |].
    destruct (strictEqStr (getProp p "status") "failed"); [| reflexivity].
    match goal with |- context [convertible ?v] => destruct (convertible v) end;
      reflexivity.
Qed.

Lemma display_terminal host p env st :
  truthy p = true ->
  displayFails p = false ->
  displayPredictionResult host p env st
  = (Return tt,
     mkState (trace st ++ [EShow (VPrediction p)]) (timers st)
             (predictionRetryCount st) (predictionErrorRetryCount st)
             (VPrediction p)).
Proof. intros Ht Hd. rewrite (display_spec _ _ _ _ Ht), Hd. reflexivity. Qed.


(** ** The two counters *)

Lemma sameCounters_trans a b c :
  sameCounters a b -> sameCounters b c -> sameCounters a c.
Proof. unfold sameCounters. congruence. Qed.

Lemma throwsOnly_ret S {A} (a : A) : ThrowsOnly S (ret a).
Proof. intros env st e st' H. discriminate H. Qed.

Lemma throwsOnly_throw (S : JsError -> Prop) {A} e : S e -> ThrowsOnly S (@throw A e).
Proof. intros He env st e' st' H. unfold throw in H. congruence. Qed.

Lemma throwsOnly_bind S {A B} (m : M A) (k : A -> M B) :
  ThrowsOnly S m -> (forall a, ThrowsOnly S (k a)) -> ThrowsOnly S (bind m k).
Proof.
  intros Hm Hk env st e st' H. unfold bind in H.
  destruct (m env st) as [[a | e0] s] eqn:E.
  - eapply Hk; exact H.
  - inversion H; subst. eapply Hm; exact E.
Qed.

Lemma typeError_site host site :
  In site typeErrorSites -> isTypeError host (TypeError host site).
Proof. intros H. exists site. auto. Qed.

Ltac in_sites := apply typeError_site; simpl; tauto.

(** The display writes the pane, or throws a [TypeError] and changes
    nothing. *)
Lemma display_outcome host p env st :
  (exists v, displayPredictionResult host p env st = (Return tt, shown v st))
  \/ (exists e, isTypeError host e
                /\ displayPredictionResult host p env st = (Throw e, st)).
Proof.
  destruct (truthy p) eqn:Hp.
  - rewrite (display_spec _ _ _ _ Hp). destruct (displayFails p).
    + right. eexists. split; [| reflexivity].
      unfold displayError.
      match goal with |- context [if ?b then _ else _] => destruct b end; in_sites.
    + left. eexists. reflexivity.
  - left. exists VNoPrediction. unfold displayPredictionResult. rewrite Hp. reflexivity.
Qed.

Lemma onStatus_terminal host id p env st :
  p <> JUndefined -> p <> JNull -> isPending p = false ->
  onStatus host id p env st = onTerminal host p env st.
Proof.
  intros Hu Hn Hp. unfold onStatus, onTerminal, isPending in *.
  unfold bind at 1. rewrite (readProp_defined _ _ _ _ _ Hu Hn), Hp. reflexivity.
Qed.

Lemma onStatus_nullish host id p env st :
  p = JUndefined \/ p = JNull ->
  onStatus host id p env st = (Throw (TypeError host (ReadOfNullish "status")), st).
Proof. intros [-> | ->]; reflexivity. Qed.

Ltac quiet_leaf := intros ? ?; reflexivity.

Lemma onTerminal_counters host p : Keeps sameCounters (onTerminal host p).
Proof.
  unfold onTerminal.
  repeat (apply keeps_bind; [apply sameCounters_trans | | intro]);
    try quiet_leaf.
  - intros env st.
    destruct (display_outcome host p env st) as [(v & ->) | (e & _ & ->)]; reflexivity.
  - intros env st. rewrite <- (pure_refundExpected host p env st). reflexivity.
  - match goal with |- Keeps _ (if ?b then _ else _) => destruct b end; quiet_leaf.
Qed.

Ltac no_throw := intros ? ? ? ? H; discriminate H.

Lemma onTerminal_throws host p : ThrowsOnly (isTypeError host) (onTerminal host p).
Proof.
  unfold onTerminal.
  repeat (apply throwsOnly_bind; [| intro]); try no_throw.
  - intros env st e st' H.
    destruct (display_outcome host p env st) as [(v & E) | (e' & He & E)];
      rewrite E in H; [discriminate |].
    injection H as <- _. exact He.
  - unfold refundExpected, callIncludes.
    repeat first
      [ apply throwsOnly_ret
      | apply throwsOnly_throw; in_sites
      | apply throwsOnly_bind; [| intro]
      | match goal with
        | |- ThrowsOnly _ (if ?b then _ else _) => destruct b
        | |- ThrowsOnly _ (match ?x with _ => _ end) => destruct x
        end ].
  - match goal with |- ThrowsOnly _ (if ?b then _ else _) => destruct b end; no_throw.
Qed.

Lemma saneHost_sites host site :
  saneHost host = true -> In site typeErrorSites ->
  includes (typeErrorMessage host site) "not found" = false
  /\ includes (typeErrorMessage host site) "Internal Server Error" = false.
Proof.
  unfold saneHost. intros H Hin.
  rewrite forallb_forall in H. specialize (H site Hin).
  apply andb_true_iff in H. destruct H as [H1 H2].
  apply negb_true_iff in H1, H2. auto.
Qed.

Lemma onStatusError_typeError host id e env st :
  saneHost host = true -> isTypeError host e ->
  sameCounters st (snd (onStatusError id e env st))
  /\ serverInternal e = false.
Proof.
  intros Hsane (site & Hin & ->).
  destruct (saneHost_sites host site Hsane Hin) as [H1 H2].
  split.
  - rewrite onStatusError_other by assumption. reflexivity.
  - unfold serverInternal. simpl. rewrite H2. apply andb_false_r.
Qed.

(** The counters after [checkPredictionStatus] depend on the counters before
    and on the outcome of the query, not on the identifier. *)
Lemma check_counters host id env st :
  saneHost host = true -> truthy id = true ->
  counters (snd (checkPredictionStatus host id env st))
  = countersAfter (fst (getPrediction host id env st)) (counters st).
Proof.
  intros Hsane Hid.
  destruct (sameApp_getPrediction host id env st) as (_ & Hp & He & _).
  destruct (getPrediction host id env st) as [[p | e] st1] eqn:Hget;
    cbn [fst snd] in *.
  - rewrite (check_Return _ _ _ _ _ _ Hget). unfold countersAfter.
    destruct (isPending p) eqn:Hpend.
    + rewrite (onStatus_pending _ _ _ _ _ Hpend). unfold counters; simpl.
      rewrite Hp, He. reflexivity.
    + assert (Hc : counters st1 = counters st) by (unfold counters; congruence).
      rewrite <- Hc. unfold tryCatch.
      assert (Hnull : {p = JUndefined \/ p = JNull} + {p <> JUndefined /\ p <> JNull}).
      { destruct p; try (right; split; discriminate); left; auto. }
      destruct Hnull as [Hnull | [Hu Hn]].
      * rewrite (onStatus_nullish _ _ _ _ _ Hnull).
        apply (onStatusError_typeError host id _ env st1 Hsane).
        in_sites.
      * rewrite (onStatus_terminal _ _ _ _ _ Hu Hn Hpend).
        pose proof (onTerminal_counters host p env st1) as Hk.
        pose proof (onTerminal_throws host p env st1) as Ht.
        destruct (onTerminal host p env st1) as [[u | e] s]; cbn [snd] in *.
        -- exact Hk.
        -- destruct (onStatusError_typeError host id e env s Hsane (Ht e s eq_refl))
             as [Hs _].
           unfold sameCounters in *. congruence.
  - rewrite (check_Throw _ _ _ _ _ _ Hid Hget). unfold countersAfter.
    destruct (serverInternal e) eqn:Hsi.
    + rewrite (onStatusError_serverInternal _ _ _ _ Hsi). cbn [snd fst counters].
      destruct (orZero (predictionErrorRetryCount st1) + 1 <=? maxErrorRetries)%nat;
        unfold counters; simpl; rewrite Hp, He; reflexivity.
    + unfold serverInternal in Hsi.
      destruct (includes (message e) "not found") eqn:H1.
      * rewrite (onStatusError_notFound _ _ _ _ H1). unfold counters; simpl.
        rewrite Hp, He. reflexivity.
      * cbn [negb andb] in Hsi.
        rewrite (onStatusError_other _ _ _ _ H1 Hsi). unfold counters; simpl.
        rewrite Hp, He. reflexivity.
Qed.

(** C5 (as amended) — The two counters are separate fields and nothing resets
    either: after a status query that returned, the error counter is what it
    was, and the pending counter is one more when the status is "pending" and
    what it was otherwise; after a status query that threw, the pending
    counter is what it was, and the error counter is one more when the
    failure is taken for a server fault and what it was otherwise. *)
Theorem counters_are_never_reset host id env st :
  saneHost host = true ->
  truthy id = true ->
  let st2 := snd (checkPredictionStatus host id env st) in
  match fst (getPrediction host id env st) with
  | Return p =>
      predictionErrorRetryCount st2 = predictionErrorRetryCount st
      /\ predictionRetryCount st2
         = if isPending p then Some (orZero (predictionRetryCount st) + 1)%nat
           else predictionRetryCount st
  | Throw e =>
      predictionRetryCount st2 = predictionRetryCount st
      /\ predictionErrorRetryCount st2
         = if serverInternal e
           then Some (orZero (predictionErrorRetryCount st) + 1)%nat
           else predictionErrorRetryCount st
  end.
Proof.
  intros Hsane Hid st2.
  pose proof (check_counters host id env st Hsane Hid) as H.
  fold st2 in H. unfold counters, countersAfter in H.
  destruct (fst (getPrediction host id env st)) as [p | e].
  - destruct (isPending p); inversion H; auto.
  - destruct (serverInternal e); inversion H; auto.
Qed.

(** ** Several jobs on one page *)

(** C9 (as amended) — The counters belong to the [App] instance, not to a
    job: when a pending answer for one identifier is followed by a pending
    answer for another, the second job's next query is set after the delay of
    round [n + 1], where [n] is the pending counter before the first answer,
    and the counter ends at [n + 2]. *)
Theorem jobs_share_the_counters host idA idB env st pA stA pB stB :
  getPrediction host idA env st = (Return pA, stA) ->
  isPending pA = true ->
  let s1 := snd (checkPredictionStatus host idA env st) in
  getPrediction host idB env s1 = (Return pB, stB) ->
  isPending pB = true ->
  let s2 := snd (checkPredictionStatus host idB env s1) in
  let n := orZero (predictionRetryCount st) in
  timers s2 = (timers st ++ [(pendingDelay n, TCheckPredictionStatus idA);
                             (pendingDelay (n + 1), TCheckPredictionStatus idB)])%list
  /\ predictionRetryCount s1 = Some (n + 1)%nat
  /\ predictionRetryCount s2 = Some (n + 2)%nat.
Proof.
  intros HgA HpA s1 HgB HpB s2 n.
  destruct (sameApp_getPrediction host idA env st) as (HtA & HcA & _).
  rewrite HgA in HtA, HcA; cbn [snd] in HtA, HcA.
  assert (E1 : s1 = snd (tryCatch (onStatus host idA pA) (onStatusError idA) env stA))
    by (unfold s1; rewrite (check_Return _ _ _ _ _ _ HgA); reflexivity).
  rewrite (onStatus_pending _ _ _ _ _ HpA) in E1. cbn [snd] in E1.
  destruct (sameApp_getPrediction host idB env s1) as (HtB & HcB & _).
  rewrite HgB in HtB, HcB; cbn [snd] in HtB, HcB.
  assert (E2 : s2 = snd (tryCatch (onStatus host idB pB) (onStatusError idB) env stB))
    by (unfold s2; rewrite (check_Return _ _ _ _ _ _ HgB); reflexivity).
  rewrite (onStatus_pending _ _ _ _ _ HpB) in E2. cbn [snd] in E2.
  rewrite E2. cbn [timers predictionRetryCount].
  rewrite HtB, HcB, E1. cbn [timers predictionRetryCount orZero].
  rewrite HtA, HcA. fold n.
  rewrite <- app_assoc. repeat split.
  f_equal. lia.
Qed.

(** ** Examples *)

(** The job whose status is pending, pending, completed: three requests, the
    delays 2000 and 3000 ms, the result shown once and the balance refreshed
    once. *)
Example pending_pending_completed :
  let st := snd ((checkPredictionStatus exampleHost J1 ;;;
                  runSchedule exampleHost [0; 0; 0]%nat)
                   envPendingPendingCompleted freshApp) in
  fetchCount st = 3%nat
  /\ Forall2 Qeq (delaysSet (trace st)) [2000; 3000]
  /\ resultsShown (trace st) = 1%nat
  /\ balanceCalls (trace st) = 1%nat
  /\ timers st = []
  /\ resultContent st = VPrediction completedJob.
Proof.
  vm_compute. repeat split; try reflexivity.
  repeat constructor.
Qed.

(** An error whose message has no "сервер" in it leaves [getPrediction] after
    one request. *)
Example not_found_is_not_retried_by_getPrediction :
  getPrediction exampleHost J1 envNotFound freshApp
  = (Throw (Error "Prediction not found"),
     mkState [EFetch (mkRequest "http://localhost:8000/api/predictions/J1" "GET"
                                (Some "Bearer t0k3n") None)]
             [] None None VBlank).
Proof. vm_compute. reflexivity. Qed.

(** The error counter outlives the job: once a job was abandoned after four
    server faults, the first server fault of the next job abandons it. *)
Example second_job_after_abandonment :
  let st := snd ((checkPredictionStatus exampleHost (JStr "A") ;;;
                  runSchedule exampleHost [0; 0; 0; 0]%nat ;;;
                  checkPredictionStatus exampleHost (JStr "B"))
                   envServerFault freshApp) in
  fetchCount st = 5%nat
  /\ predictionErrorRetryCount st = Some 5%nat
  /\ delaysFor "B" st = []
  /\ resultContent st = VTechnicalProblems.
Proof. vm_compute. repeat split. Qed.

Lemma envServerFault_always : alwaysServerInternal exampleHost J1 envServerFault.
Proof.
  intros st. eexists _, _. split; [cbv; reflexivity | vm_compute; reflexivity].
Defined.

(** ** Instances of the theorems *)

Lemma fetchAPI_requires_credential_witness :
  token (mkEnv None (fun _ => aborted)) = None
  /\ fetchAPI exampleHost "/api/balance/" "GET" JNull true
              (mkEnv None (fun _ => aborted)) freshApp
     = (Throw (Error "Требуется авторизация"), freshApp).
Proof.
  split; [reflexivity |].
  apply (fetchAPI_requires_credential exampleHost "/api/balance/" "GET" JNull
           (mkEnv None (fun _ => aborted)) freshApp).
  left. reflexivity.
Defined.

Lemma analyzeTransaction_validates_first_witness :
  hasProperty "origin_account" incompletePayload = false
  /\ analyzeTransaction exampleHost incompletePayload envPending freshApp
     = (Throw (Error "Отсутствует обязательное поле: origin_account"), freshApp).
Proof.
  split; [reflexivity |].
  apply (analyzeTransaction_validates_first exampleHost incompletePayload
           ["id"; "amount"] "origin_account"
           ["dest_account"; "old_balance_orig"; "new_balance_orig";
            "old_balance_dest"; "new_balance_dest"; "hour"; "day"; "month"]
           envPending freshApp);
    try reflexivity.
  intros f [<- | [<- | []]]; reflexivity.
Defined.

Lemma status_query_needs_identifier_witness :
  truthy (JStr "") = false
  /\ getPrediction exampleHost (JStr "") envPending freshApp
     = (Throw (Error "Не указан идентификатор предсказания"), freshApp).
Proof.
  split; [reflexivity |].
  apply (status_query_needs_identifier exampleHost (JStr "") envPending freshApp).
  reflexivity.
Defined.

Lemma pending_keeps_polling_witness :
  isPending pendingJob = true
  /\ timers (snd (checkPredictionStatus exampleHost J1 envPending freshApp))
     = [(pendingDelay 0, TCheckPredictionStatus J1)].
Proof.
  split; [reflexivity |].
  apply (pending_keeps_polling exampleHost J1 envPending freshApp pendingJob
           (snd (getPrediction exampleHost J1 envPending freshApp)));
    reflexivity.
Defined.


Lemma not_found_abandons_witness :
  includes "Prediction not found" "not found" = true
  /\ timers (snd (checkPredictionStatus exampleHost J1 envNotFound freshApp)) = []
  /\ resultContent (snd (checkPredictionStatus exampleHost J1 envNotFound freshApp))
     = VNotFound.
Proof.
  split; [reflexivity |].
  pose proof (not_found_abandons exampleHost J1 envNotFound freshApp
                (Error "Prediction not found")
                (snd (getPrediction exampleHost J1 envNotFound freshApp))
                eq_refl eq_refl) as H.
  cbv zeta in H. destruct H as (_ & _ & Hv & Ht & _).
  split; [exact Ht | exact Hv].
Defined.

Lemma other_errors_stop_polling_witness :
  truthy J1 = true
  /\ timers (snd (checkPredictionStatus exampleHost J1 envTimeout freshApp)) = []
  /\ resultContent (snd (checkPredictionStatus exampleHost J1 envTimeout freshApp))
     = VOtherError "Превышено время ожидания ответа от сервера".
Proof.
  split; [reflexivity |].
  pose proof (other_errors_stop_polling exampleHost J1 envTimeout freshApp
                (Error "Превышено время ожидания ответа от сервера")
                (snd (getPrediction exampleHost J1 envTimeout freshApp))
                eq_refl eq_refl eq_refl eq_refl) as H.
  cbv zeta in H. destruct H as (_ & _ & Hv & Ht & _).
  split; [exact Ht | exact Hv].
Defined.


Lemma counters_are_never_reset_witness :
  saneHost exampleHost = true
  /\ truthy J1 = true
  /\ predictionErrorRetryCount
       (snd (checkPredictionStatus exampleHost J1 envPending freshApp)) = None
  /\ predictionRetryCount
       (snd (checkPredictionStatus exampleHost J1 envPending freshApp)) = Some 1%nat.
Proof.
  split; [reflexivity | split; [reflexivity |]].
  exact (counters_are_never_reset exampleHost J1 envPending freshApp eq_refl eq_refl).
Defined.

Lemma jobs_share_the_counters_witness :
  isPending pendingJob = true
  /\ predictionRetryCount
       (snd (checkPredictionStatus exampleHost (JStr "B") envPending
               (snd (checkPredictionStatus exampleHost (JStr "A") envPending freshApp))))
     = Some 2%nat.
Proof.
  split; [reflexivity |].
  pose proof (jobs_share_the_counters exampleHost (JStr "A") (JStr "B") envPending
                freshApp pendingJob
                (snd (getPrediction exampleHost (JStr "A") envPending freshApp))
                pendingJob
                (snd (getPrediction exampleHost (JStr "B") envPending
                        (snd (checkPredictionStatus exampleHost (JStr "A")
                                envPending freshApp))))
                eq_refl eq_refl eq_refl eq_refl) as H.
  cbv zeta in H. destruct H as (_ & _ & H). exact H.
Defined.

(** ** Where the code departs from the specification *)

(** One server fault, then a pending answer: the error counter stays at 1. *)
Lemma error_counter_is_not_reset : ~ success_resets_error_counter exampleHost.
Proof.
  intros H.
  pose (st := withTimers []
                (snd (checkPredictionStatus exampleHost J1 envFaultThenPending freshApp))).
  specialize (H J1 envFaultThenPending st pendingJob
                (snd (getPrediction exampleHost J1 envFaultThenPending st)) eq_refl).
  vm_compute in H. discriminate H.
Qed.



(** Against a server that times out, one [getPrediction] issues three
    requests, a second apart, before the poller is told. *)
Lemma getPrediction_retries_timeouts : ~ api_layer_never_retries exampleHost.
Proof.
  intros H. specialize (H J1 envTimeout freshApp).
  vm_compute in H. lia.
Qed.

Example timeout_is_retried_by_getPrediction :
  trace (snd (checkPredictionStatus exampleHost J1 envTimeout freshApp))
  = let request := EFetch (mkRequest "http://localhost:8000/api/predictions/J1" "GET"
                                     (Some "Bearer t0k3n") None) in
    [request; EWait 1000; request; EWait 1000; request;
     EShow (VOtherError "Превышено время ожидания ответа от сервера")].
Proof. vm_compute. reflexivity. Qed.

(** Job B polled after job A waits 3000 ms, polled alone 2000 ms. *)
Lemma jobs_are_not_independent : ~ jobs_poll_independently exampleHost.
Proof.
  intros H.
  specialize (H (Some "t0k3n") (okJson pendingJob) "A" "B" freshApp
                ltac:(discriminate)).
  vm_compute in H. inversion H as [| x y l l' Hxy Hrest]; subst.
  vm_compute in Hxy. discriminate Hxy.
Qed.

(** * Properties of the rest of the client *)

(** ** fetchAPI: what it sends and what it throws *)

Lemma awaitBody_eq {A} (b : JsError + A) env st :
  awaitBody b env st = (match b with inl e => Throw e | inr a => Return a end, st).
Proof. destruct b; reflexivity. Qed.

Lemma snd_tryCatch_pure {A} (m : M A) (h : JsError -> M A) env st :
  (forall e, Pure (h e)) -> snd (tryCatch m h env st) = snd (m env st).
Proof.
  intros Hh. unfold tryCatch.
  destruct (m env st) as [[v | e] s]; cbn [snd]; [reflexivity |].
  symmetry. apply (Hh e env s).
Qed.

Lemma snd_bind_pure {A B} (m : M A) (k : A -> M B) env st :
  (forall a, Pure (k a)) -> snd (bind m k env st) = snd (m env st).
Proof.
  intros Hk. unfold bind.
  destruct (m env st) as [[v | e] s]; cbn [snd]; [| reflexivity].
  symmetry. apply (Hk v env s).
Qed.

Lemma fetch_eq r env st :
  fetch r env st
  = (match network env (fetchCount st) with
     | Rejected e => Throw e
     | Resolved response => Return response
     end, sent r st).
Proof. unfold fetch. destruct (network env (fetchCount st)); reflexivity. Qed.

(** The credential step of [fetchAPI]. *)
Lemma fetchAPI_credential host endpoint method data auth env st :
  (auth = true -> bearer env <> None) ->
  fetchAPI host endpoint method data auth env st
  = tryCatch
      (response <- fetch (requestOf endpoint method data auth env) ;;
       if negb (ok response) then
         errorMessage <- errorMessageOf host response ;;
         throw (Error errorMessage)
       else if noContentType (contentType response) then
         ret JNull
       else if isJson (contentType response) then
         tryCatch (awaitBody (json response))
                  (fun _ => throw (Error "Получен некорректный JSON от сервера"))
       else
         textResponse <- awaitBody (text response) ;;
         ret (JStr textResponse))
      (fun error =>
         if String.eqb (name error) "AbortError" then
           throw (Error "Превышено время ожидания ответа от сервера")
         else if String.eqb (name error) "TypeError"
                 && includes (message error) "Failed to fetch" then
           throw (Error "Не удалось подключиться к серверу. Проверьте подключение к интернету.")
         else throw error) env st.
Proof.
  intros Hn. unfold fetchAPI, requestOf. unfold bind at 1.
  destruct auth.
  - specialize (Hn eq_refl). unfold bind, getToken, bearer in *.
    destruct (token env) as [t |]; [| congruence].
    destruct (String.eqb t ""); [congruence |]. reflexivity.
  - reflexivity.
Qed.

(** Once past the credential step, [fetchAPI] issues its one request and
    changes nothing else. *)
Lemma fetchAPI_sends host endpoint method data auth env st :
  (auth = true -> bearer env <> None) ->
  snd (fetchAPI host endpoint method data auth env st)
  = sent (requestOf endpoint method data auth env) st.
Proof.
  intros Hn. rewrite (fetchAPI_credential _ _ _ _ _ _ _ Hn).
  rewrite snd_tryCatch_pure by (intro; pure_cases).
  rewrite snd_bind_pure by (intro; pure_cases).
  rewrite fetch_eq. reflexivity.
Qed.

Lemma fetchAPI_no_credential host endpoint method data env st :
  bearer env = None ->
  fetchAPI host endpoint method data true env st
  = (Throw (Error "Требуется авторизация"), st).
Proof.
  unfold bearer, fetchAPI, bind, getToken. intros H.
  destruct (token env) as [t |]; [| reflexivity].
  destruct (String.eqb t ""); [reflexivity | discriminate].
Qed.

(** X1 — [fetchAPI] issues one request and no more, the one its arguments
    describe (the address, the method, the [Bearer] header exactly when
    authorization is asked for, the data as body only for POST, PUT and PATCH),
    or none at all; and none only when authorization is asked for and no token
    is stored. *)
Theorem fetchAPI_one_request host endpoint method data auth env st :
  (fetchAPI host endpoint method data auth env st
   = (Throw (Error "Требуется авторизация"), st)
   /\ auth = true /\ bearer env = None)
  \/ (snd (fetchAPI host endpoint method data auth env st)
      = sent (requestOf endpoint method data auth env) st
      /\ authorization (requestOf endpoint method data auth env)
         = (if auth then bearer env else None)
      /\ (if auth then bearer env <> None else True)).
Proof.
  destruct auth.
  - destruct (bearer env) as [b |] eqn:Hb.
    + right. split; [| split; [cbn; rewrite Hb; reflexivity | discriminate]].
      apply fetchAPI_sends. intros _. congruence.
    + left. split; [| split; reflexivity].
      apply fetchAPI_no_credential. exact Hb.
  - right. split; [| split; [reflexivity | exact I]].
    apply fetchAPI_sends. discriminate.
Qed.

(** X2 — [fetchAPI] never throws an [AbortError] nor the [TypeError] of a
    failed connection: whatever it throws under these names was replaced by
    its own worded [Error]. *)
Theorem fetchAPI_hides_abort host endpoint method data auth env st e :
  fst (fetchAPI host endpoint method data auth env st) = Throw e ->
  name e <> "AbortError"
  /\ ~ (name e = "TypeError" /\ includes (message e) "Failed to fetch" = true).
Proof.
  intros H.
  assert (Hcase : (auth = true /\ bearer env = None)
                  \/ (auth = true -> bearer env <> None)).
  { destruct auth; [| right; discriminate].
    destruct (bearer env); [right; discriminate | left; auto]. }
  destruct Hcase as [[-> Hb] | Hb].
  - rewrite (fetchAPI_no_credential _ _ _ _ _ _ Hb) in H.
    inversion H; subst. split; [discriminate | intros [K _]; discriminate].
  - rewrite fetchAPI_credential in H by exact Hb.
    unfold tryCatch in H.
    match type of H with
    | fst (match ?m env st with _ => _ end) = _ => destruct (m env st) as [[v | e0] s]
    end; [discriminate |].
    destruct (String.eqb (name e0) "AbortError") eqn:Ha.
    + inversion H; subst. split; [discriminate | intros [K _]; discriminate].
    + destruct (String.eqb (name e0) "TypeError"
                && includes (message e0) "Failed to fetch") eqn:Ht.
      * inversion H; subst. split; [discriminate | intros [K _]; discriminate].
      * inversion H; subst. split.
        -- apply String.eqb_neq. exact Ha.
        -- intros [K1 K2]. rewrite K1, K2 in Ht. discriminate.
Qed.

Lemma errorMessageOf_returns host r :
  exists msg,
    (forall env st, errorMessageOf host r env st = (Return msg, st))
    /\ (unreadable r = true -> msg = statusLine host r).
Proof.
  unfold errorMessageOf, unreadable, statusLine, tryCatch, bind.
  destruct (isJson (contentType r)).
  - destruct (json r) as [e | v].
    + eexists. split; [intros; reflexivity | reflexivity].
    + destruct v; cbn; eexists;
        (split; [intros; reflexivity | try discriminate; reflexivity]).
  - destruct (text r) as [e | t].
    + eexists. split; [intros; reflexivity | reflexivity].
    + eexists. split; [intros; reflexivity | discriminate].
Qed.

Lemma fetchAPI_not_ok host endpoint method data auth env st r :
  (auth = true -> bearer env <> None) ->
  network env (fetchCount st) = Resolved r ->
  ok r = false ->
  fetchAPI host endpoint method data auth env st
  = (match fst (errorMessageOf host r env st) with
     | Return msg => Throw (Error msg)
     | Throw e => Throw e
     end, sent (requestOf endpoint method data auth env) st).
Proof.
  intros Hb Hnet Hok.
  rewrite (fetchAPI_credential _ _ _ _ _ _ _ Hb).
  unfold tryCatch, bind. rewrite fetch_eq, Hnet, Hok. cbn [negb].
  destruct (errorMessageOf_returns host r) as (msg & E & _).
  rewrite !E. reflexivity.
Qed.


Lemma unitsOfByte_small n :
  (128 <= n < 192)%nat -> unitsOfByte (ascii_of_nat n) = 0%nat.
Proof.
  intros H. unfold unitsOfByte. rewrite nat_ascii_embedding by lia.
  replace (n <? 128)%nat with false by (symmetry; apply Nat.ltb_ge; lia).
  replace (n <? 192)%nat with true by (symmetry; apply Nat.ltb_lt; lia).
  reflexivity.
Qed.

Lemma jsLength_highSurrogate lead rest : jsLength (highSurrogate lead rest) = 1%nat.
Proof.
  unfold highSurrogate. cbn [jsLength].
  change (unitsOfByte (ascii_of_nat 237)) with 1%nat.
  rewrite !unitsOfByte_small; [reflexivity | |].
  - pose proof (Nat.mod_upper_bound
                  (match rest with
                   | String c1 (String c2 _) =>
                       (nat_of_ascii lead mod 8) * 256 + (nat_of_ascii c1 mod 64) * 4
                       + (nat_of_ascii c2 mod 64) / 16 - 64
                   | _ => 0
                   end)%nat 64 ltac:(lia)). lia.
  - pose proof (Nat.mod_upper_bound
                  ((match rest with
                    | String c1 (String c2 _) =>
                        (nat_of_ascii lead mod 8) * 256 + (nat_of_ascii c1 mod 64) * 4
                        + (nat_of_ascii c2 mod 64) / 16 - 64
                    | _ => 0
                    end) / 64)%nat 16 ltac:(lia)). lia.
Qed.

(** A cut at [n] leaves at most [n] units. *)
Lemma jsLength_substring0 n s : (jsLength (substring0 n s) <= n)%nat.
Proof.
  revert n. induction s as [| c s IH]; intros n; cbn [substring0 jsLength]; [lia |].
  destruct (unitsOfByte c <=? n)%nat eqn:Hu.
  - apply Nat.leb_le in Hu. cbn [jsLength]. specialize (IH (n - unitsOfByte c)%nat). lia.
  - destruct (n =? 1)%nat eqn:Hn.
    + apply Nat.eqb_eq in Hn. rewrite jsLength_highSurrogate. lia.
    + cbn [jsLength]. lia.
Qed.

(** A text that is short enough is not changed by the cut. *)
Lemma substring0_short n s : (jsLength s <= n)%nat -> substring0 n s = s.
Proof.
  revert n. induction s as [| c s IH]; intros n H; cbn [substring0 jsLength] in *;
    [reflexivity |].
  replace (unitsOfByte c <=? n)%nat with true by (symmetry; apply Nat.leb_le; lia).
  rewrite IH by lia. reflexivity.
Qed.

Lemma jsLength_append s t : jsLength (s ++ t) = (jsLength s + jsLength t)%nat.
Proof. induction s as [| c s IH]; cbn; [reflexivity | rewrite IH; lia]. Qed.

(** X4 — The message that [fetchAPI] throws for a failed response whose body
    is text and not JSON is never longer than 103 units: a text of more than
    100 is cut to its first 100 and "...", a shorter one is passed whole, and
    an empty one gives the stock message. The units are those in which the
    engine counts, so that a text of eighty Cyrillic letters is passed
    whole. *)
Theorem fetchAPI_truncates_text host endpoint method data auth env st r t :
  (auth = true -> bearer env <> None) ->
  network env (fetchCount st) = Resolved r ->
  ok r = false ->
  isJson (contentType r) = false ->
  text r = inr t ->
  exists msg,
    fst (fetchAPI host endpoint method data auth env st) = Throw (Error msg)
    /\ (jsLength msg <= 103)%nat
    /\ (if (100 <? jsLength t)%nat
        then msg = substring0 100 t ++ "..."
        else if String.eqb t "" then msg = "Произошла ошибка при выполнении запроса"
        else msg = t).
Proof.
  intros Hb Hnet Hok Hj Ht.
  rewrite (fetchAPI_not_ok _ _ _ _ _ _ _ _ Hb Hnet Hok).
  unfold errorMessageOf, tryCatch, bind. rewrite Hj, awaitBody_eq, Ht. cbn [fst ret].
  destruct (String.eqb t "") eqn:He.
  - apply String.eqb_eq in He. subst t.
    replace (100 <? jsLength "Произошла ошибка при выполнении запроса")%nat with false
      by (vm_compute; reflexivity).
    replace (100 <? jsLength "")%nat with false by reflexivity.
    eexists. split; [reflexivity |]. split; [| reflexivity].
    apply Nat.leb_le. vm_compute. reflexivity.
  - destruct (100 <? jsLength t)%nat eqn:Hl.
    + eexists. split; [reflexivity |]. split; [| reflexivity].
      rewrite jsLength_append. pose proof (jsLength_substring0 100 t).
      change (jsLength "...") with 3%nat. lia.
    + eexists. split; [reflexivity |]. split; [| reflexivity].
      apply Nat.ltb_ge in Hl. lia.
Qed.

(** ** The retry loops of the API *)

Lemma getPrediction_while_retryLoop host left id env st :
  getPrediction_while host left id env st
  = retryLoop (fetchAPI host ("/api/predictions/" ++ toString host id) "GET" JNull true)
              left env st.
Proof.
  revert env st. induction left as [| left IH]; intros env st; [reflexivity |].
  cbn [getPrediction_while retryLoop]. unfold tryCatch, notRetried.
  match goal with |- context [fetchAPI ?h ?u ?m ?d ?a env st] =>
    destruct (fetchAPI h u m d a env st) as [[v | e] s] end; [reflexivity |].
  match goal with |- (if ?c then _ else _) env s = _ => destruct c end;
    [reflexivity |].
  unfold bind. destruct (wait retryDelay env s) as [[u | e'] s']; [apply IH | reflexivity].
Qed.

Lemma getPredictionHistory_while_retryLoop host left env st :
  getPredictionHistory_while host left env st
  = retryLoop (fetchAPI host "/api/predictions/" "GET" JNull true) left env st.
Proof.
  revert env st. induction left as [| left IH]; intros env st; [reflexivity |].
  cbn [getPredictionHistory_while retryLoop]. unfold tryCatch, notRetried.
  match goal with |- context [fetchAPI ?h ?u ?m ?d ?a env st] =>
    destruct (fetchAPI h u m d a env st) as [[v | e] s] end; [reflexivity |].
  match goal with |- (if ?c then _ else _) env s = _ => destruct c end;
    [reflexivity |].
  unfold bind. destruct (wait retryDelay env s) as [[u | e'] s']; [apply IH | reflexivity].
Qed.

(** Without a token the loop throws at its first attempt: the state is the
    one before. *)
Lemma retryLoop_no_credential host endpoint left env st :
  bearer env = None ->
  retryLoop (fetchAPI host endpoint "GET" JNull true) (S left) env st
  = (Throw (Error "Требуется авторизация"), st).
Proof.
  intros Hb. cbn [retryLoop]. unfold tryCatch.
  rewrite (fetchAPI_no_credential _ _ _ _ _ _ Hb).
  replace (notRetried (Error "Требуется авторизация")) with true
    by (vm_compute; reflexivity).
  rewrite orb_true_r. reflexivity.
Qed.

(** With a token the loop leaves a request, and a wait and a request for
    each further attempt: never a wait at the end. *)
Lemma retryLoop_trace host endpoint env :
  bearer env <> None ->
  forall left st,
    (1 <= left <= maxRetries)%nat ->
    exists n,
      (n < left)%nat
      /\ trace (snd (retryLoop (fetchAPI host endpoint "GET" JNull true) left env st))
         = (trace st ++ attempts (requestOf endpoint "GET" JNull true env) n)%list.
Proof.
  intros Hb. set (r := requestOf endpoint "GET" JNull true env).
  induction left as [| left IH]; intros st Hl; [lia |].
  cbn [retryLoop]. unfold tryCatch.
  pose proof (fetchAPI_sends host endpoint "GET" JNull true env st (fun _ => Hb)) as Hs.
  fold r in Hs.
  destruct (fetchAPI host endpoint "GET" JNull true env st) as [[v | e] s];
    cbn [snd] in *; subst s.
  - exists 0%nat. split; [lia | reflexivity].
  - destruct (Nat.eq_dec left 0) as [-> | Hne].
    + exists 0%nat. split; [lia | reflexivity].
    + replace (maxRetries <=? S (maxRetries - S left))%nat with false
        by (symmetry; apply Nat.leb_gt; unfold maxRetries in *; lia).
      cbn [orb]. destruct (notRetried e).
      * exists 0%nat. split; [lia | reflexivity].
      * unfold bind, wait, emit. cbn [fst snd].
        match goal with |- context [retryLoop _ left env ?s] =>
          destruct (IH s ltac:(lia)) as (n & Hn & Ht) end.
        exists (S n). split; [lia |].
        rewrite Ht. cbn [trace sent]. unfold attempts.
        cbn [repeat concat]. rewrite <- !app_assoc. reflexivity.
Qed.

(** X5 — What one [getPrediction] leaves on the network: nothing, when the
    identifier is missing or no token is stored, and then it throws; or else
    the request for that identifier, followed by at most two more of the same,
    each after a wait of 1000 ms. It never ends on a wait. *)
Theorem getPrediction_footprint host id env st :
  (trace (snd (getPrediction host id env st)) = trace st
   /\ (exists e, fst (getPrediction host id env st) = Throw e)
   /\ (truthy id = false \/ bearer env = None))
  \/ (exists n,
        (n <= 2)%nat
        /\ trace (snd (getPrediction host id env st))
           = (trace st
              ++ attempts (requestOf ("/api/predictions/" ++ toString host id)
                                     "GET" JNull true env) n)%list).
Proof.
  unfold getPrediction. destruct (truthy id) eqn:Hid; cbn [negb].
  - rewrite getPrediction_while_retryLoop.
    destruct (bearer env) as [b |] eqn:Hb.
    + right.
      destruct (retryLoop_trace host ("/api/predictions/" ++ toString host id) env
                  ltac:(congruence) maxRetries st ltac:(unfold maxRetries; lia))
        as (n & Hn & Ht).
      exists n. split; [unfold maxRetries in Hn; lia | exact Ht].
    + left. unfold maxRetries. rewrite (retryLoop_no_credential _ _ _ _ _ Hb).
      split; [reflexivity | split; [eexists; reflexivity | right; reflexivity]].
  - left. split; [reflexivity | split; [eexists; reflexivity | left; reflexivity]].
Qed.

(** X6 — The same for [getPredictionHistory]: nothing and the authorization
    error when no token is stored, or else one to three requests for the
    history, 1000 ms apart. *)
Theorem getPredictionHistory_footprint host env st :
  (getPredictionHistory host env st = (Throw (Error "Требуется авторизация"), st)
   /\ bearer env = None)
  \/ (exists n,
        (n <= 2)%nat
        /\ trace (snd (getPredictionHistory host env st))
           = (trace st
              ++ attempts (requestOf "/api/predictions/" "GET" JNull true env) n)%list).
Proof.
  unfold getPredictionHistory. rewrite getPredictionHistory_while_retryLoop.
  destruct (bearer env) as [b |] eqn:Hb.
  - right.
    destruct (retryLoop_trace host "/api/predictions/" env
                ltac:(congruence) maxRetries st ltac:(unfold maxRetries; lia))
      as (n & Hn & Ht).
    exists n. split; [unfold maxRetries in Hn; lia | exact Ht].
  - left. unfold maxRetries. rewrite (retryLoop_no_credential _ _ _ _ _ Hb).
    split; reflexivity.
Qed.

Lemma fetchAPI_timeout host endpoint method data auth env st e :
  (auth = true -> bearer env <> None) ->
  network env (fetchCount st) = Rejected e ->
  name e = "AbortError" ->
  fetchAPI host endpoint method data auth env st
  = (Throw (Error timeoutMessage), sent (requestOf endpoint method data auth env) st).
Proof.
  intros Hb Hnet Hn.
  rewrite (fetchAPI_credential _ _ _ _ _ _ _ Hb).
  unfold tryCatch, bind. rewrite fetch_eq, Hnet, Hn. reflexivity.
Qed.

Lemma retryLoop_throw call left env st e s :
  call env st = (Throw e, s) ->
  retryLoop call (S left) env st
  = if (maxRetries <=? S (maxRetries - S left))%nat || notRetried e
    then (Throw e, s)
    else retryLoop call left env (waited retryDelay s).
Proof.
  intros H. cbn [retryLoop]. unfold tryCatch. rewrite H.
  destruct ((maxRetries <=? S (maxRetries - S left))%nat || notRetried e);
    reflexivity.
Qed.

Lemma fetchAPI_rejected host endpoint method data auth env st e :
  (auth = true -> bearer env <> None) ->
  network env (fetchCount st) = Rejected e ->
  String.eqb (name e) "AbortError" = false ->
  String.eqb (name e) "TypeError" = false ->
  fetchAPI host endpoint method data auth env st
  = (Throw e, sent (requestOf endpoint method data auth env) st).
Proof.
  intros Hb Hnet Ha Ht.
  rewrite (fetchAPI_credential _ _ _ _ _ _ _ Hb).
  unfold tryCatch, bind. rewrite fetch_eq, Hnet, Ha, Ht. reflexivity.
Qed.

(** X7 — What [getPrediction] does with a request that ran out of time
    depends on the name under which the engine rejects it. Rejected as
    [AbortError], every time: one call issues three requests, 1000 ms apart,
    and only then throws the worded timeout error. Rejected as
    [TimeoutError], with a message that has no "сервер" in it: the error is
    neither worded anew nor retried, and the call throws it after its one
    request. *)
Theorem getPrediction_on_a_timeout host id env st :
  truthy id = true ->
  bearer env <> None ->
  let r := requestOf (statusEndpoint host id) "GET" JNull true env in
  (alwaysAborted env ->
   getPrediction host id env st
   = (Throw (Error timeoutMessage),
      sent r (waited 1000 (sent r (waited 1000 (sent r st))))))
  /\ (forall e,
        network env (fetchCount st) = Rejected e ->
        name e = "TimeoutError" ->
        notRetried e = true ->
        getPrediction host id env st = (Throw e, sent r st)).
Proof.
  intros Hid Hb r. split.
  - intros Hall.
    assert (Hcall : forall s,
               fetchAPI host (statusEndpoint host id) "GET" JNull true env s
               = (Throw (Error timeoutMessage), sent r s)).
    { intros s. destruct (Hall (fetchCount s)) as (e & Hnet & Hn).
      apply (fetchAPI_timeout _ _ _ _ _ _ _ e); auto. }
    assert (Hretry : notRetried (Error timeoutMessage) = false)
      by (vm_compute; reflexivity).
    unfold getPrediction. rewrite Hid. cbn [negb].
    rewrite getPrediction_while_retryLoop. fold (statusEndpoint host id).
    unfold maxRetries at 1.
    rewrite (retryLoop_throw _ _ _ _ _ _ (Hcall st)), Hretry.
    cbn [maxRetries Nat.sub Nat.leb orb].
    rewrite (retryLoop_throw _ _ _ _ _ _ (Hcall _)), Hretry.
    cbn [maxRetries Nat.sub Nat.leb orb].
    rewrite (retryLoop_throw _ _ _ _ _ _ (Hcall _)).
    reflexivity.
  - intros e Hnet Hn Hnr.
    assert (Hcall : fetchAPI host (statusEndpoint host id) "GET" JNull true env st
                    = (Throw e, sent r st))
      by (apply fetchAPI_rejected; [auto | exact Hnet | rewrite Hn; reflexivity
                                   | rewrite Hn; reflexivity]).
    unfold getPrediction. rewrite Hid. cbn [negb].
    rewrite getPrediction_while_retryLoop. fold (statusEndpoint host id).
    unfold maxRetries at 1.
    rewrite (retryLoop_throw _ _ _ _ _ _ Hcall), Hnr, orb_true_r. reflexivity.
Qed.

(** X8 — A failed response whose JSON body gives a [detail] text without
    "сервер" in it (a 404 "Prediction not found", a 500 "Internal Server
    Error") is not retried by [getPrediction]: it throws the [detail] after
    its one request. *)
Theorem getPrediction_passes_http_errors host id env st r members d :
  truthy id = true ->
  bearer env <> None ->
  network env (fetchCount st) = Resolved r ->
  ok r = false ->
  isJson (contentType r) = true ->
  json r = inr (JObj members) ->
  lookup members "detail" = Some (JStr d) ->
  d <> "" ->
  includes d "сервер" = false ->
  getPrediction host id env st
  = (Throw (Error d), sent (requestOf (statusEndpoint host id) "GET" JNull true env) st).
Proof.
  intros Hid Hb Hnet Hok Hj Hjson Hd Hne Hs.
  unfold getPrediction. rewrite Hid. cbn [negb].
  rewrite getPrediction_while_retryLoop. fold (statusEndpoint host id).
  unfold maxRetries. cbn [retryLoop]. unfold tryCatch.
  rewrite (fetchAPI_not_ok _ _ _ _ _ _ _ _ (fun _ => Hb) Hnet Hok).
  unfold errorMessageOf, tryCatch, bind. rewrite Hj, awaitBody_eq, Hjson.
  cbn [readProp ret getProp fst]. rewrite Hd. cbn [truthy toString].
  apply String.eqb_neq in Hne. rewrite Hne. cbn [negb fst].
  unfold notRetried. cbn [message Error]. rewrite Hne, Hs. cbn [negb andb].
  rewrite orb_true_r. reflexivity.
Qed.

(** ** AuthAPI *)

Lemma register_eq host username password email env st :
  let data := registrationData username password email in
  let r1 := requestOf "/api/register" "POST" data false env in
  let r2 := requestOf "/api/users" "POST" data false env in
  register host username password email env st
  = match fst (fetchAPI host "/api/register" "POST" data false env st) with
    | Return v => (Return v, sent r1 st)
    | Throw _ => (fst (fetchAPI host "/api/users" "POST" data false env (sent r1 st)),
                  sent r2 (sent r1 st))
    end.
Proof.
  intros data r1 r2.
  unfold register. fold (registrationData username password email). fold data.
  unfold tryCatch.
  pose proof (fetchAPI_sends host "/api/register" "POST" data false env st
                ltac:(discriminate)) as H1.
  fold r1 in H1.
  destruct (fetchAPI host "/api/register" "POST" data false env st) as [[v | e] s];
    cbn [fst snd] in *; subst s; [reflexivity |].
  pose proof (fetchAPI_sends host "/api/users" "POST" data false env (sent r1 st)
                ltac:(discriminate)) as H2.
  fold r2 in H2.
  destruct (fetchAPI host "/api/users" "POST" data false env (sent r1 st)) as [o s];
    cbn [fst snd] in *; subst s; reflexivity.
Qed.

(** X9 — [register] posts the data to /api/register and, when that fails for
    whatever reason, posts the same data to /api/users: the outcome is then
    that of the second request alone, the first error is never reported.
    Neither request carries the [Authorization] header, whatever token is
    stored, and both carry the data as their body. *)
Theorem register_falls_back host username password email env st :
  let data := registrationData username password email in
  let r1 := requestOf "/api/register" "POST" data false env in
  let r2 := requestOf "/api/users" "POST" data false env in
  register host username password email env st
  = match fst (fetchAPI host "/api/register" "POST" data false env st) with
    | Return v => (Return v, sent r1 st)
    | Throw _ => (fst (fetchAPI host "/api/users" "POST" data false env (sent r1 st)),
                  sent r2 (sent r1 st))
    end
  /\ authorization r1 = None /\ authorization r2 = None
  /\ body r1 = Some data /\ body r2 = Some data.
Proof.
  intros data r1 r2. split; [apply register_eq | repeat split].
Qed.

Lemma loginErrorMessage_returns host r :
  exists msg,
    (forall env st, loginErrorMessage host r env st = (Return msg, st))
    /\ (unreadable r = true -> msg = "Ошибка при авторизации").
Proof.
  unfold loginErrorMessage, unreadable, tryCatch, bind.
  destruct (isJson (contentType r)).
  - destruct (json r) as [e | v].
    + eexists. split; [intros; reflexivity | reflexivity].
    + destruct v; cbn; eexists;
        (split; [intros; reflexivity | try discriminate; reflexivity]).
  - destruct (text r) as [e | t].
    + eexists. split; [intros; reflexivity | reflexivity].
    + eexists. split; [intros; reflexivity | discriminate].
Qed.

Lemma login_Return host username password env st v :
  fst (login host username password env st) = Return v ->
  exists r,
    network env (fetchCount st) = Resolved r
    /\ ok r = true /\ isJson (contentType r) = true /\ json r = inr v.
Proof.
  unfold login. rewrite tryCatch_rethrow. unfold bind. rewrite fetch_eq.
  destruct (network env (fetchCount st)) as [e | r]; [discriminate |].
  destruct (ok r) eqn:Hok; cbn [negb].
  - destruct (isJson (contentType r)) eqn:Hj.
    + rewrite awaitBody_eq. destruct (json r) as [e | v'] eqn:Hjson; [discriminate |].
      cbn [fst]. intros H. inversion H; subst. exists r. auto.
    + discriminate.
  - destruct (loginErrorMessage_returns host r) as (msg & E & _).
    rewrite E. discriminate.
Qed.

Lemma login_sends host username password env st :
  snd (login host username password env st) = sent (loginRequest username password) st.
Proof.
  unfold login. fold (loginRequest username password).
  rewrite tryCatch_rethrow.
  rewrite snd_bind_pure; [rewrite fetch_eq; reflexivity |].
  intro r. unfold loginErrorMessage. pure_cases.
Qed.

Lemma login_ok host username password env st r v :
  network env (fetchCount st) = Resolved r ->
  ok r = true -> isJson (contentType r) = true -> json r = inr v ->
  login host username password env st
  = (Return v, sent (loginRequest username password) st).
Proof.
  intros Hnet Hok Hj Hjson.
  unfold login. fold (loginRequest username password).
  rewrite tryCatch_rethrow. unfold bind. rewrite fetch_eq, Hnet, Hok, Hj.
  cbn [negb]. rewrite awaitBody_eq, Hjson. reflexivity.
Qed.

Lemma fetchAPI_Return host endpoint method data auth env st v :
  fst (fetchAPI host endpoint method data auth env st) = Return v ->
  (auth = true -> bearer env <> None)
  /\ exists r, network env (fetchCount st) = Resolved r /\ ok r = true.
Proof.
  intros H.
  assert (Hb : auth = true -> bearer env <> None).
  { intros -> Hb. rewrite (fetchAPI_no_credential _ _ _ _ _ _ Hb) in H. discriminate. }
  split; [exact Hb |].
  rewrite (fetchAPI_credential _ _ _ _ _ _ _ Hb) in H.
  unfold tryCatch, bind in H. rewrite fetch_eq in H.
  destruct (network env (fetchCount st)) as [e | r].
  - exfalso. cbn [throw] in H.
    destruct (String.eqb (name e) "AbortError"); [discriminate |].
    destruct (String.eqb (name e) "TypeError" && includes (message e) "Failed to fetch");
      discriminate.
  - exists r. split; [reflexivity |].
    destruct (ok r); [reflexivity |]. exfalso. cbn [negb] in H.
    destruct (errorMessageOf_returns host r) as (msg & E & _).
    rewrite E in H. discriminate.
Qed.

Lemma fetchCount_sent r st : fetchCount (sent r st) = S (fetchCount st).
Proof.
  unfold fetchCount, sent; cbn [trace]. rewrite filter_app, length_app.
  cbn. lia.
Qed.

(** X10 — [login] issues exactly one request, without a credential, and
    returns only the parsed body of a response that is [ok] and declares
    JSON: any other response, and any failure of the request or of the
    parser, makes it throw. *)
Theorem login_returns_parsed_json host username password env st v :
  fst (login host username password env st) = Return v ->
  snd (login host username password env st) = sent (loginRequest username password) st
  /\ exists r,
       network env (fetchCount st) = Resolved r
       /\ ok r = true /\ isJson (contentType r) = true /\ json r = inr v.
Proof.
  intros H. split; [apply login_sends | exact (login_Return _ _ _ _ _ _ H)].
Qed.


(** ** The poller on answers that are not pending *)

Lemma noQueryTimer_refl st : noQueryTimer st st.
Proof. exists []. split; [symmetry; apply app_nil_r | constructor]. Qed.

Lemma noQueryTimer_trans a b c :
  noQueryTimer a b -> noQueryTimer b c -> noQueryTimer a c.
Proof.
  intros (l1 & H1 & F1) (l2 & H2 & F2). exists (l1 ++ l2)%list. split.
  - rewrite H2, H1, app_assoc. reflexivity.
  - apply Forall_app. auto.
Qed.

Lemma noQueryTimer_same st st' : timers st' = timers st -> noQueryTimer st st'.
Proof. intros H. exists []. split; [rewrite H, app_nil_r; reflexivity | constructor]. Qed.

Lemma onTerminal_noQueryTimer host p : Keeps noQueryTimer (onTerminal host p).
Proof.
  assert (Hq : forall (m : M unit), (forall env st, timers (snd (m env st)) = timers st) ->
               Keeps noQueryTimer m)
    by (intros m Hm env st; apply noQueryTimer_same, Hm).
  unfold onTerminal.
  repeat (apply keeps_bind; [apply noQueryTimer_trans | | intro]).
  - apply Hq. intros env st.
    destruct (display_outcome host p env st) as [(v & ->) | (e & _ & ->)]; reflexivity.
  - apply Hq; reflexivity.
  - intros env st. rewrite <- (pure_refundExpected host p env st).
    apply noQueryTimer_refl.
  - match goal with |- Keeps _ (if ?b then _ else _) => destruct b end.
    + intros env st. exists [(1000, TLoadBalance)]. split; [reflexivity |].
      repeat constructor.
    + intros env st. apply noQueryTimer_refl.
Qed.

(** X12 — Only the exact status "pending" keeps the poller going: on any
    other answer of the status query (a [null], a text, an object with
    another status or none) [checkPredictionStatus] sets no timer for a
    further query; the only timer it may set is the delayed balance
    refresh. *)
Theorem non_pending_ends_polling host id env st p st1 :
  saneHost host = true ->
  getPrediction host id env st = (Return p, st1) ->
  isPending p = false ->
  noQueryTimer st (snd (checkPredictionStatus host id env st)).
Proof.
  intros Hsane Hget Hp.
  destruct (sameApp_getPrediction host id env st) as (Ht & _).
  rewrite Hget in Ht; cbn [snd] in Ht.
  apply noQueryTimer_trans with st1; [apply noQueryTimer_same; exact Ht |].
  rewrite (check_Return _ _ _ _ _ _ Hget). unfold tryCatch.
  assert (Hother : forall e s, isTypeError host e ->
                               noQueryTimer s (snd (onStatusError id e env s))).
  { intros e s (site & Hin & ->).
    destruct (saneHost_sites host site Hsane Hin) as [H1 H2].
    rewrite onStatusError_other by assumption.
    apply noQueryTimer_same. reflexivity. }
  assert (Hnull : {p = JUndefined \/ p = JNull} + {p <> JUndefined /\ p <> JNull}).
  { destruct p; try (right; split; discriminate); left; auto. }
  destruct Hnull as [Hnull | [Hu Hn]].
  - rewrite (onStatus_nullish _ _ _ _ _ Hnull). apply Hother. in_sites.
  - rewrite (onStatus_terminal _ _ _ _ _ Hu Hn Hp).
    pose proof (onTerminal_noQueryTimer host p env st1) as Hk.
    pose proof (onTerminal_throws host p env st1) as Hth.
    destruct (onTerminal host p env st1) as [[u | e] s]; cbn [snd] in *.
    + exact Hk.
    + eapply noQueryTimer_trans; [exact Hk |].
      apply Hother. apply (Hth e s eq_refl).
Qed.

(** ** resizeImage *)

Lemma Math_round_div a b :
  (0 < b)%Z ->
  Math_round (inject_Z a / inject_Z b) = ((2 * a + b) / (2 * b))%Z.
Proof.
  intros Hb. unfold Math_round. rewrite Zdiv_Qdiv.
  apply Qfloor_comp.
  rewrite inject_Z_plus, !inject_Z_mult.
  assert (Hnz : ~ inject_Z b == 0).
  { intros H. apply (inject_Z_injective b 0) in H. lia. }
  field. exact Hnz.
Qed.

(** X13 — [resizeImage] never enlarges: the canvas is as wide as the image
    or as [maxWidth], whichever is less, and not higher than the image; an
    image that fits is left at its size. *)
Theorem resizeImage_never_enlarges imgWidth imgHeight maxWidth :
  (0 < imgWidth)%Z -> (0 <= imgHeight)%Z -> (0 < maxWidth)%Z ->
  let size := resizeImage imgWidth imgHeight maxWidth in
  fst size = Z.min imgWidth maxWidth
  /\ (0 <= snd size <= imgHeight)%Z
  /\ ((imgWidth <= maxWidth)%Z -> size = (imgWidth, imgHeight)).
Proof.
  intros Hw Hh Hm size. subst size. unfold resizeImage.
  destruct (maxWidth <? imgWidth)%Z eqn:Hlt.
  - apply Z.ltb_lt in Hlt. cbn [fst snd].
    rewrite <- inject_Z_mult, Math_round_div by lia.
    split; [lia |]. split; [| lia].
    pose proof (Z.div_mod (2 * (imgHeight * maxWidth) + imgWidth) (2 * imgWidth)
                  ltac:(lia)) as Hd.
    pose proof (Z.mod_pos_bound (2 * (imgHeight * maxWidth) + imgWidth) (2 * imgWidth)
                  ltac:(lia)) as Hr.
    set (q := ((2 * (imgHeight * maxWidth) + imgWidth) / (2 * imgWidth))%Z) in *.
    set (r := ((2 * (imgHeight * maxWidth) + imgWidth) mod (2 * imgWidth))%Z) in *.
    split; nia.
  - apply Z.ltb_ge in Hlt. cbn [fst snd]. split; [lia |]. split; [lia | reflexivity].
Qed.

Lemma Qfloor_between k y :
  inject_Z k <= y -> y < inject_Z (k + 1) -> Qfloor y = k.
Proof.
  intros H1 H2.
  assert (Ha : (k <= Qfloor y)%Z).
  { rewrite <- (Qfloor_Z k). apply Qfloor_resp_le. exact H1. }
  assert (Hb : (Qfloor y < k + 1)%Z).
  { rewrite Zlt_Qlt. eapply Qle_lt_trans; [apply Qfloor_le | exact H2]. }
  lia.
Qed.

(** Below [2^52] the rounding of the quotient to a double does not change
    the integer to which it is rounded. *)
Lemma double_quotient_rounds_alike w P x :
  (0 < w)%Z -> (0 <= P < 4503599627370496)%Z ->
  nearestDouble x (inject_Z P / inject_Z w) ->
  Math_round x = ((2 * P + w) / (2 * w))%Z.
Proof.
  intros Hw HP [Herr Hexact].
  set (q := inject_Z P / inject_Z w) in *.
  set (k := ((2 * P + w) / (2 * w))%Z).
  pose proof (Z.div_mod (2 * P + w) (2 * w) ltac:(lia)) as Hd.
  pose proof (Z.mod_pos_bound (2 * P + w) (2 * w) ltac:(lia)) as Hr.
  fold k in Hd. set (r := ((2 * P + w) mod (2 * w))%Z) in *.
  fold k. clearbody k r.
  assert (HW : 0 < inject_Z w) by (change (inject_Z 0 < inject_Z w); rewrite <- Zlt_Qlt; exact Hw).
  assert (Hq : q * inject_Z w == inject_Z P).
  { unfold q. field. intros H. rewrite H in HW. revert HW. apply Qlt_irrefl. }
  assert (HPP0 : 0 <= inject_Z P) by (change (inject_Z 0 <= inject_Z P); rewrite <- Zle_Qle; lia).
  assert (HPP1 : inject_Z P <= 4503599627370495)
    by (change (inject_Z P <= inject_Z 4503599627370495); rewrite <- Zle_Qle; lia).
  assert (Hq0 : 0 <= q).
  { unfold q. apply Qle_shift_div_l; [exact HW |]. rewrite Qmult_0_l. exact HPP0. }
  rewrite (Qabs_pos q Hq0) in Herr.
  apply Qabs_Qle_condition in Herr. destruct Herr as [He1 He2].
  assert (Hz : 2 * inject_Z P + inject_Z w == 2 * inject_Z w * inject_Z k + inject_Z r).
  { assert (E : inject_Z (2 * P + w) == inject_Z (2 * w * k + r))
      by (rewrite Hd; reflexivity).
    rewrite !inject_Z_plus, !inject_Z_mult in E. exact E. }
  unfold Math_round.
  destruct (Z.eq_dec r 0) as [Hr0 | Hr0].
  - (* the quotient is a half of an integer: it is a double *)
    assert (Hhalf : q == inject_Z (2 * k - 1) / 2).
    { rewrite Hr0 in Hz. 
      assert (E : 2 * (q * inject_Z w) == inject_Z (2 * k - 1) * inject_Z w).
      { rewrite Hq. unfold Zminus. rewrite inject_Z_plus, inject_Z_mult.
        change (inject_Z 2) with 2. change (inject_Z (- (1))) with (-1). 
        change (inject_Z 0) with 0 in Hz.
        setoid_replace ((2 * inject_Z k + -1) * inject_Z w)
          with (2 * inject_Z w * inject_Z k - inject_Z w) by ring.
        lra. }
      assert (E2 : (2 * q - inject_Z (2 * k - 1)) * inject_Z w == 0).
      { setoid_replace ((2 * q - inject_Z (2 * k - 1)) * inject_Z w)
          with (2 * (q * inject_Z w) - inject_Z (2 * k - 1) * inject_Z w) by ring.
        lra. }
      apply Qmult_integral in E2. unfold Qdiv. change (/ 2) with (1 # 2).
      destruct E2 as [E2 | E2]; lra. }
    assert (Hx : x == q).
    { apply (Hexact (2 * k - 1)%Z); [| exact Hhalf].
      assert (Hk : (w * (2 * k - 1) = 2 * P)%Z) by (subst r; lia).
      apply Z.abs_lt. split; nia. }
    apply Qfloor_between.
    + rewrite Hx, Hhalf. unfold Zminus, Qdiv. change (/ 2) with (1 # 2).
      rewrite inject_Z_plus, inject_Z_mult.
      change (inject_Z 2) with 2. change (inject_Z (- (1))) with (-1).
      lra.
    + rewrite Hx, Hhalf. unfold Zminus, Qdiv. change (/ 2) with (1 # 2).
      rewrite !inject_Z_plus, inject_Z_mult.
      change (inject_Z 2) with 2. change (inject_Z (- (1))) with (-1).
      change (inject_Z 1) with 1. lra.
  - assert (HR1 : 1 <= inject_Z r)
      by (change (inject_Z 1 <= inject_Z r); rewrite <- Zle_Qle; lia).
    assert (HR2 : inject_Z r <= 2 * inject_Z w - 1).
    { assert (E : inject_Z r <= inject_Z (2 * w - 1)) by (rewrite <- Zle_Qle; lia).
      unfold Zminus in E. rewrite inject_Z_plus, inject_Z_mult in E. exact E. }
    assert (Hc : q * (1 # 9007199254740992) * inject_Z w
                 == inject_Z P * (1 # 9007199254740992)).
    { rewrite <- Hq. ring. }
    assert (Hlow : - (inject_Z P * (1 # 9007199254740992)) <= (x - q) * inject_Z w).
    { rewrite <- Hc. 
      setoid_replace (- (q * (1 # 9007199254740992) * inject_Z w))
        with ((- (q * (1 # 9007199254740992))) * inject_Z w) by ring.
      apply Qmult_le_compat_r; [exact He1 | apply Qlt_le_weak; exact HW]. }
    assert (Hhigh : (x - q) * inject_Z w <= inject_Z P * (1 # 9007199254740992)).
    { rewrite <- Hc. apply Qmult_le_compat_r; [exact He2 | apply Qlt_le_weak; exact HW]. }
    assert (Hxw : (x - q) * inject_Z w == x * inject_Z w - inject_Z P).
    { rewrite <- Hq. ring. }
    rewrite Hxw in Hlow, Hhigh.
    apply Qfloor_between.
    + apply (Qmult_le_r _ _ (2 * inject_Z w)); [lra |]. nra.
    + apply (Qmult_lt_r _ _ (2 * inject_Z w)); [lra |].
      rewrite inject_Z_plus. change (inject_Z 1) with 1. nra.
Qed.

(** X14 — When [resizeImage] makes an image narrower it keeps its
    proportions to the pixel, for sizes whose product of height and
    [maxWidth] is below [2^52]: the new height differs from the exact
    [height * maxWidth / width] by at most a half, and it is the height that
    the source computes, whose quotient is the nearest double. *)
Theorem resizeImage_keeps_proportions imgWidth imgHeight maxWidth :
  (0 < maxWidth < imgWidth)%Z ->
  (0 <= imgHeight)%Z ->
  (imgHeight * maxWidth < 4503599627370496)%Z ->
  let size := resizeImage imgWidth imgHeight maxWidth in
  fst size = maxWidth
  /\ (Z.abs (2 * (snd size * imgWidth - imgHeight * maxWidth)) <= imgWidth)%Z
  /\ forall x,
       nearestDouble x (inject_Z imgHeight * inject_Z maxWidth / inject_Z imgWidth) ->
       Math_round x = snd size.
Proof.
  intros Hm Hh Hb size. subst size. unfold resizeImage.
  replace (maxWidth <? imgWidth)%Z with true by (symmetry; apply Z.ltb_lt; lia).
  cbn [fst snd]. split; [reflexivity |].
  rewrite <- inject_Z_mult, Math_round_div by lia.
  split.
  - pose proof (Z.div_mod (2 * (imgHeight * maxWidth) + imgWidth) (2 * imgWidth)
                  ltac:(lia)) as Hd.
    pose proof (Z.mod_pos_bound (2 * (imgHeight * maxWidth) + imgWidth) (2 * imgWidth)
                  ltac:(lia)) as Hr.
    set (q := ((2 * (imgHeight * maxWidth) + imgWidth) / (2 * imgWidth))%Z) in *.
    set (r := ((2 * (imgHeight * maxWidth) + imgWidth) mod (2 * imgWidth))%Z) in *.
    apply Z.abs_le. nia.
  - intros x Hx. apply double_quotient_rounds_alike; [lia | nia | exact Hx].
Qed.

(** * Properties of the page *)

Lemma page_eta pg : withApp (app pg) pg = pg.
Proof. destruct pg; reflexivity. Qed.

Lemma showCount_sent r st : showCount (sent r st) = showCount st.
Proof.
  unfold showCount, sent; cbn [trace]. rewrite filter_app. cbn.
  rewrite app_nil_r. reflexivity.
Qed.

(** Code that shows nothing leaves the pane of the page alone. *)
Lemma core_quiet {A} (m : M A) net pg :
  showCount (snd (m (envOf net pg) (app pg))) = showCount (app pg) ->
  core m net pg
  = (fst (m (envOf net pg) (app pg)), withApp (snd (m (envOf net pg) (app pg))) pg).
Proof.
  intros H. unfold core. cbv zeta. rewrite H, Nat.ltb_irrefl. reflexivity.
Qed.

Lemma core_pure {A} (m : M A) net pg :
  Pure m -> core m net pg = (fst (m (envOf net pg) (app pg)), pg).
Proof.
  intros H. rewrite core_quiet; rewrite <- (H (envOf net pg) (app pg));
    [rewrite page_eta |]; reflexivity.
Qed.

Lemma onAuth_eq f net pg : onAuth f net pg = (Return tt, withAuth (f (auth pg)) pg).
Proof. reflexivity. Qed.

Lemma bearer_envOf net pg :
  bearer (envOf net pg)
  = match storedToken (auth pg) with
    | Some t => if String.eqb t "" then None else Some ("Bearer " ++ t)
    | None => None
    end.
Proof. reflexivity. Qed.

Lemma core_fetchAPI host endpoint method data auth0 net pg :
  (auth0 = true -> bearer (envOf net pg) <> None) ->
  core (fetchAPI host endpoint method data auth0) net pg
  = (fst (fetchAPI host endpoint method data auth0 (envOf net pg) (app pg)),
     withApp (sent (requestOf endpoint method data auth0 (envOf net pg)) (app pg)) pg).
Proof.
  intros Hb. rewrite core_quiet; rewrite (fetchAPI_sends _ _ _ _ _ _ _ Hb);
    [reflexivity | apply showCount_sent].
Qed.

Lemma core_fetchAPI_no_credential host endpoint method data net pg :
  bearer (envOf net pg) = None ->
  core (fetchAPI host endpoint method data true) net pg
  = (Throw (Error "Требуется авторизация"), pg).
Proof.
  intros Hb. rewrite core_quiet; rewrite (fetchAPI_no_credential _ _ _ _ _ _ Hb);
    cbn [fst snd]; [rewrite page_eta |]; reflexivity.
Qed.

Lemma core_login host username password net pg :
  core (login host username password) net pg
  = (fst (login host username password (envOf net pg) (app pg)),
     withApp (sent (loginRequest username password) (app pg)) pg).
Proof.
  rewrite core_quiet; rewrite login_sends; [reflexivity | apply showCount_sent].
Qed.

Lemma core_readProp host v key net pg :
  core (readProp host v key) net pg
  = (match v with
     | JUndefined | JNull => Throw (TypeError host (ReadOfNullish key))
     | _ => Return (getProp v key)
     end, pg).
Proof.
  rewrite core_pure by apply pure_readProp. destruct v; reflexivity.
Qed.

(** ** Auth *)

Lemma updateUI_keeps a :
  session (updateUI a) = session a
  /\ loginError (updateUI a) = loginError a
  /\ registerError (updateUI a) = registerError a
  /\ loginModal (updateUI a) = loginModal a
  /\ registerModal (updateUI a) = registerModal a.
Proof.
  unfold updateUI. destruct (isAuthenticated a && truthy (user a)); repeat split.
Qed.

Lemma storedToken_updateUI a : storedToken (updateUI a) = storedToken a.
Proof. unfold updateUI. destruct (isAuthenticated a && truthy (user a)); reflexivity. Qed.

Lemma isAuthenticated_updateUI a : isAuthenticated (updateUI a) = isAuthenticated a.
Proof. unfold updateUI. destruct (isAuthenticated a && truthy (user a)); reflexivity. Qed.

Lemma loginError_updateUI a : loginError (updateUI a) = loginError a.
Proof. unfold updateUI. destruct (isAuthenticated a && truthy (user a)); reflexivity. Qed.

(** X15 — After [handleLogout] the session is over for the whole client: no
    token and no user are stored, [isLoggedIn] is false, the page shows no
    user; every authorized request then fails before it reaches the network,
    and [loadBalance] does nothing. *)
Theorem handleLogout_ends_session host net pg endpoint method data :
  let pg' := snd (onAuth handleLogout net pg) in
  session (auth pg') = (None, None, JNull, JNull, false)
  /\ isLoggedIn (auth pg') = false
  /\ userShown (auth pg') = false
  /\ core (fetchAPI host endpoint method data true) net pg'
     = (Throw (Error "Требуется авторизация"), pg')
  /\ App_loadBalance host net pg' = (Return tt, pg').
Proof.
  cbn zeta. rewrite onAuth_eq. cbn [snd].
  repeat split.
  apply core_fetchAPI_no_credential. reflexivity.
Qed.


(** The steps of a sign-in, once the login has answered. *)
Lemma signIn_eq host response net pg :
  signIn host response net pg
  = if nullish response then
      (Throw (TypeError host (ReadOfNullish "access_token")), pg)
    else
      let pg1 := withAuth (tokenKept host response (auth pg)) pg in
      if String.eqb (tokenOf host response) "" then
        (Throw (Error "Требуется авторизация"), pg1)
      else
        let pg2 := withApp (sent (userRequest (tokenOf host response)) (app pg)) pg1 in
        match fst (getCurrentUser host (envOf net pg1) (app pg)) with
        | Throw e => (Throw e, pg2)
        | Return u => (Return tt, withAuth (signedIn host response u (auth pg)) pg2)
        end.
Proof.
  unfold signIn. unfold pbind at 1. rewrite core_readProp.
  assert (Hgo : forall token,
    (onAuth (storeToken host token) ~;;
     u <~ core (getCurrentUser host) ;;
     onAuth (storeUser u) ~;;
     onAuth (setAuthenticated true) ~;;
     onAuth updateUI ~;;
     onAuth closeModals) net pg
    = let pg1 := withAuth (storeToken host token (auth pg)) pg in
      if String.eqb (toString host token) "" then
        (Throw (Error "Требуется авторизация"), pg1)
      else
        let pg2 := withApp (sent (userRequest (toString host token)) (app pg)) pg1 in
        match fst (getCurrentUser host (envOf net pg1) (app pg)) with
        | Throw e => (Throw e, pg2)
        | Return u =>
            (Return tt,
             withAuth (closeModals (updateUI (setAuthenticated true
                          (storeUser u (storeToken host token (auth pg)))))) pg2)
        end).
  { intros token. unfold pbind at 1. rewrite onAuth_eq. cbv zeta.
    set (pg1 := withAuth (storeToken host token (auth pg)) pg).
    unfold pbind at 1. unfold getCurrentUser.
    destruct (String.eqb (toString host token) "") eqn:He.
    - rewrite core_fetchAPI_no_credential; [reflexivity |].
      rewrite bearer_envOf. cbn. rewrite He. reflexivity.
    - rewrite core_fetchAPI
        by (intros _; rewrite bearer_envOf; cbn; rewrite He; discriminate).
      assert (Hr : requestOf "/api/users/me" "GET" JNull true (envOf net pg1)
                   = userRequest (toString host token)).
      { unfold requestOf, userRequest. rewrite bearer_envOf. cbn. rewrite He.
        reflexivity. }
      rewrite Hr. change (app pg1) with (app pg).
      destruct (fetchAPI host "/api/users/me" "GET" JNull true (envOf net pg1) (app pg))
        as [[u | e] s]; cbn [fst]; reflexivity. }
  destruct response; try reflexivity;
    match goal with |- context [storeToken host ?t] => exact (Hgo t) end.
Qed.

Lemma handleLogin_eq host username password net pg :
  handleLogin host username password net pg
  = let pg1 := withApp (sent (loginRequest username password) (app pg))
                       (withAuth (setLoginError None (auth pg)) pg) in
    match fst (login host username password (envOf net pg) (app pg)) with
    | Throw e => (Return tt, withAuth (loginFailed e (auth pg1)) pg1)
    | Return response =>
        match signIn host response net pg1 with
        | (Return u, pg') => (Return u, pg')
        | (Throw e, pg') => (Return tt, withAuth (loginFailed e (auth pg')) pg')
        end
    end.
Proof.
  unfold handleLogin, ptryCatch. unfold pbind at 1. rewrite onAuth_eq.
  unfold pbind at 1. rewrite core_login. cbv zeta.
  change (envOf net (withAuth (setLoginError None (auth pg)) pg)) with (envOf net pg).
  change (app (withAuth (setLoginError None (auth pg)) pg)) with (app pg).
  destruct (login host username password (envOf net pg) (app pg)) as [[response | e] s];
    cbn [fst]; [| reflexivity].
  match goal with |- context [signIn ?h ?r ?n ?p] => destruct (signIn h r n p) as [[u | e] pg'] end;
    reflexivity.
Qed.


Lemma login_answers host username password net pg r response :
  net (fetchCount (app pg)) = Resolved r ->
  answers r response ->
  login host username password (envOf net pg) (app pg)
  = (Return response, sent (loginRequest username password) (app pg)).
Proof.
  intros Hnet (Hok & Hj & Hjson). apply (login_ok _ _ _ _ _ r); assumption.
Qed.


Lemma checkAuthStatus_eq host net pg :
  checkAuthStatus host net pg
  = if truthy (authToken (auth pg)) then
      match bearer (envOf net pg) with
      | None => (Return tt, withAuth (updateUI (handleLogout (auth pg))) pg)
      | Some b =>
          let pg1 := withApp (sent (requestOf "/api/users/me" "GET" JNull true
                                              (envOf net pg)) (app pg)) pg in
          match fst (getCurrentUser host (envOf net pg) (app pg)) with
          | Return u =>
              (Return tt,
               withAuth (updateUI (setAuthenticated true (storeUser u (auth pg)))) pg1)
          | Throw _ => (Return tt, withAuth (updateUI (handleLogout (auth pg))) pg1)
          end
      end
    else (Return tt, withAuth (updateUI (auth pg)) pg).
Proof.
  unfold checkAuthStatus. unfold pbind at 1. cbn [getAuth].
  destruct (truthy (authToken (auth pg))); [| reflexivity].
  unfold pbind at 1. unfold ptryCatch. unfold pbind at 1. unfold getCurrentUser.
  destruct (bearer (envOf net pg)) as [b |] eqn:Hb.
  - rewrite core_fetchAPI by (intros _; congruence). cbv zeta.
    destruct (fetchAPI host "/api/users/me" "GET" JNull true (envOf net pg) (app pg))
      as [[u | e] s]; reflexivity.
  - rewrite core_fetchAPI_no_credential by exact Hb. reflexivity.
Qed.


Lemma register_Throw host username password email env st e :
  fst (register host username password email env st) = Throw e ->
  let data := registrationData username password email in
  snd (register host username password email env st)
  = sent (requestOf "/api/users" "POST" data false env)
         (sent (requestOf "/api/register" "POST" data false env) st).
Proof.
  intros H data. pose proof (register_eq host username password email env st) as E.
  cbv zeta in E. rewrite E in *. fold data in H |- *.
  destruct (fst (fetchAPI host "/api/register" "POST" data false env st));
    [discriminate | reflexivity].
Qed.

Lemma showCount_register host username password email env st :
  showCount (snd (register host username password email env st)) = showCount st.
Proof.
  pose proof (register_eq host username password email env st) as E.
  cbv zeta in E. rewrite E.
  destruct (fst (fetchAPI host "/api/register" "POST"
                          (registrationData username password email) false env st));
    cbn [snd]; rewrite ?showCount_sent; reflexivity.
Qed.

Lemma handleRegister_refused host net pg username email password e :
  fst (register host (JStr username) (JStr password) (JStr email)
                (envOf net pg) (app pg)) = Throw e ->
  let data := registrationData (JStr username) (JStr password) (JStr email) in
  handleRegister host username email password net pg
  = (Return tt,
     withAuth (registerFailed e (setRegisterError None (auth pg)))
       (withApp (sent (requestOf "/api/users" "POST" data false (envOf net pg))
                   (sent (requestOf "/api/register" "POST" data false (envOf net pg))
                         (app pg))) pg)).
Proof.
  intros H. cbv zeta.
  pose proof (register_Throw _ _ _ _ _ _ _ H) as Hs. cbv zeta in Hs.
  unfold handleRegister, ptryCatch. unfold pbind at 1. rewrite onAuth_eq.
  unfold pbind at 1.
  rewrite core_quiet by apply showCount_register.
  change (envOf net (withAuth (setRegisterError None (auth pg)) pg)) with (envOf net pg).
  change (app (withAuth (setRegisterError None (auth pg)) pg)) with (app pg).
  rewrite Hs.
  destruct (register host (JStr username) (JStr password) (JStr email)
                     (envOf net pg) (app pg)) as [[v | e'] s];
    cbn [fst] in H |- *; [discriminate |].
  injection H as ->. reflexivity.
Qed.

(** X19 — [handleRegister] logs in only once the registration has gone
    through: when both addresses refuse it, the handler shows the error of the
    second, issues no login request, and leaves the session and the stored
    token as they were. It does not throw. *)
Theorem handleRegister_stops_at_refusal host net pg username email password e :
  fst (register host (JStr username) (JStr password) (JStr email)
                (envOf net pg) (app pg)) = Throw e ->
  let data := registrationData (JStr username) (JStr password) (JStr email) in
  let r := handleRegister host username email password net pg in
  fst r = Return tt
  /\ session (auth (snd r)) = session (auth pg)
  /\ registerError (auth (snd r)) = Some (messageOr e "Ошибка при регистрации")
  /\ trace (app (snd r))
     = (trace (app pg)
        ++ [EFetch (requestOf "/api/register" "POST" data false (envOf net pg));
            EFetch (requestOf "/api/users" "POST" data false (envOf net pg))])%list.
Proof.
  intros H. cbv zeta.
  pose proof (handleRegister_refused _ _ _ _ _ _ _ H) as E. cbv zeta in E.
  rewrite E.
  split; [reflexivity |]. split; [reflexivity |]. split; [reflexivity |].
  cbn [snd app withApp withAuth sent trace].
  rewrite <- app_assoc. reflexivity.
Qed.

(** ** The balance *)

Lemma showCount_withTimer d task st : showCount (withTimer d task st) = showCount st.
Proof.
  unfold showCount, withTimer; cbn [trace]. rewrite filter_app. cbn.
  rewrite app_nil_r. reflexivity.
Qed.

Lemma core_setTimeout task d net pg :
  core (setTimeout task d) net pg = (Return tt, withApp (withTimer d task (app pg)) pg).
Proof.
  rewrite core_quiet; [reflexivity |].
  change (snd (setTimeout task d (envOf net pg) (app pg))) with (withTimer d task (app pg)).
  apply showCount_withTimer.
Qed.

Lemma onBalanceError_eq e net pg :
  onBalanceError e net pg = (Return tt, balanceFailed e pg).
Proof.
  unfold onBalanceError, balanceFailed.
  destruct (negb (String.eqb (message e) "")
            && includes (message e) "Internal Server Error"); [| reflexivity].
  unfold pbind. cbn [setCurrentBalance]. rewrite core_setTimeout. reflexivity.
Qed.

Lemma showBalance_cases host balance net pg :
  (exists b, showBalance host balance net pg = (Return tt, withBalance b pg))
  \/ (exists e, showBalance host balance net pg = (Throw e, pg)).
Proof.
  unfold showBalance.
  destruct (truthy balance && negb (isUndefined (getProp balance "balance"))).
  - destruct (getProp balance "balance"); cbn;
      first [left; eexists; reflexivity | right; eexists; reflexivity].
  - destruct (truthy balance && negb (isUndefined (getProp balance "amount"))).
    + destruct (getProp balance "amount"); cbn;
        first [left; eexists; reflexivity | right; eexists; reflexivity].
    + right. eexists. reflexivity.
Qed.

Lemma core_getBalance host net pg :
  core (getBalance host) net pg
  = match bearer (envOf net pg) with
    | None => (Throw (Error "Требуется авторизация"), pg)
    | Some b =>
        (fst (getBalance host (envOf net pg) (app pg)),
         withApp (sent (requestOf "/api/balance/" "GET" JNull true (envOf net pg))
                       (app pg)) pg)
    end.
Proof.
  unfold getBalance. destruct (bearer (envOf net pg)) as [b |] eqn:Hb.
  - apply core_fetchAPI. intros _. congruence.
  - apply core_fetchAPI_no_credential. exact Hb.
Qed.

Lemma App_loadBalance_eq host net pg :
  isLoggedIn (auth pg) = true ->
  App_loadBalance host net pg
  = match core (getBalance host) net pg with
    | (Return balance, pg1) =>
        match showBalance host balance net pg1 with
        | (Return u, pg2) => (Return u, pg2)
        | (Throw e, pg2) => onBalanceError e net pg2
        end
    | (Throw e, pg1) => onBalanceError e net pg1
    end.
Proof.
  intros Hin. unfold App_loadBalance. unfold pbind at 1. cbn [getAuth].
  rewrite Hin. cbn [negb]. unfold ptryCatch, pbind.
  destruct (core (getBalance host) net pg) as [[balance | e] pg1]; reflexivity.
Qed.

(** What [loadBalance] comes to, by the outcome of its request and of the
    display. *)
Lemma App_loadBalance_cases host net pg :
  isLoggedIn (auth pg) = true ->
  exists pg1,
    (pg1 = pg
     \/ pg1 = withApp (sent (requestOf "/api/balance/" "GET" JNull true (envOf net pg))
                            (app pg)) pg)
    /\ ((exists b, App_loadBalance host net pg = (Return tt, withBalance b pg1))
        \/ (exists e, App_loadBalance host net pg = (Return tt, balanceFailed e pg1))).
Proof.
  intros Hin. rewrite (App_loadBalance_eq _ _ _ Hin), core_getBalance.
  destruct (bearer (envOf net pg)) as [b |].
  - eexists. split; [right; reflexivity |].
    destruct (fst (getBalance host (envOf net pg) (app pg))) as [balance | e].
    + match goal with |- context [showBalance host balance net ?p] =>
        destruct (showBalance_cases host balance net p) as [(b' & ->) | (e & ->)] end.
      * left. eexists. reflexivity.
      * right. exists e. apply onBalanceError_eq.
    + right. exists e. apply onBalanceError_eq.
  - exists pg. split; [left; reflexivity |].
    right. eexists. apply onBalanceError_eq.
Qed.

Lemma requests_sent r st pg :
  requests (withApp (sent r st) pg) = (filter isFetch (trace st) ++ [EFetch r])%list.
Proof. unfold requests; cbn [app withApp sent trace]. apply filter_app. Qed.

Lemma balanceFailed_frame e pg :
  auth (balanceFailed e pg) = auth pg
  /\ pane (balanceFailed e pg) = pane pg
  /\ counters (app (balanceFailed e pg)) = counters (app pg)
  /\ requests (balanceFailed e pg) = requests pg
  /\ (timers (app (balanceFailed e pg)) = timers (app pg)
      \/ (timers (app (balanceFailed e pg))
          = (timers (app pg) ++ [(3000, TLoadBalance)])%list
          /\ currentBalance (balanceFailed e pg) = BalanceLoading)).
Proof.
  unfold balanceFailed.
  destruct (negb (String.eqb (message e) "")
            && includes (message e) "Internal Server Error").
  - repeat split.
    + unfold requests; cbn [app withApp withTimer trace]. rewrite filter_app. cbn.
      apply app_nil_r.
    + right. split; reflexivity.
  - repeat split. left. reflexivity.
Qed.

(** X20 — [loadBalance] never throws and touches nothing but the balance
    shown: the session, the result pane and the counters of the poller stay.
    It issues at most one request, and the only timer it ever sets is its own
    repetition after 3000 ms, with the waiting text shown. *)
Theorem loadBalance_footprint host net pg :
  let r := App_loadBalance host net pg in
  fst r = Return tt
  /\ auth (snd r) = auth pg /\ pane (snd r) = pane pg
  /\ counters (app (snd r)) = counters (app pg)
  /\ (requests (snd r) = requests pg
      \/ exists rq, requests (snd r) = (requests pg ++ [EFetch rq])%list)
  /\ (timers (app (snd r)) = timers (app pg)
      \/ (timers (app (snd r)) = (timers (app pg) ++ [(3000, TLoadBalance)])%list
          /\ currentBalance (snd r) = BalanceLoading)).
Proof.
  cbv zeta. destruct (isLoggedIn (auth pg)) eqn:Hin.
  2: { unfold App_loadBalance, pbind. cbn [getAuth]. rewrite Hin. cbn.
       repeat split; left; reflexivity. }
  destruct (App_loadBalance_cases host net pg Hin)
    as (pg1 & Hpg1 & [(b & ->) | (e & ->)]); cbn [fst snd].
  - destruct Hpg1 as [-> | ->].
    + repeat split; left; reflexivity.
    + repeat split; [right; eexists; apply requests_sent | left; reflexivity].
  - destruct (balanceFailed_frame e pg1) as (Ha & Hp & Hc & Hr & Ht).
    rewrite Ha, Hp, Hc, Hr.
    destruct Hpg1 as [-> | ->].
    + repeat split; [left; reflexivity | exact Ht].
    + repeat split; [right; eexists; apply requests_sent | exact Ht].
Qed.

(** X21 — A failure of the balance request whose message contains
    "Internal Server Error" makes [loadBalance] show the waiting text and call
    itself again after 3000 ms. Nothing counts these repetitions: the same
    happens at every such failure, however many came before. *)
Theorem loadBalance_retries_server_faults host net pg e :
  isLoggedIn (auth pg) = true ->
  fst (getBalance host (envOf net pg) (app pg)) = Throw e ->
  includes (message e) "Internal Server Error" = true ->
  let pg' := snd (App_loadBalance host net pg) in
  currentBalance pg' = BalanceLoading
  /\ timers (app pg') = (timers (app pg) ++ [(3000, TLoadBalance)])%list
  /\ counters (app pg') = counters (app pg).
Proof.
  intros Hin He Hm. cbv zeta.
  rewrite (App_loadBalance_eq _ _ _ Hin), core_getBalance.
  assert (Hne : String.eqb (message e) "" = false)
    by (apply (includes_nonempty _ "Internal Server Error"); [discriminate | exact Hm]).
  destruct (bearer (envOf net pg)) as [b |] eqn:Hb.
  - rewrite He, onBalanceError_eq. unfold balanceFailed. rewrite Hne, Hm.
    repeat split.
  - unfold getBalance in He. rewrite (fetchAPI_no_credential _ _ _ _ _ _ Hb) in He.
    injection He as <-. vm_compute in Hm. discriminate.
Qed.

(** X22 — [loadBalance] shows the member [balance] of the answer when it is
    there, whatever [amount] is, and [amount] only when [balance] is absent;
    it then sets no timer. *)
Theorem loadBalance_prefers_balance host net pg members q :
  isLoggedIn (auth pg) = true ->
  fst (getBalance host (envOf net pg) (app pg)) = Return (JObj members) ->
  lookup members "balance" = Some (JNum q)
  \/ (lookup members "balance" = None /\ lookup members "amount" = Some (JNum q)) ->
  let pg' := snd (App_loadBalance host net pg) in
  currentBalance pg' = BalanceAmount q
  /\ timers (app pg') = timers (app pg).
Proof.
  intros Hin Hb Hm. cbv zeta.
  rewrite (App_loadBalance_eq _ _ _ Hin), core_getBalance.
  destruct (bearer (envOf net pg)) as [b |] eqn:Hbe.
  2: { unfold getBalance in Hb. rewrite (fetchAPI_no_credential _ _ _ _ _ _ Hbe) in Hb.
       discriminate. }
  rewrite Hb. unfold showBalance. cbn [truthy getProp andb].
  destruct Hm as [H1 | [H1 H2]].
  - rewrite H1. cbn. split; reflexivity.
  - rewrite H1, H2. cbn. split; reflexivity.
Qed.

(** ** The submission of a transaction *)

Lemma handlePredictionError_eq e net pg :
  handlePredictionError e net pg = (Return tt, analysisFailed e pg).
Proof.
  unfold handlePredictionError, analysisFailed, aboutFunds.
  destruct (negb (String.eqb (message e) "")
            && (includes (message e) "баланс" || includes (message e) "средств"));
    [reflexivity |].
  destruct (negb (String.eqb (message e) "")
            && includes (message e) "Internal Server Error"); reflexivity.
Qed.

Lemma analyzeTransaction_form host form env st :
  analyzeTransaction host (transactionDataOf form) env st
  = fetchAPI host "/api/predictions/predict" "POST"
             (envelope (transactionDataOf form)) true env st.
Proof.
  unfold analyzeTransaction. cbn [truthy transactionDataOf typeOf negb orb].
  change (String.eqb "object" "object") with true. cbn [negb orb].
  unfold bind.
  replace (checkFields requiredFields (transactionDataOf form) env st)
    with (Return tt, st) by reflexivity.
  apply tryCatch_rethrow.
Qed.

Lemma showCount_shown v st : showCount (shown v st) = S (showCount st).
Proof.
  unfold showCount, shown; cbn [trace]. rewrite filter_app, length_app. cbn. lia.
Qed.

Lemma core_shown (m : M unit) v net pg :
  m (envOf net pg) (app pg) = (Return tt, shown v (app pg)) ->
  core m net pg = (Return tt, withApp (shown v (app pg)) (withPane (PaneOf v) pg)).
Proof.
  intros H. unfold core. rewrite H. cbn [fst snd]. rewrite showCount_shown.
  replace (showCount (app pg) <? S (showCount (app pg)))%nat with true
    by (symmetry; apply Nat.ltb_lt; lia).
  reflexivity.
Qed.

Lemma core_display host p net pg :
  truthy p = true ->
  core (displayPredictionResult host p) net pg
  = if displayFails p then (Throw (displayError host p), pg)
    else (Return tt, displayed p pg).
Proof.
  intros Hp. destruct (displayFails p) eqn:Hd.
  - unfold core. rewrite (display_spec _ _ _ _ Hp), Hd. cbn [fst snd].
    rewrite Nat.ltb_irrefl, page_eta. reflexivity.
  - apply core_shown. rewrite (display_spec _ _ _ _ Hp), Hd. reflexivity.
Qed.

Lemma core_loadBalance net pg :
  core loadBalance net pg = (Return tt, withApp (refreshed (app pg)) pg).
Proof.
  rewrite core_quiet; [reflexivity |].
  change (snd (loadBalance (envOf net pg) (app pg))) with (refreshed (app pg)).
  unfold showCount, refreshed; cbn [trace]. rewrite filter_app. cbn.
  rewrite app_nil_r. reflexivity.
Qed.

(** What the handler does with the answer of the submission. *)
Lemma onAnalysis_eq host prediction net pg :
  onAnalysis host prediction net pg
  = if negb (identified prediction) then (Throw noIdentifier, pg)
    else if displayFails prediction then (Throw (displayError host prediction), pg)
    else if isPending prediction then
      (Return tt,
       withApp (withTimer 2000 (TCheckPredictionStatus (getProp prediction "prediction_id"))
                          (shown (VPrediction prediction) (app pg)))
               (displayed prediction pg))
    else
      (Return tt,
       withApp (refreshed (shown (VPrediction prediction) (app pg)))
               (displayed prediction pg)).
Proof.
  unfold onAnalysis, identified, isPending.
  rewrite <- negb_andb.
  destruct (truthy prediction) eqn:Hp; cbn [andb negb]; [| reflexivity].
  destruct (truthy (getProp prediction "prediction_id")); cbn [negb]; [| reflexivity].
  destruct (strictEqStr (getProp prediction "status") "pending") eqn:Hs;
    unfold pbind; rewrite (core_display _ _ _ _ Hp);
    destruct (displayFails prediction); try reflexivity.
  - rewrite core_setTimeout. reflexivity.
  - rewrite core_loadBalance. reflexivity.
Qed.

Lemma handleTransactionAnalysis_eq host form net pg :
  formRejected form = false ->
  handleTransactionAnalysis host form net pg
  = match core (analyzeTransaction host (transactionDataOf form)) net (loading pg) with
    | (Return prediction, pg1) =>
        match onAnalysis host prediction net pg1 with
        | (Return u, pg2) => (Return u, pg2)
        | (Throw e, pg2) => (Return tt, analysisFailed e pg2)
        end
    | (Throw e, pg1) => (Return tt, analysisFailed e pg1)
    end.
Proof.
  intros Hf. unfold handleTransactionAnalysis. rewrite Hf.
  unfold pbind at 1. cbn [setPane]. unfold pbind at 1. cbn [showResult].
  change (mkPage (app (withPane PaneLoading pg)) (auth (withPane PaneLoading pg))
                 (pane (withPane PaneLoading pg)) true (alerts (withPane PaneLoading pg))
                 (currentBalance (withPane PaneLoading pg))
                 (pageTimers (withPane PaneLoading pg)))
    with (loading pg).
  unfold ptryCatch, pbind.
  destruct (core (analyzeTransaction host (transactionDataOf form)) net (loading pg))
    as [[prediction | e] pg1].
  - destruct (onAnalysis host prediction net pg1) as [[u | e] pg2];
      [reflexivity | apply handlePredictionError_eq].
  - apply handlePredictionError_eq.
Qed.

Lemma core_analyzeTransaction host form net pg :
  core (analyzeTransaction host (transactionDataOf form)) net pg
  = match bearer (envOf net pg) with
    | None => (Throw (Error "Требуется авторизация"), pg)
    | Some b =>
        (fst (analyzeTransaction host (transactionDataOf form) (envOf net pg) (app pg)),
         withApp (sent (requestOf "/api/predictions/predict" "POST"
                                  (envelope (transactionDataOf form)) true (envOf net pg))
                       (app pg)) pg)
    end.
Proof.
  assert (E : core (analyzeTransaction host (transactionDataOf form)) net pg
              = core (fetchAPI host "/api/predictions/predict" "POST"
                               (envelope (transactionDataOf form)) true) net pg).
  { unfold core. rewrite analyzeTransaction_form. reflexivity. }
  rewrite E, analyzeTransaction_form.
  destruct (bearer (envOf net pg)) as [b |] eqn:Hb.
  - apply core_fetchAPI. intros _. congruence.
  - apply core_fetchAPI_no_credential. exact Hb.
Qed.

Lemma core_analysis_answered host form net pg o :
  fst (analyzeTransaction host (transactionDataOf form) (envOf net pg) (app pg)) = o ->
  (forall e, o = Throw e -> bearer (envOf net pg) <> None) ->
  core (analyzeTransaction host (transactionDataOf form)) net (loading pg)
  = (o, withApp (sent (submissionOf form net pg) (app pg)) (loading pg)).
Proof.
  intros Ho Hb. rewrite core_analyzeTransaction.
  change (envOf net (loading pg)) with (envOf net pg).
  change (app (loading pg)) with (app pg).
  destruct (bearer (envOf net pg)) as [b |] eqn:Hbe.
  - rewrite Ho. reflexivity.
  - exfalso. rewrite analyzeTransaction_form in Ho.
    rewrite (fetchAPI_no_credential _ _ _ _ _ _ Hbe) in Ho. cbn [fst] in Ho.
    apply (Hb _ (eq_sym Ho)). reflexivity.
Qed.

Lemma analysisFailed_frame e pg :
  app (analysisFailed e pg) = app pg
  /\ auth (analysisFailed e pg) = auth pg
  /\ resultVisible (analysisFailed e pg) = resultVisible pg
  /\ pane (analysisFailed e pg) <> PaneLoading
  /\ (pageTimers (analysisFailed e pg) = pageTimers pg
      \/ pageTimers (analysisFailed e pg)
         = (pageTimers pg ++ [(100, TBindBalanceButton)])%list).
Proof.
  unfold analysisFailed.
  destruct (negb (String.eqb (message e) "") && aboutFunds e);
    [repeat split; [discriminate | right; reflexivity] |].
  destruct (negb (String.eqb (message e) "")
            && includes (message e) "Internal Server Error");
    repeat split; first [discriminate | left; reflexivity].
Qed.

(** X23 — What the form handler sends always passes the validation of
    [analyzeTransaction]: for a form that was accepted the call is the one
    POST of the data in its envelope, and every required field of the data
    has a value, no text empty. *)
Theorem accepted_form_passes_validation host form env st :
  formRejected form = false ->
  analyzeTransaction host (transactionDataOf form) env st
  = fetchAPI host "/api/predictions/predict" "POST"
             (envelope (transactionDataOf form)) true env st
  /\ validPayload (transactionDataOf form) = true
  /\ forall field, In field requiredFields ->
       getProp (transactionDataOf form) field <> JUndefined
       /\ getProp (transactionDataOf form) field <> JStr "".
Proof.
  intros Hf. split; [apply analyzeTransaction_form |]. split; [reflexivity |].
  unfold formRejected in Hf.
  repeat match type of Hf with
         | (_ || _) = false => apply orb_false_elim in Hf; destruct Hf as [Hf ?]
         end.
  repeat match goal with
         | H : String.eqb _ "" = false |- _ => apply String.eqb_neq in H
         end.
  intros field Hin. unfold requiredFields in Hin. cbn [In] in Hin.
  repeat match goal with
         | H : _ \/ _ |- _ => destruct H as [<- | H]
         | H : False |- _ => destruct H
         end;
    cbn;
    repeat match goal with
           | H : isNaN ?x = false |- context [number ?x] =>
               destruct x; [clear H | discriminate H]
           end;
    cbn; split; congruence.
Qed.

(** The outcomes of the handler on an accepted form. *)
Lemma handleTransactionAnalysis_cases host form net pg :
  formRejected form = false ->
  let pg1 := withApp (sent (submissionOf form net pg) (app pg)) (loading pg) in
  (exists e, handleTransactionAnalysis host form net pg
             = (Return tt, analysisFailed e (loading pg)))
  \/ (exists e, handleTransactionAnalysis host form net pg
                = (Return tt, analysisFailed e pg1))
  \/ (exists p,
        identified p = true
        /\ handleTransactionAnalysis host form net pg
           = (Return tt,
              withApp (withTimer 2000 (TCheckPredictionStatus (getProp p "prediction_id"))
                                 (shown (VPrediction p) (app pg1)))
                      (displayed p pg1)))
  \/ (exists p,
        handleTransactionAnalysis host form net pg
        = (Return tt,
           withApp (refreshed (shown (VPrediction p) (app pg1))) (displayed p pg1))).
Proof.
  intros Hf pg1. rewrite (handleTransactionAnalysis_eq _ _ _ _ Hf).
  rewrite core_analyzeTransaction.
  change (envOf net (loading pg)) with (envOf net pg).
  change (app (loading pg)) with (app pg).
  destruct (bearer (envOf net pg)) as [b |].
  2: { left. eexists. reflexivity. }
  fold (submissionOf form net pg). fold pg1.
  destruct (fst (analyzeTransaction host (transactionDataOf form) (envOf net pg) (app pg)))
    as [p | e].
  2: { right. left. eexists. reflexivity. }
  rewrite onAnalysis_eq.
  destruct (identified p) eqn:Hid; cbn [negb].
  2: { right. left. eexists. reflexivity. }
  destruct (displayFails p).
  { right. left. eexists. reflexivity. }
  destruct (isPending p).
  - right. right. left. exists p. split; [exact Hid | reflexivity].
  - right. right. right. exists p. reflexivity.
Qed.

(** X24 — On an accepted form [handleTransactionAnalysis] never throws and
    never leaves the loading text: when it returns the result pane is shown
    with a result or an error in it, and the session and the two counters of
    the poller are as they were.  All it does besides is told by the events
    it adds: nothing; or its one request, the submission; or the request, the
    answer shown and the first status query set for 2000 ms later, for an
    identifier that is truthy; or the request, the answer shown and one call
    of [loadBalance], which sends the request for the balance.  Of the
    timers of the handlers it may set the one of 100 ms that binds the
    button of the pane for insufficient funds, and no other. *)
Theorem handleTransactionAnalysis_settles host form net pg :
  formRejected form = false ->
  let r := handleTransactionAnalysis host form net pg in
  let sub := EFetch (submissionOf form net pg) in
  fst r = Return tt
  /\ resultVisible (snd r) = true
  /\ pane (snd r) <> PaneLoading
  /\ auth (snd r) = auth pg
  /\ counters (app (snd r)) = counters (app pg)
  /\ (exists evs,
        trace (app (snd r)) = (trace (app pg) ++ evs)%list
        /\ (evs = [] \/ evs = [sub]
            \/ (exists p,
                  truthy (getProp p "prediction_id") = true
                  /\ evs = [sub; EShow (VPrediction p);
                            ESetTimeout 2000
                              (TCheckPredictionStatus (getProp p "prediction_id"))]
                  /\ timers (app (snd r))
                     = (timers (app pg)
                        ++ [(2000, TCheckPredictionStatus
                                     (getProp p "prediction_id"))])%list)
            \/ (exists p, evs = [sub; EShow (VPrediction p); ELoadBalance]))
        /\ (timers (app (snd r)) = timers (app pg)
            \/ exists p, evs = [sub; EShow (VPrediction p);
                                ESetTimeout 2000
                                  (TCheckPredictionStatus
                                     (getProp p "prediction_id"))]))
  /\ (pageTimers (snd r) = pageTimers pg
      \/ pageTimers (snd r) = (pageTimers pg ++ [(100, TBindBalanceButton)])%list).
Proof.
  intros Hf. cbv zeta.
  destruct (handleTransactionAnalysis_cases host form net pg Hf)
    as [(e & ->) | [(e & ->) | [(p & Hid & ->) | (p & ->)]]]; cbn [fst snd].
  - destruct (analysisFailed_frame e (loading pg)) as (Ha & Hu & Hv & Hp & Ht).
    rewrite Ha, Hu, Hv.
    repeat split; [exact Hp | | exact Ht].
    exists []. split; [symmetry; apply app_nil_r |]. split; left; reflexivity.
  - match goal with |- context [analysisFailed e ?p] =>
      destruct (analysisFailed_frame e p) as (Ha & Hu & Hv & Hp & Ht) end.
    rewrite Ha, Hu, Hv.
    repeat split; [exact Hp | | exact Ht].
    eexists. split; [reflexivity |]. split; [right; left; reflexivity | left; reflexivity].
  - repeat split; [discriminate | | left; reflexivity].
    eexists. split.
    + cbn [app withApp withTimer shown trace loading sent displayed withPane].
      rewrite <- !app_assoc. reflexivity.
    + split.
      * right. right. left. exists p. split; [| split; reflexivity].
        unfold identified in Hid. apply andb_prop in Hid. apply Hid.
      * right. exists p. reflexivity.
  - repeat split; [discriminate | | left; reflexivity].
    eexists. split.
    + cbn [app withApp refreshed shown trace loading sent displayed withPane].
      rewrite <- !app_assoc. reflexivity.
    + split; [right; right; right; exists p; reflexivity | left; reflexivity].
Qed.

(** X25 — An answer of the submission that carries an identifier and the
    status "pending", and that [displayPredictionResult] can render, is
    shown, and the first status query for that identifier is set for 2000 ms
    later; the balance is not refreshed. *)
Theorem pending_answer_starts_polling host form net pg prediction :
  formRejected form = false ->
  fst (analyzeTransaction host (transactionDataOf form) (envOf net pg) (app pg))
  = Return prediction ->
  identified prediction = true ->
  isPending prediction = true ->
  displayFails prediction = false ->
  let pg' := snd (handleTransactionAnalysis host form net pg) in
  let id := getProp prediction "prediction_id" in
  pane pg' = PaneOf (VPrediction prediction)
  /\ trace (app pg')
     = (trace (app pg)
        ++ [EFetch (submissionOf form net pg); EShow (VPrediction prediction);
            ESetTimeout 2000 (TCheckPredictionStatus id)])%list
  /\ timers (app pg') = (timers (app pg) ++ [(2000, TCheckPredictionStatus id)])%list.
Proof.
  intros Hf Ha Hid Hp Hd. cbv zeta.
  rewrite (handleTransactionAnalysis_eq _ _ _ _ Hf).
  rewrite (core_analysis_answered _ _ _ _ _ Ha) by discriminate.
  rewrite onAnalysis_eq, Hid, Hp, Hd. cbn [negb snd].
  repeat split.
  cbn [app withApp withTimer shown trace loading sent displayed withPane].
  rewrite <- !app_assoc. reflexivity.
Qed.

(** X26 — An answer that carries an identifier and any other status, and
    that [displayPredictionResult] can render, is shown and the balance is
    refreshed once, at once. No timer is set: neither a status query nor,
    even for a failed job, the delayed refresh that the poller adds. *)
Theorem immediate_answer_refreshes_once host form net pg prediction :
  formRejected form = false ->
  fst (analyzeTransaction host (transactionDataOf form) (envOf net pg) (app pg))
  = Return prediction ->
  identified prediction = true ->
  isPending prediction = false ->
  displayFails prediction = false ->
  let pg' := snd (handleTransactionAnalysis host form net pg) in
  pane pg' = PaneOf (VPrediction prediction)
  /\ trace (app pg')
     = (trace (app pg)
        ++ [EFetch (submissionOf form net pg); EShow (VPrediction prediction);
            ELoadBalance])%list
  /\ timers (app pg') = timers (app pg).
Proof.
  intros Hf Ha Hid Hp Hd. cbv zeta.
  rewrite (handleTransactionAnalysis_eq _ _ _ _ Hf).
  rewrite (core_analysis_answered _ _ _ _ _ Ha) by discriminate.
  rewrite onAnalysis_eq, Hid, Hp, Hd. cbn [negb snd].
  repeat split.
  cbn [app withApp refreshed shown trace loading sent displayed withPane].
  rewrite <- !app_assoc. reflexivity.
Qed.

(** X27 — An answer without an identifier ([null], a text, an object whose
    [prediction_id] is absent or empty) is not shown, whatever result it
    carries: the pane gives the error that no identifier was received, no
    timer is set and the balance is not refreshed. *)
Theorem answer_without_identifier host form net pg prediction :
  formRejected form = false ->
  fst (analyzeTransaction host (transactionDataOf form) (envOf net pg) (app pg))
  = Return prediction ->
  identified prediction = false ->
  let pg' := snd (handleTransactionAnalysis host form net pg) in
  pane pg' = PaneAnalysisError "Не получен идентификатор анализа от сервера"
  /\ app pg' = sent (submissionOf form net pg) (app pg)
  /\ pageTimers pg' = pageTimers pg.
Proof.
  intros Hf Ha Hid. cbv zeta.
  rewrite (handleTransactionAnalysis_eq _ _ _ _ Hf).
  rewrite (core_analysis_answered _ _ _ _ _ Ha) by discriminate.
  rewrite onAnalysis_eq, Hid. cbn [negb snd].
  repeat split.
Qed.

(** X28 — A submission that fails is not repeated: the handler issues no
    second request and sets no timer of the poller. The pane tells the
    failures apart by the text of the error, the words for the balance
    coming before "Internal Server Error". *)
Theorem failed_submission_is_not_retried host form net pg e :
  formRejected form = false ->
  fst (analyzeTransaction host (transactionDataOf form) (envOf net pg) (app pg))
  = Throw e ->
  let pg' := snd (handleTransactionAnalysis host form net pg) in
  pane pg'
  = (if negb (String.eqb (message e) "") && aboutFunds e then PaneInsufficientFunds
     else if negb (String.eqb (message e) "")
             && includes (message e) "Internal Server Error"
          then PaneServerUnavailable
          else PaneAnalysisError (message e))
  /\ timers (app pg') = timers (app pg)
  /\ counters (app pg') = counters (app pg)
  /\ (requests pg' = requests pg
      \/ requests pg' = (requests pg ++ [EFetch (submissionOf form net pg)])%list).
Proof.
  intros Hf Ha. cbv zeta.
  rewrite (handleTransactionAnalysis_eq _ _ _ _ Hf).
  rewrite core_analyzeTransaction.
  change (envOf net (loading pg)) with (envOf net pg).
  change (app (loading pg)) with (app pg).
  assert (Hpane : forall p,
            pane (analysisFailed e p)
            = (if negb (String.eqb (message e) "") && aboutFunds e
               then PaneInsufficientFunds
               else if negb (String.eqb (message e) "")
                       && includes (message e) "Internal Server Error"
                    then PaneServerUnavailable
                    else PaneAnalysisError (message e))).
  { intros p. unfold analysisFailed.
    destruct (negb (String.eqb (message e) "") && aboutFunds e); [reflexivity |].
    destruct (negb (String.eqb (message e) "")
              && includes (message e) "Internal Server Error"); reflexivity. }
  destruct (bearer (envOf net pg)) as [b |] eqn:Hb.
  - rewrite Ha. cbn [snd].
    match goal with |- context [analysisFailed e ?p] =>
      destruct (analysisFailed_frame e p) as (Hap & _) end.
    unfold requests. rewrite Hpane, Hap.
    repeat split. right. cbn [app withApp sent trace]. apply filter_app.
  - rewrite analyzeTransaction_form, (fetchAPI_no_credential _ _ _ _ _ _ Hb) in Ha.
    injection Ha as <-. cbn [snd].
    destruct (analysisFailed_frame (Error "Требуется авторизация") (loading pg))
      as (Hap & _).
    unfold requests. rewrite Hpane, Hap. repeat split. left. reflexivity.
Qed.

(** X29 — [handlePrediction] never throws, and its own [catch] is never
    entered: for a user who is logged in it does what
    [handleTransactionAnalysis] does and nothing more; otherwise it opens the
    login dialog and touches nothing else. *)
Theorem handlePrediction_catch_is_dead host form net pg :
  handlePrediction host form net pg
  = (if isLoggedIn (auth pg) then handleTransactionAnalysis host form net pg
     else (Return tt, withAuth (showLoginModal (auth pg)) pg))
  /\ fst (handlePrediction host form net pg) = Return tt.
Proof.
  assert (Hret : fst (handleTransactionAnalysis host form net pg) = Return tt).
  { destruct (formRejected form) eqn:Hf.
    - unfold handleTransactionAnalysis. rewrite Hf. reflexivity.
    - destruct (handleTransactionAnalysis_cases host form net pg Hf)
        as [(e & ->) | [(e & ->) | [(p & _ & ->) | (p & ->)]]]; reflexivity. }
  assert (E : handlePrediction host form net pg
              = (if isLoggedIn (auth pg) then handleTransactionAnalysis host form net pg
                 else (Return tt, withAuth (showLoginModal (auth pg)) pg))).
  { unfold handlePrediction. unfold pbind at 1. cbn [getAuth].
    destruct (isLoggedIn (auth pg)); cbn [negb]; [| reflexivity].
    unfold ptryCatch.
    destruct (handleTransactionAnalysis host form net pg) as [[u | e] pg'];
      [reflexivity | discriminate]. }
  split; [exact E |]. rewrite E.
  destruct (isLoggedIn (auth pg)); [exact Hret | reflexivity].
Qed.


(** ** Instances of the theorems on the rest of the client *)

Lemma fetchAPI_hides_abort_witness :
  fst (fetchAPI exampleHost "/api/balance/" "GET" JNull true envTimeout freshApp)
  = Throw (Error timeoutMessage)
  /\ name (Error timeoutMessage) <> "AbortError".
Proof.
  split; [reflexivity |].
  exact (proj1 (fetchAPI_hides_abort exampleHost "/api/balance/" "GET" JNull true
                  envTimeout freshApp (Error timeoutMessage) eq_refl)).
Defined.


Lemma fetchAPI_truncates_text_witness :
  jsLength russianText = 80%nat
  /\ exists msg,
       fst (fetchAPI exampleHost "/api/balance/" "GET" JNull true
                     (constantly (textFailure russianText)) freshApp)
       = Throw (Error msg)
       /\ (jsLength msg <= 103)%nat
       /\ msg = russianText.
Proof.
  split; [reflexivity |].
  destruct (fetchAPI_truncates_text exampleHost "/api/balance/" "GET" JNull true
              (constantly (textFailure russianText)) freshApp
              (textFailureResponse russianText)
              russianText ltac:(discriminate) eq_refl eq_refl eq_refl eq_refl)
    as (msg & E & Hl & Hm).
  exists msg. split; [exact E |]. split; [exact Hl | exact Hm].
Defined.

Lemma envTimeout_always : alwaysAborted envTimeout.
Proof. intros n. eexists. split; reflexivity. Defined.

Lemma getPrediction_on_a_timeout_witness :
  truthy J1 = true
  /\ alwaysAborted envTimeout
  /\ fetchCount (snd (getPrediction exampleHost J1 envTimeout freshApp)) = 3%nat
  /\ getPrediction exampleHost J1 (constantly timedOut) freshApp
     = (Throw (mkError "TimeoutError" "The operation timed out."),
        sent (requestOf (statusEndpoint exampleHost J1) "GET" JNull true
                        (constantly timedOut)) freshApp).
Proof.
  split; [reflexivity |]. split; [exact envTimeout_always |]. split.
  - rewrite (proj1 (getPrediction_on_a_timeout exampleHost J1 envTimeout freshApp
                      eq_refl ltac:(discriminate)) envTimeout_always).
    reflexivity.
  - apply (proj2 (getPrediction_on_a_timeout exampleHost J1 (constantly timedOut)
                    freshApp eq_refl ltac:(discriminate)));
      reflexivity.
Defined.

Lemma getPrediction_passes_http_errors_witness :
  includes "Prediction not found" "сервер" = false
  /\ getPrediction exampleHost J1 envNotFound freshApp
     = (Throw (Error "Prediction not found"),
        sent (requestOf (statusEndpoint exampleHost J1) "GET" JNull true envNotFound)
             freshApp).
Proof.
  split; [reflexivity |].
  apply (getPrediction_passes_http_errors exampleHost J1 envNotFound freshApp
           notFoundResponse
           [("detail", JStr "Prediction not found")] "Prediction not found");
    try reflexivity; discriminate.
Defined.

Lemma login_returns_parsed_json_witness :
  fst (login exampleHost "alice" "secret" (mkEnv None netSignIn) freshApp)
  = Return tokenAnswer
  /\ snd (login exampleHost "alice" "secret" (mkEnv None netSignIn) freshApp)
     = sent (loginRequest "alice" "secret") freshApp.
Proof.
  split; [reflexivity |].
  exact (proj1 (login_returns_parsed_json exampleHost "alice" "secret"
                  (mkEnv None netSignIn) freshApp tokenAnswer eq_refl)).
Defined.


Lemma non_pending_ends_polling_witness :
  saneHost exampleHost = true
  /\ isPending failedJob = false
  /\ noQueryTimer freshApp (snd (checkPredictionStatus exampleHost J1 envFailed freshApp)).
Proof.
  split; [reflexivity |]. split; [reflexivity |].
  apply (non_pending_ends_polling exampleHost J1 envFailed freshApp failedJob
           (snd (getPrediction exampleHost J1 envFailed freshApp)));
    reflexivity.
Defined.

Lemma resizeImage_never_enlarges_witness :
  (0 < 1600)%Z /\ (0 <= 1200)%Z /\ (0 < 800)%Z
  /\ fst (resizeImage 1600 1200 800) = Z.min 1600 800
  /\ (0 <= snd (resizeImage 1600 1200 800) <= 1200)%Z.
Proof.
  split; [lia |]. split; [lia |]. split; [lia |].
  pose proof (resizeImage_never_enlarges 1600 1200 800 ltac:(lia) ltac:(lia) ltac:(lia))
    as H.
  cbv zeta in H. destruct H as (H1 & H2 & _). split; [exact H1 | exact H2].
Defined.

Lemma resizeImage_keeps_proportions_witness :
  (0 < 800 < 1000)%Z
  /\ fst (resizeImage 1000 333 800) = 800%Z
  /\ snd (resizeImage 1000 333 800) = 266%Z
  /\ (Z.abs (2 * (snd (resizeImage 1000 333 800) * 1000 - 333 * 800)) <= 1000)%Z.
Proof.
  split; [lia |].
  pose proof (resizeImage_keeps_proportions 1000 333 800 ltac:(lia) ltac:(lia)
                ltac:(lia)) as H.
  cbv zeta in H. destruct H as (H1 & H2 & _).
  split; [exact H1 |]. split; [reflexivity | exact H2].
Defined.




Lemma handleRegister_stops_at_refusal_witness :
  fst (register exampleHost (JStr "alice") (JStr "secret") (JStr "")
                (envOf netRefusing freshPage) (app freshPage))
  = Throw (Error "Username already registered")
  /\ registerError (auth (snd (handleRegister exampleHost "alice" "" "secret"
                                              netRefusing freshPage)))
     = Some "Username already registered"
  /\ fetchCount (app (snd (handleRegister exampleHost "alice" "" "secret"
                                          netRefusing freshPage))) = 2%nat.
Proof.
  split; [reflexivity |].
  pose proof (handleRegister_stops_at_refusal exampleHost netRefusing freshPage
                "alice" "" "secret" (Error "Username already registered") eq_refl) as H.
  cbv zeta in H. destruct H as (_ & _ & He & Ht).
  split; [exact He |]. unfold fetchCount. rewrite Ht. reflexivity.
Defined.

Lemma loadBalance_retries_server_faults_witness :
  isLoggedIn (auth memberPage) = true
  /\ includes "Internal Server Error" "Internal Server Error" = true
  /\ timers (app (snd (App_loadBalance exampleHost (network envServerFault) memberPage)))
     = [(3000, TLoadBalance)].
Proof.
  split; [reflexivity |]. split; [reflexivity |].
  pose proof (loadBalance_retries_server_faults exampleHost (network envServerFault)
                memberPage (Error "Internal Server Error") eq_refl eq_refl eq_refl) as H.
  cbv zeta in H. destruct H as (_ & Ht & _). exact Ht.
Defined.

Lemma loadBalance_prefers_balance_witness :
  lookup [("balance", JNum 42); ("amount", JNum 7)] "balance" = Some (JNum 42)
  /\ currentBalance (snd (App_loadBalance exampleHost (fun _ => okJson balanceAnswer)
                                          memberPage))
     = BalanceAmount 42.
Proof.
  split; [reflexivity |].
  exact (proj1 (loadBalance_prefers_balance exampleHost (fun _ => okJson balanceAnswer)
                  memberPage [("balance", JNum 42); ("amount", JNum 7)] 42
                  eq_refl eq_refl (or_introl eq_refl))).
Defined.

Lemma accepted_form_passes_validation_witness :
  formRejected exampleForm = false
  /\ validPayload (transactionDataOf exampleForm) = true.
Proof.
  split; [reflexivity |].
  exact (proj1 (proj2 (accepted_form_passes_validation exampleHost exampleForm
                         envPending freshApp eq_refl))).
Defined.

Lemma handleTransactionAnalysis_settles_witness :
  formRejected exampleForm = false
  /\ resultVisible (snd (handleTransactionAnalysis exampleHost exampleForm
                           (network envServerFault) memberPage)) = true
  /\ pane (snd (handleTransactionAnalysis exampleHost exampleForm
                  (network envServerFault) memberPage)) <> PaneLoading.
Proof.
  split; [reflexivity |].
  pose proof (handleTransactionAnalysis_settles exampleHost exampleForm
                (network envServerFault) memberPage eq_refl) as H.
  cbv zeta in H. destruct H as (_ & Hv & Hp & _). split; [exact Hv | exact Hp].
Defined.

Lemma pending_answer_starts_polling_witness :
  identified pendingJob = true
  /\ isPending pendingJob = true
  /\ displayFails pendingJob = false
  /\ timers (app (snd (handleTransactionAnalysis exampleHost exampleForm
                         (network envPending) memberPage)))
     = [(2000, TCheckPredictionStatus J1)].
Proof.
  split; [reflexivity |]. split; [reflexivity |]. split; [reflexivity |].
  pose proof (pending_answer_starts_polling exampleHost exampleForm (network envPending)
                memberPage pendingJob eq_refl eq_refl eq_refl eq_refl eq_refl) as H.
  cbv zeta in H. destruct H as (_ & _ & Ht). exact Ht.
Defined.

Lemma immediate_answer_refreshes_once_witness :
  identified failedJob = true
  /\ isPending failedJob = false
  /\ displayFails failedJob = false
  /\ timers (app (snd (handleTransactionAnalysis exampleHost exampleForm
                         (network envFailed) memberPage))) = [].
Proof.
  split; [reflexivity |]. split; [reflexivity |]. split; [reflexivity |].
  pose proof (immediate_answer_refreshes_once exampleHost exampleForm (network envFailed)
                memberPage failedJob eq_refl eq_refl eq_refl eq_refl eq_refl) as H.
  cbv zeta in H. destruct H as (_ & _ & Ht). exact Ht.
Defined.

Lemma answer_without_identifier_witness :
  identified anonymousJob = false
  /\ pane (snd (handleTransactionAnalysis exampleHost exampleForm
                  (fun _ => okJson anonymousJob) memberPage))
     = PaneAnalysisError "Не получен идентификатор анализа от сервера".
Proof.
  split; [reflexivity |].
  exact (proj1 (answer_without_identifier exampleHost exampleForm
                  (fun _ => okJson anonymousJob) memberPage anonymousJob
                  eq_refl eq_refl eq_refl)).
Defined.

Lemma failed_submission_is_not_retried_witness :
  fst (analyzeTransaction exampleHost (transactionDataOf exampleForm)
         (envOf (fun _ => failJson 402 "Payment Required" "Недостаточно средств")
                memberPage) (app memberPage))
  = Throw (Error "Недостаточно средств")
  /\ pane (snd (handleTransactionAnalysis exampleHost exampleForm
                  (fun _ => failJson 402 "Payment Required" "Недостаточно средств")
                  memberPage))
     = PaneInsufficientFunds.
Proof.
  split; [reflexivity |].
  exact (proj1 (failed_submission_is_not_retried exampleHost exampleForm
                  (fun _ => failJson 402 "Payment Required" "Недостаточно средств")
                  memberPage (Error "Недостаточно средств") eq_refl eq_refl)).
Defined.
